(** * MCP-manager: a shallow embedding of the proxy core

    The development follows the Python sources of [mcp_manager]:
    - [access/permission_engine.py], [access/client_identifier.py],
      [access/middleware.py];
    - [routing/cache.py], [routing/aggregator.py], [routing/router.py];
    - [server/process.py], [server/manager.py];
    - the [call_tool] and [list_tools] handlers of [core/manager.py];
    - [adapt_config] of [config/adaptation.py] and the validation of
      server sources of [config/manager.py].

    Python values are modelled as follows.  [str] is [string]; a [dict]
    whose iteration order is observable is an insertion-ordered association
    list ([PyDict.t]); a [dict] that is only looked up is a [gmap]; an
    exception is a value of [Py.exn] carried by [Py.result]; the wall clock
    read by [datetime.now()] is an explicit argument [now : Z]
    (microseconds since [datetime.min]); everything a backend does is an
    explicit outcome stored in the session handle of its process. *)

From Stdlib Require Import ZArith Ascii String DecimalString.
From stdpp Require Import base option list strings gmap sorting.

Local Open Scope string_scope.
Local Open Scope list_scope.

(** ** Python primitives *)

Module Py.

(** The exception classes the sources raise or catch.  An
    [asyncio.CancelledError] is told apart by where it comes from:
    [Cancelled_by_timeout] is the one that an enclosing
    [asyncio.wait_for] throws into the call it awaits when its own
    timeout fires; [CancelledError] is one of any other origin (the task
    is cancelled from outside, or the awaited call raises it itself). *)
Inductive exn : Type :=
| ValueError (msg : string)
| RuntimeError (msg : string)
| TimeoutError
| KeyError (key : string)
| NotImplementedError (msg : string)
| OverflowError (msg : string)
| Exception (msg : string)
| CancelledError
| Cancelled_by_timeout.

(** [isinstance(e, Exception)]: [asyncio.CancelledError] derives from
    [BaseException] only, so [except Exception] lets it through. *)
Definition is_exception (e : exn) : bool :=
  match e with
  | CancelledError | Cancelled_by_timeout => false
  | _ => true
  end.

(** [str(e)] *)
Definition str (e : exn) : string :=
  match e with
  | ValueError msg | RuntimeError msg => msg
  | NotImplementedError msg | OverflowError msg | Exception msg => msg
  | TimeoutError | CancelledError | Cancelled_by_timeout => EmptyString
  | KeyError key => "'" +:+ key +:+ "'"
  end.

Inductive result (A : Type) : Type :=
| Return (a : A)
| Raise (e : exn).
Arguments Return {A} a.
Arguments Raise {A} e.

Definition bind {A B : Type} (k : A -> result B) (m : result A) : result B :=
  match m with
  | Return a => k a
  | Raise e => Raise e
  end.

(** [await asyncio.wait_for(m, timeout)]: when its timeout fires the
    awaited call is cancelled and [wait_for] raises [TimeoutError] in the
    place of that cancellation.  Whatever else the awaited call returns
    or raises, a [CancelledError] of another origin included, passes
    through. *)
Definition wait_for {A : Type} (m : result A) : result A :=
  match m with
  | Raise Cancelled_by_timeout => Raise TimeoutError
  | _ => m
  end.

(** [x or d] for an optional string: [None] and the empty string are
    falsy. *)
Definition or_else (x : option string) (d : string) : string :=
  match x with
  | Some (String a s) => String a s
  | _ => d
  end.

(** The text an f-string gives for an optional string. *)
Definition format (x : option string) : string :=
  match x with
  | Some s => s
  | None => "None"
  end.

(** [c in s] for a one-character [c] *)
Fixpoint contains (c : ascii) (s : string) : bool :=
  match s with
  | EmptyString => false
  | String a s' => if Ascii.eqb a c then true else contains c s'
  end.

(** [s.split(c, 1)] unpacked into two names.  The sources call it only
    under the guard [c in s], where the Python list has exactly two
    elements: the text before the first [c] and the text after it. *)
Fixpoint split1 (c : ascii) (s : string) : string * string :=
  match s with
  | EmptyString => (EmptyString, EmptyString)
  | String a s' =>
      if Ascii.eqb a c then (EmptyString, s')
      else let '(l, r) := split1 c s' in (String a l, r)
  end.

(** [s.startswith(p)] *)
Fixpoint startswith (s p : string) {struct p} : bool :=
  match p with
  | EmptyString => true
  | String b p' =>
      match s with
      | EmptyString => false
      | String a s' => Ascii.eqb a b && startswith s' p'
      end
  end.

(** [s[n:]] *)
Fixpoint slice_from (n : nat) (s : string) : string :=
  match n with
  | O => s
  | S n' => match s with
            | EmptyString => EmptyString
            | String _ s' => slice_from n' s'
            end
  end.

(** [s.endswith(p)] *)
Definition endswith (s p : string) : bool :=
  (String.length p <=? String.length s)%nat
  && String.eqb (slice_from (String.length s - String.length p) s) p.

(** [x in xs] for a list of strings *)
Fixpoint str_in (x : string) (xs : list string) : bool :=
  match xs with
  | [] => false
  | y :: ys => if String.eqb x y then true else str_in x ys
  end.

End Py.

(** [Py.result] is a monad; stdpp's [x ← m; k] sequences two steps and lets
    the first exception escape. *)
#[global] Instance result_ret : MRet Py.result := @Py.Return.
#[global] Instance result_bind : MBind Py.result := @Py.bind.

(** ** [fnmatch.fnmatch] of the Python standard library

    The matcher is library code; it is modelled on [fnmatch.translate]:
    [*] matches any run of characters, [?] one character, [[seq]] one
    character of the set, [[!seq]] one character outside it, and a [[]
    without a closing bracket is an ordinary character.  On POSIX
    [os.path.normcase] is the identity, so matching is case-sensitive. *)

Module Fnmatch.

Inductive glob_item : Type :=
| GlobStar
| GlobAny
| GlobChar (c : ascii)
| GlobSet (negate : bool) (ranges : list (ascii * ascii)).

(** The number of characters between a [[] and its closing []]: an
    initial [!] and a []] right after it belong to the set. *)
Fixpoint scan_close (cs : list ascii) : option nat :=
  match cs with
  | [] => None
  | c :: cs' => if Ascii.eqb c "]" then Some O else S <$> scan_close cs'
  end.

Definition bracket_end (cs : list ascii) : option nat :=
  match cs with
  | "!"%char :: "]"%char :: cs' => (fun n => S (S n)) <$> scan_close cs'
  | "!"%char :: cs' => S <$> scan_close cs'
  | "]"%char :: cs' => S <$> scan_close cs'
  | _ => scan_close cs
  end.

Fixpoint set_ranges (body : list ascii) : list (ascii * ascii) :=
  match body with
  | [] => []
  | lo :: rest =>
      match rest with
      | "-"%char :: hi :: rest' => (lo, hi) :: set_ranges rest'
      | _ => (lo, lo) :: set_ranges rest
      end
  end.

Definition parse_set (stuff : list ascii) : glob_item :=
  match stuff with
  | "!"%char :: body => GlobSet true (set_ranges body)
  | _ => GlobSet false (set_ranges stuff)
  end.

(** [st = Some (k, stuff)]: inside a bracket expression, [k] characters
    before its closing bracket, [stuff] read so far. *)
Fixpoint translate_from (st : option (nat * list ascii)) (pat : list ascii)
  : list glob_item :=
  match pat with
  | [] => []
  | c :: rest =>
      match st with
      | Some (O, stuff) => parse_set stuff :: translate_from None rest
      | Some (S k, stuff) => translate_from (Some (k, stuff ++ [c])) rest
      | None =>
          if Ascii.eqb c "*" then GlobStar :: translate_from None rest
          else if Ascii.eqb c "?" then GlobAny :: translate_from None rest
          else if Ascii.eqb c "[" then
            match bracket_end rest with
            | Some k => translate_from (Some (k, [])) rest
            | None => GlobChar c :: translate_from None rest
            end
          else GlobChar c :: translate_from None rest
      end
  end.

Definition translate (pat : string) : list glob_item :=
  translate_from None (list_ascii_of_string pat).

Definition in_range (a : ascii) (r : ascii * ascii) : bool :=
  (nat_of_ascii (fst r) <=? nat_of_ascii a)%nat
  && (nat_of_ascii a <=? nat_of_ascii (snd r))%nat.

Fixpoint glob_match (p : list glob_item) (s : list ascii) {struct p} : bool :=
  match p with
  | [] => match s with [] => true | _ :: _ => false end
  | GlobStar :: p' =>
      (fix star (s : list ascii) : bool :=
         glob_match p' s
         || match s with [] => false | _ :: s' => star s' end) s
  | GlobAny :: p' =>
      match s with [] => false | _ :: s' => glob_match p' s' end
  | GlobChar c :: p' =>
      match s with
      | [] => false
      | a :: s' => Ascii.eqb a c && glob_match p' s'
      end
  | GlobSet negate ranges :: p' =>
      match s with
      | [] => false
      | a :: s' => xorb negate (existsb (in_range a) ranges) && glob_match p' s'
      end
  end.

(** [fnmatch.fnmatch(name, pat)] *)
Definition fnmatch (name pat : string) : bool :=
  glob_match (translate pat) (list_ascii_of_string name).

End Fnmatch.

(** ** Insertion-ordered dictionaries

    A Python [dict] keeps its keys in insertion order; assigning to a key
    that is present keeps the key's position. *)

Module PyDict.

Definition t (V : Type) : Type := list (string * V).

Section Ops.
Context {V : Type}.

(** [d.get(k)] *)
Fixpoint get (k : string) (d : t V) : option V :=
  match d with
  | [] => None
  | (k', v) :: d' => if String.eqb k k' then Some v else get k d'
  end.

(** [k in d] *)
Definition mem (k : string) (d : t V) : bool :=
  match get k d with Some _ => true | None => false end.

(** [d[k] = v] *)
Fixpoint setitem (k : string) (v : V) (d : t V) : t V :=
  match d with
  | [] => [(k, v)]
  | (k', v') :: d' =>
      if String.eqb k k' then (k', v) :: d' else (k', v') :: setitem k v d'
  end.

(** The dictionary without the key [k]. *)
Definition remove (k : string) (d : t V) : t V :=
  List.filter (fun item => negb (String.eqb k (fst item))) d.

(** [del d[k]]: raises [KeyError] when [k] is absent. *)
Definition delitem (k : string) (d : t V) : Py.result (t V) :=
  if mem k d then Py.Return (remove k d) else Py.Raise (Py.KeyError k).

(** [d.pop(k, None)], keeping the dictionary only. *)
Definition pop (k : string) (d : t V) : t V := remove k d.

(** [len(d)] *)
Definition len (d : t V) : nat := length d.

(** [d.keys()] *)
Definition keys (d : t V) : list string := map fst d.

(** The representation invariant: no key occurs twice. *)
Definition wf (d : t V) : Prop := NoDup (keys d).

End Ops.

End PyDict.

(** ** Configuration models ([config/models.py]) *)

Record AccessRule : Type := {
  server : string;
  tools : option (list string);      (* None means all tools *)
  resources : option (list string)   (* None means all resources *)
}.

Record ClientRule : Type := {
  identify_by : list (PyDict.t string);
  allow : list AccessRule;
  deny : list AccessRule;
  deny_all_except_allowed : bool
}.

(** ** Permission engine ([access/permission_engine.py]) *)

Module PermissionEngine.

(** [self.client_rules]: the [clients] mapping of the configuration, in
    declaration order. *)
Definition client_rules : Type := PyDict.t ClientRule.

Fixpoint _wildcard_match (item_name : string) (patterns : list string) : bool :=
  match patterns with
  | [] => false
  | pattern :: patterns' =>
      if Fnmatch.fnmatch item_name pattern then true
      else _wildcard_match item_name patterns'
  end.

Definition _matches_access_rule
    (rule : AccessRule) (server_id item_name item_type : string) : bool :=
  if negb (String.eqb (server rule) server_id) then false
  else
    let items_of_type :=
      if String.eqb item_type "tools" then Some (tools rule)
      else if String.eqb item_type "resources" then Some (resources rule)
      else None in
    match items_of_type with
    | None => false
    | Some None => true                 (* [not items]: None *)
    | Some (Some []) => true            (* [not items]: empty list *)
    | Some (Some items) =>
        Py.str_in item_name items
        || Py.str_in "*" items
        || _wildcard_match item_name items
    end.

(** The two [for] loops of [check_tool_access]: the first matching rule
    returns from the function. *)
Fixpoint any_rule_matches
    (rules : list AccessRule) (server_id item_name item_type : string) : bool :=
  match rules with
  | [] => false
  | r :: rules' =>
      if _matches_access_rule r server_id item_name item_type then true
      else any_rule_matches rules' server_id item_name item_type
  end.

Definition check_tool_access
    (clients : client_rules) (client_id server_id tool_name : string) : bool :=
  let lookup :=
    match PyDict.get client_id clients with
    | Some rule => Some rule
    | None => PyDict.get "default" clients   (* try default rule *)
    end in
  match lookup with
  | None => false
  | Some rule =>
      (* explicit denies first *)
      if any_rule_matches (deny rule) server_id tool_name "tools" then false
      (* explicit allows *)
      else if any_rule_matches (allow rule) server_id tool_name "tools" then true
      (* default behaviour of the rule *)
      else if deny_all_except_allowed rule then false
      else true
  end.

End PermissionEngine.

(** ** Client identification ([access/client_identifier.py]) *)

Module ClientIdentifier.

(** [types.Implementation] *)
Record Implementation : Type := {
  name : string;
  version : string
}.

(** The objects found in [context.client_info]: the parameters of the
    [initialize] request, which have an attribute [clientInfo], or a bare
    [Implementation], which has [name] and [version]. *)
Inductive client_info_obj : Type :=
| InitializeRequestParams (clientInfo : option Implementation)
| BareImplementation (impl : Implementation).

(** The fields of [ConnectionContext] the identifier reads or writes
    ([timestamp] is never read). *)
Record ConnectionContext : Type := {
  client_info : option client_info_obj;
  transport_type : string;
  headers : gmap string string;
  remote_address : string;
  client_id : option string
}.

Definition set_client_id (context : ConnectionContext) (cid : option string)
  : ConnectionContext :=
  {| client_info := client_info context;
     transport_type := transport_type context;
     headers := headers context;
     remote_address := remote_address context;
     client_id := cid |}.

(** [context.headers.get(h, default)] with the empty string as default,
    under the guard [context.headers]. *)
Definition header (context : ConnectionContext) (h : string) : string :=
  if decide (headers context = ∅) then EmptyString
  else default EmptyString (headers context !! h).

Definition _extract_context_value (context : ConnectionContext) (key : string)
  : string :=
  if String.eqb key "client_info.name" then
    match client_info context with
    | Some (InitializeRequestParams (Some info)) => name info
    | Some (InitializeRequestParams None) => EmptyString
    | Some (BareImplementation info) => name info
    | None => EmptyString
    end
  else if String.eqb key "client_info.version" then
    match client_info context with
    | Some (InitializeRequestParams (Some info)) => version info
    | Some (InitializeRequestParams None) => EmptyString
    | Some (BareImplementation info) => version info
    | None => EmptyString
    end
  else if String.eqb key "connection_source" || String.eqb key "transport_type" then
    transport_type context
  else if String.eqb key "user_agent" then
    header context "User-Agent"
  else if String.eqb key "remote_address" then
    remote_address context
  else if Py.startswith key "header." then
    header context (Py.slice_from 7 key)
  else
    EmptyString.

Definition _matches_value (actual expected : string) : bool :=
  if Py.endswith expected "*" then Fnmatch.fnmatch actual expected
  else String.eqb actual expected.

(** The inner loop of [_matches_rule], over the items of one condition. *)
Fixpoint matches_condition (context : ConnectionContext) (condition : PyDict.t string)
  : bool :=
  match condition with
  | [] => true
  | (key, expected_value) :: condition' =>
      let actual_value := _extract_context_value context key in
      if negb (_matches_value actual_value expected_value) then false
      else matches_condition context condition'
  end.

Fixpoint _matches_rule (context : ConnectionContext) (conditions : list (PyDict.t string))
  : bool :=
  match conditions with
  | [] => true
  | condition :: conditions' =>
      if matches_condition context condition then _matches_rule context conditions'
      else false
  end.

(** Returns the client id and the context with the id stored on it. *)
Fixpoint identify_client (client_rules : PyDict.t ClientRule) (context : ConnectionContext)
  : string * ConnectionContext :=
  match client_rules with
  | [] => ("default", set_client_id context (Some "default"))
  | (cid, rule) :: client_rules' =>
      if _matches_rule context (identify_by rule)
      then (cid, set_client_id context (Some cid))
      else identify_client client_rules' context
  end.

End ClientIdentifier.

(** ** [datetime] and [timedelta] of the Python standard library

    A [datetime] is the number of microseconds since [datetime.min]
    (0001-01-01T00:00:00); the last one is [datetime.max]
    (9999-12-31T23:59:59.999999).  A [timedelta] is a number of
    microseconds. *)

Module Datetime.

Definition datetime_max : Z := 315537897599999999.

(** The decimal text of an integer *)
Definition str_int (n : Z) : string := NilZero.string_of_int (Z.to_int n).

(** [timedelta(seconds=seconds)] for an [int]: the number of whole days
    must fit a C [int] and have a magnitude of at most 999999999. *)
Definition timedelta (seconds : Z) : Py.result Z :=
  let days := (seconds / 86400)%Z in
  if (days <? - 2147483648)%Z || (2147483647 <? days)%Z then
    Py.Raise (Py.OverflowError "Python int too large to convert to C int")
  else if (days <? - 999999999)%Z || (999999999 <? days)%Z then
    Py.Raise (Py.OverflowError
      ("days=" +:+ str_int days +:+ "; must have magnitude <= 999999999"))
  else Py.Return (seconds * 1000000)%Z.

(** [t + delta] for a [datetime] and a [timedelta]: the sum must be a
    [datetime]. *)
Definition add (t delta : Z) : Py.result Z :=
  let sum := (t + delta)%Z in
  if (sum <? 0)%Z || (datetime_max <? sum)%Z then
    Py.Raise (Py.OverflowError "date value out of range")
  else Py.Return sum.

End Datetime.

(** ** Response cache ([routing/cache.py])

    Every operation runs under the cache's lock, so it is one atomic step
    on the cache; [now] is the clock value the operation reads. *)

Module Cache.

Section WithData.
Context {A : Type}.

Record CacheEntry : Type := {
  data : A;
  created_at : Z;
  expires_at : Z
}.

(** [CacheEntry(data, ttl_seconds)] constructed at time [now]:
    [timedelta(seconds=ttl_seconds)] and its sum with [created_at] raise
    [OverflowError] when the expiry time is not a [datetime]. *)
Definition CacheEntry_init (d : A) (ttl_seconds : Z) (now : Z) : Py.result CacheEntry :=
  delta ← Datetime.timedelta ttl_seconds;
  expires_at ← Datetime.add now delta;
  Py.Return {| data := d; created_at := now; expires_at := expires_at |}.

(** The entry that [CacheEntry(data, ttl_seconds)] is when the
    constructor returns. *)
Definition new_entry (d : A) (ttl_seconds : Z) (now : Z) : CacheEntry :=
  {| data := d; created_at := now; expires_at := now + ttl_seconds * 1000000 |}.

Definition is_expired (now : Z) (entry : CacheEntry) : bool :=
  (expires_at entry <? now)%Z.

Record ResponseCache : Type := {
  cache : PyDict.t CacheEntry;
  max_size : Z;
  default_ttl : Z
}.

(** [ResponseCache(max_size, default_ttl)] *)
Definition init (max_size default_ttl : Z) : ResponseCache :=
  {| cache := []; max_size := max_size; default_ttl := default_ttl |}.

Definition with_cache (c : ResponseCache) (d : PyDict.t CacheEntry) : ResponseCache :=
  {| cache := d; max_size := max_size c; default_ttl := default_ttl c |}.

Definition get (now : Z) (cache_key : string) (c : ResponseCache)
  : Py.result (option A * ResponseCache) :=
  match PyDict.get cache_key (cache c) with
  | None => Py.Return (None, c)
  | Some entry =>
      if is_expired now entry then
        d ← PyDict.delitem cache_key (cache c);
        Py.Return (None, with_cache c d)
      else Py.Return (Some (data entry), c)
  end.

(** [for key in ks: del d[key]] *)
Fixpoint del_keys (ks : list string) (d : PyDict.t CacheEntry)
  : Py.result (PyDict.t CacheEntry) :=
  match ks with
  | [] => Py.Return d
  | k :: ks' => d' ← PyDict.delitem k d; del_keys ks' d'
  end.

Definition _cleanup_expired_unlocked (now : Z) (d : PyDict.t CacheEntry)
  : Py.result (PyDict.t CacheEntry) :=
  let expired_keys :=
    map fst (List.filter (fun item => is_expired now (snd item)) d) in
  del_keys expired_keys d.

(** [sorted(items, key=lambda x: x[1].created_at)]: Python's sort is
    stable, so entries created at the same time keep their order. *)
Fixpoint insert_by_created (x : string * CacheEntry) (l : list (string * CacheEntry))
  : list (string * CacheEntry) :=
  match l with
  | [] => [x]
  | y :: l' =>
      if (created_at (snd x) <=? created_at (snd y))%Z then x :: y :: l'
      else y :: insert_by_created x l'
  end.

Definition sorted_by_created (items : list (string * CacheEntry))
  : list (string * CacheEntry) :=
  foldr insert_by_created [] items.

Definition evict_count (d : PyDict.t CacheEntry) : nat :=
  Nat.max 1 (PyDict.len d / 10).

Definition _evict_oldest (d : PyDict.t CacheEntry) : Py.result (PyDict.t CacheEntry) :=
  let sorted_entries := sorted_by_created d in
  del_keys (map fst (take (evict_count d) sorted_entries)) d.

(** [set] changes the cache in place: when the construction of the entry
    raises, the sweep and the eviction have been done and stay done.  (A
    [del] of the sweep or of the eviction cannot fail on a dictionary,
    whose keys are distinct.) *)
Definition set (now : Z) (cache_key : string) (d : A) (ttl : option Z)
    (c : ResponseCache) : Py.result unit * ResponseCache :=
  let ttl := default (default_ttl c) ttl in
  match (if (PyDict.len (cache c) mod 100 =? 0)%nat
         then _cleanup_expired_unlocked now (cache c)
         else Py.Return (cache c)) with
  | Py.Raise e => (Py.Raise e, c)
  | Py.Return d1 =>
      match (if (max_size c <=? Z.of_nat (PyDict.len d1))%Z
             then _evict_oldest d1
             else Py.Return d1) with
      | Py.Raise e => (Py.Raise e, with_cache c d1)
      | Py.Return d2 =>
          match CacheEntry_init d ttl now with
          | Py.Raise e => (Py.Raise e, with_cache c d2)
          | Py.Return entry =>
              (Py.Return (), with_cache c (PyDict.setitem cache_key entry d2))
          end
      end
  end.

Definition delete (cache_key : string) (c : ResponseCache) : ResponseCache :=
  with_cache c (PyDict.pop cache_key (cache c)).

Definition clear (c : ResponseCache) : ResponseCache :=
  with_cache c [].

(** One operation of the cache's interface, with the clock value it
    reads. *)
Inductive op : Type :=
| OpGet (now : Z) (cache_key : string)
| OpSet (now : Z) (cache_key : string) (d : A) (ttl : option Z)
| OpDelete (cache_key : string)
| OpClear.

Definition step (o : op) (c : ResponseCache) : Py.result unit * ResponseCache :=
  match o with
  | OpGet now k =>
      match get now k c with
      | Py.Return r => (Py.Return (), snd r)
      | Py.Raise e => (Py.Raise e, c)
      end
  | OpSet now k d ttl => set now k d ttl c
  | OpDelete k => (Py.Return (), delete k c)
  | OpClear => (Py.Return (), clear c)
  end.

(** A sequence of operations that ends at the first exception. *)
Fixpoint run (ops : list op) (c : ResponseCache) : Py.result ResponseCache :=
  match ops with
  | [] => Py.Return c
  | o :: ops' =>
      match step o c with
      | (Py.Return _, c') => run ops' c'
      | (Py.Raise e, _) => Py.Raise e
      end
  end.

(** The cache after a sequence of operations whose callers go on after
    an exception. *)
Definition after (ops : list op) (c : ResponseCache) : ResponseCache :=
  foldl (fun c o => snd (step o c)) c ops.

End WithData.

Arguments CacheEntry : clear implicits.
Arguments ResponseCache : clear implicits.
Arguments op : clear implicits.

End Cache.

(** ** The MCP protocol types the manager handles ([mcp.types]) *)

Module types.

(** JSON-RPC error codes *)
Definition INVALID_REQUEST : Z := (-32600)%Z.
Definition METHOD_NOT_FOUND : Z := (-32601)%Z.
Definition INTERNAL_ERROR : Z := (-32603)%Z.

(** A JSON value the manager passes on without looking inside, as its
    text. *)
Definition json : Type := string.

Record ErrorData : Type := {
  code : Z;
  message : string
}.

Record Tool : Type := {
  name : string;
  description : option string;
  inputSchema : json
}.

Inductive Content : Type :=
| TextContent (text : string)
| ImageContent (data mimeType : string)
| EmbeddedResource (resource : json).

Record CallToolResult : Type := {
  content : list Content;
  isError : bool
}.

Record ListToolsResult : Type := {
  tools : list Tool
}.

(** The request classes whose routes are embedded, and
    [UnsupportedRequest] for an object of a class that no branch of the
    router or of the middleware names.  The requests for resources and
    for the listing of prompts are not part of the embedding. *)
Inductive ClientRequest : Type :=
| CallToolRequest (name : string) (arguments : json)
| ListToolsRequest
| GetPromptRequest (name : string)
| UnsupportedRequest (type_name : string).

End types.

(** ** One backend process ([server/process.py]) *)

Inductive Transport : Type := stdio | sse | websocket.

(** The fields of [ServerConfig] read by the supervisor. *)
Record ServerConfig : Type := {
  source : string;
  transport : Transport;
  auto_install : bool;
  enabled : bool
}.

Module Process.

Inductive ProcessStatus : Type :=
| STOPPED | STARTING | RUNNING | STOPPING | FAILED | NOT_CONFIGURED.

#[global] Instance ProcessStatus_eq_dec : EqDecision ProcessStatus.
Proof. solve_decision. Defined.

(** What one request on the backend's client session does. *)
Inductive outcome (R : Type) : Type :=
| Replies (r : R)        (* the backend answers in time *)
| Fails (e : Py.exn)     (* the session raises *)
| Expires                (* the deadline set by the process passes first *)
| Cancelled.             (* the deadline of the caller's [wait_for] passes first *)
Arguments Replies {R} r.
Arguments Fails {R} e.
Arguments Expires {R}.
Arguments Cancelled {R}.

(** [await asyncio.wait_for(session.request(...), timeout)] inside a
    method of the process. *)
Definition await_session {R : Type} (o : outcome R) : Py.result R :=
  match o with
  | Replies r => Py.Return r
  | Fails e => Py.Raise e
  | Expires => Py.Raise Py.TimeoutError
  | Cancelled => Py.Raise Py.Cancelled_by_timeout
  end.

(** The open [ClientSession] to a backend, with the backend's behaviour. *)
Record ClientSession : Type := {
  on_list_tools : outcome types.ListToolsResult;
  on_call_tool : string -> types.json -> outcome types.CallToolResult
}.

(** The fields of [MCPProcess] that the supervisor, the aggregator and
    the router depend on (the time stamps are left out). *)
Record MCPProcess : Type := {
  server_id : string;
  config : ServerConfig;
  install_path : string;
  session : option ClientSession;
  status : ProcessStatus;
  request_count : nat;
  error_count : nat
}.

(** [MCPProcess(server_id, config, install_path)] *)
Definition init (server_id : string) (config : ServerConfig) (install_path : string)
  : MCPProcess :=
  {| server_id := server_id; config := config; install_path := install_path;
     session := None; status := STOPPED; request_count := 0; error_count := 0 |}.

Definition with_status (p : MCPProcess) (st : ProcessStatus) : MCPProcess :=
  {| server_id := server_id p; config := config p; install_path := install_path p;
     session := session p; status := st;
     request_count := request_count p; error_count := error_count p |}.

Definition with_session (p : MCPProcess) (s : option ClientSession) : MCPProcess :=
  {| server_id := server_id p; config := config p; install_path := install_path p;
     session := s; status := status p;
     request_count := request_count p; error_count := error_count p |}.

Definition count_request (p : MCPProcess) : MCPProcess :=
  {| server_id := server_id p; config := config p; install_path := install_path p;
     session := session p; status := status p;
     request_count := S (request_count p); error_count := error_count p |}.

Definition count_error (p : MCPProcess) : MCPProcess :=
  {| server_id := server_id p; config := config p; install_path := install_path p;
     session := session p; status := status p;
     request_count := request_count p; error_count := S (error_count p) |}.

(** [_start_stdio]: [spawn] is what launching the child and the
    [initialize] handshake give.  On failure the half-open session is
    released and the status is [FAILED]. *)
Definition _start_stdio (spawn : Py.result ClientSession) (p : MCPProcess)
  : Py.result unit * MCPProcess :=
  match spawn with
  | Py.Return s => (Py.Return (), with_session p (Some s))
  | Py.Raise e =>
      if Py.is_exception e
      then (Py.Raise e, with_status (with_session p None) FAILED)
      else (Py.Raise e, p)
  end.

Definition _start_sse (p : MCPProcess) : Py.result unit * MCPProcess :=
  (Py.Raise (Py.NotImplementedError "SSE transport not yet implemented"), p).

Definition _start_websocket (p : MCPProcess) : Py.result unit * MCPProcess :=
  (Py.Raise (Py.NotImplementedError "WebSocket transport not yet implemented"), p).

Definition start (spawn : Py.result ClientSession) (p : MCPProcess)
  : Py.result unit * MCPProcess :=
  if negb (bool_decide (status p = STOPPED)) then (Py.Return (), p)
  else
    let p := with_status p STARTING in
    let '(r, p) :=
      match transport (config p) with
      | stdio => _start_stdio spawn p
      | sse => _start_sse p
      | websocket => _start_websocket p
      end in
    match r with
    | Py.Return _ => (Py.Return (), with_status p RUNNING)
    | Py.Raise e =>
        if Py.is_exception e then (Py.Raise e, with_status p FAILED)
        else (Py.Raise e, p)
    end.

Definition call_tool (name : string) (arguments : types.json) (p : MCPProcess)
  : Py.result types.CallToolResult * MCPProcess :=
  match session p with
  | None =>
      (Py.Raise (Py.RuntimeError ("MCP server " +:+ server_id p +:+ " not running")), p)
  | Some s =>
      let p := count_request p in
      match await_session (on_call_tool s name arguments) with
      | Py.Return result => (Py.Return result, p)
      | Py.Raise Py.TimeoutError =>
          (Py.Raise (Py.RuntimeError
             ("Timeout calling tool " +:+ name +:+ " on server " +:+ server_id p)),
           count_error p)
      | Py.Raise e =>
          if Py.is_exception e then
            (Py.Raise (Py.RuntimeError
               ("Error calling tool " +:+ name +:+ " on server " +:+ server_id p
                +:+ ": " +:+ Py.str e)),
             count_error p)
          else (Py.Raise e, p)
      end
  end.

Definition list_tools (p : MCPProcess) : Py.result types.ListToolsResult :=
  match session p with
  | None => Py.Raise (Py.RuntimeError ("MCP server " +:+ server_id p +:+ " not running"))
  | Some s =>
      match await_session (on_list_tools s) with
      | Py.Return result => Py.Return result
      | Py.Raise Py.TimeoutError =>
          Py.Raise (Py.RuntimeError
            ("Timeout listing tools from server " +:+ server_id p))
      | Py.Raise e =>
          if Py.is_exception e then
            Py.Raise (Py.RuntimeError
              ("Error listing tools from server " +:+ server_id p +:+ ": " +:+ Py.str e))
          else Py.Raise e
      end
  end.

End Process.

(** ** The supervisor ([server/manager.py]) *)

Module ServerManager.

(** The universal installer, as far as [start_server] uses it. *)
Record Installer : Type := {
  is_installed : string -> ServerConfig -> bool;
  get_install_path : string -> ServerConfig -> string;
  install : string -> ServerConfig -> Py.result string
}.

Record MCPServerManager : Type := {
  servers : gmap string ServerConfig;          (* [self.config.servers] *)
  processes : PyDict.t Process.MCPProcess;
  installer : Installer
}.

Definition with_processes (m : MCPServerManager) (ps : PyDict.t Process.MCPProcess)
  : MCPServerManager :=
  {| servers := servers m; processes := ps; installer := installer m |}.

Definition _ensure_server_installed
    (m : MCPServerManager) (server_id : string) (server_config : ServerConfig)
  : Py.result string :=
  if is_installed (installer m) server_id server_config
     && negb (auto_install server_config)
  then Py.Return (get_install_path (installer m) server_id server_config)
  else if auto_install server_config
  then install (installer m) server_id server_config
  else Py.Return (get_install_path (installer m) server_id server_config).

(** [spawn] is what launching the child process of [server_id] gives. *)
Definition start_server
    (spawn : Py.result Process.ClientSession) (server_id : string)
    (m : MCPServerManager) : Py.result unit * MCPServerManager :=
  if PyDict.mem server_id (processes m) then (Py.Return (), m)
  else
    match servers m !! server_id with
    | None =>
        (Py.Raise (Py.ValueError ("Server " +:+ server_id +:+ " not configured")), m)
    | Some server_config =>
        if negb (enabled server_config) then (Py.Return (), m)
        else
          match _ensure_server_installed m server_id server_config with
          | Py.Raise e => (Py.Raise e, m)
          | Py.Return install_path =>
              let process := Process.init server_id server_config install_path in
              match Process.start spawn process with
              | (Py.Raise e, _) => (Py.Raise e, m)
              | (Py.Return _, process) =>
                  (Py.Return (),
                   with_processes m (PyDict.setitem server_id process (processes m)))
              end
          end
    end.

Definition get_active_sessions (m : MCPServerManager) : PyDict.t Process.MCPProcess :=
  List.filter
    (fun item =>
       bool_decide (Process.status (snd item) = Process.RUNNING)
       && bool_decide (is_Some (Process.session (snd item))))
    (processes m).

Definition call_tool
    (server_id tool_name : string) (arguments : types.json) (m : MCPServerManager)
  : Py.result types.CallToolResult * MCPServerManager :=
  match PyDict.get server_id (processes m) with
  | None => (Py.Raise (Py.ValueError ("Server " +:+ server_id +:+ " not running")), m)
  | Some process =>
      let '(r, process) := Process.call_tool tool_name arguments process in
      (r, with_processes m (PyDict.setitem server_id process (processes m)))
  end.

End ServerManager.

(** ** Aggregation of listings ([routing/aggregator.py]) *)

Module Aggregator.

Definition _get_server_tools (server_id : string) (process : Process.MCPProcess)
  : Py.result types.ListToolsResult :=
  match Py.wait_for (Process.list_tools process) with
  | Py.Return result => Py.Return result
  | Py.Raise Py.TimeoutError =>
      Py.Raise (Py.Exception ("Timeout getting tools from " +:+ server_id))
  | Py.Raise e =>
      if Py.is_exception e then
        Py.Raise (Py.Exception
          ("Error getting tools from " +:+ server_id +:+ ": " +:+ Py.str e))
      else Py.Raise e
  end.

(** [f"{server_id}.{tool.name}"] *)
Definition namespaced_name (server_id name : string) : string :=
  server_id +:+ "." +:+ name.

(** [types.Tool(name=f"{server_id}.{tool.name}", ...)] *)
Definition namespaced_tool (server_id : string) (tool : types.Tool) : types.Tool :=
  {| types.name := namespaced_name server_id (types.name tool);
     types.description :=
       Some ("[" +:+ server_id +:+ "] " +:+ Py.format (types.description tool));
     types.inputSchema := types.inputSchema tool |}.

(** The loop over [zip(backend_sessions.keys(), results)], appending to
    [all_tools]. *)
Fixpoint process_results
    (pairs : list (string * Py.result types.ListToolsResult))
    (all_tools : list types.Tool) : list types.Tool :=
  match pairs with
  | [] => all_tools
  | (server_id, result) :: pairs' =>
      match result with
      | Py.Raise _ => process_results pairs' all_tools
      | Py.Return r =>
          process_results pairs'
            (all_tools ++ map (namespaced_tool server_id) (types.tools r))
      end
  end.

Definition aggregate_tools (m : ServerManager.MCPServerManager) (client_id : string)
  : list types.Tool :=
  let all_tools := [] in
  let backend_sessions := ServerManager.get_active_sessions m in
  match backend_sessions with
  | [] => all_tools
  | _ =>
      (* [asyncio.gather] with [return_exceptions=True] *)
      let results :=
        map (fun item => _get_server_tools (fst item) (snd item)) backend_sessions in
      process_results (zip (PyDict.keys backend_sessions) results) all_tools
  end.

End Aggregator.

(** ** Access-control middleware ([access/middleware.py]) *)

Module Middleware.

Record AccessControlMiddleware : Type := {
  permission_engine : PermissionEngine.client_rules;
  identifier : PyDict.t ClientRule
}.

Definition _parse_namespaced_tool (tool_name : string) : string * string :=
  if Py.contains "." tool_name then Py.split1 "." tool_name
  else ("default", tool_name).

Definition _check_tool_call
    (mw : AccessControlMiddleware) (tool_name : string) (client_id : string)
  : bool * option types.ErrorData :=
  let '(server_id, actual_tool_name) := _parse_namespaced_tool tool_name in
  if negb (PermissionEngine.check_tool_access
             (permission_engine mw) client_id server_id actual_tool_name)
  then (false,
        Some {| types.code := types.INVALID_REQUEST;
                types.message := "Access denied to tool: " +:+ tool_name |})
  else (true, None).

(** Returns [(allowed, response)] and the context, on which the client id
    may have been stored. *)
Definition process_request
    (mw : AccessControlMiddleware) (request : types.ClientRequest)
    (context : ClientIdentifier.ConnectionContext)
  : (bool * option types.ErrorData) * ClientIdentifier.ConnectionContext :=
  let context :=
    match ClientIdentifier.client_id context with
    | Some (String _ _) => context
    | _ => snd (ClientIdentifier.identify_client (identifier mw) context)
    end in
  let client_id := Py.or_else (ClientIdentifier.client_id context) "default" in
  match request with
  | types.CallToolRequest name _ => (_check_tool_call mw name client_id, context)
  | types.ListToolsRequest => ((true, None), context)
  | _ => ((true, None), context)   (* unknown request type, allow by default *)
  end.

End Middleware.

(** ** The router ([routing/router.py]) *)

Module Router.

Inductive ServerResult : Type :=
| ToolResult (r : types.CallToolResult)
| ToolsList (r : types.ListToolsResult)
| Error (e : types.ErrorData).

Record MCPRouter : Type := {
  server_manager : ServerManager.MCPServerManager;
  permission_engine : PermissionEngine.client_rules;
  cache : Cache.ResponseCache types.CallToolResult
}.

Definition with_cache (r : MCPRouter) (c : Cache.ResponseCache types.CallToolResult)
  : MCPRouter :=
  {| server_manager := server_manager r;
     permission_engine := permission_engine r;
     cache := c |}.

Definition with_server_manager (r : MCPRouter) (m : ServerManager.MCPServerManager)
  : MCPRouter :=
  {| server_manager := m;
     permission_engine := permission_engine r;
     cache := cache r |}.

Definition _parse_namespaced_tool (tool_name : string) : Py.result (string * string) :=
  if Py.contains "." tool_name then Py.Return (Py.split1 "." tool_name)
  else Py.Raise (Py.ValueError ("Tool name must be namespaced: " +:+ tool_name)).

Definition _parse_namespaced_resource (resource_uri : string)
  : Py.result (string * string) :=
  if Py.startswith resource_uri "mcp://" then
    let uri_parts := Py.slice_from 6 resource_uri in
    if Py.contains "/" uri_parts then Py.Return (Py.split1 "/" uri_parts)
    else Py.Return (uri_parts, EmptyString)
  else Py.Raise (Py.ValueError ("Resource URI must be namespaced: " +:+ resource_uri)).

Section Routing.

(** [self.cache.generate_cache_key(server_id, "call_tool",
    {"name": name, "arguments": arguments})]: the MD5 digest of the
    canonical JSON text, a function of the three values. *)
Variable call_tool_key : string -> string -> types.json -> string.

(** [now] is the clock when the cache is looked up, [later] the clock
    when the backend's answer is stored. *)
Variables now later : Z.

Definition _route_tool_call
    (tool_name : string) (arguments : types.json) (client_id : string)
    (r : MCPRouter) : Py.result ServerResult * MCPRouter :=
  match _parse_namespaced_tool tool_name with
  | Py.Raise e => (Py.Raise e, r)
  | Py.Return (server_id, actual_tool_name) =>
      let cache_key := call_tool_key server_id actual_tool_name arguments in
      match Cache.get now cache_key (cache r) with
      | Py.Raise e => (Py.Raise e, r)
      | Py.Return (Some cached_result, c) =>
          (Py.Return (ToolResult cached_result), with_cache r c)
      | Py.Return (None, c) =>
          let r := with_cache r c in
          let '(awaited, m) :=
            ServerManager.call_tool server_id actual_tool_name arguments
              (server_manager r) in
          let r := with_server_manager r m in
          let '(attempt, r) :=
            match Py.wait_for awaited with
            | Py.Raise e => (Py.Raise e, r)
            | Py.Return result =>
                (* cache successful results *)
                match Cache.set later cache_key result (Some 300%Z) (cache r) with
                | (Py.Raise e, c) => (Py.Raise e, with_cache r c)
                | (Py.Return _, c) => (Py.Return (ToolResult result), with_cache r c)
                end
            end in
          match attempt with
          | Py.Return result => (Py.Return result, r)
          | Py.Raise Py.TimeoutError =>
              (Py.Return (Error
                 {| types.code := types.INTERNAL_ERROR;
                    types.message := "Tool call timeout: " +:+ tool_name |}), r)
          | Py.Raise (Py.ValueError msg) =>
              (* server not found or not running *)
              (Py.Return (Error
                 {| types.code := types.INVALID_REQUEST;
                    types.message := msg |}), r)
          | Py.Raise e =>
              if Py.is_exception e then
                (Py.Return (Error
                   {| types.code := types.INTERNAL_ERROR;
                      types.message := "Backend error: " +:+ Py.str e |}), r)
              else (Py.Raise e, r)
          end
      end
  end.

Definition _route_list_tools (client_id : string) (r : MCPRouter)
  : Py.result ServerResult * MCPRouter :=
  let all_tools := Aggregator.aggregate_tools (server_manager r) client_id in
  let keep (tool : types.Tool) : Py.result bool :=
    '(server_id, actual_tool_name) ← _parse_namespaced_tool (types.name tool);
    Py.Return (PermissionEngine.check_tool_access
                 (permission_engine r) client_id server_id actual_tool_name) in
  let filtered :=
    foldl (fun acc tool =>
             filtered_tools ← acc;
             b ← keep tool;
             Py.Return (if b : bool then filtered_tools ++ [tool] else filtered_tools))
          (Py.Return []) all_tools in
  match filtered with
  | Py.Return filtered_tools =>
      (Py.Return (ToolsList {| types.tools := filtered_tools |}), r)
  | Py.Raise e =>
      if Py.is_exception e then
        (Py.Return (Error
           {| types.code := types.INTERNAL_ERROR;
              types.message := "Error listing tools: " +:+ Py.str e |}), r)
      else (Py.Raise e, r)
  end.

Definition _route_get_prompt (prompt_name : string) (client_id : string)
    (r : MCPRouter) : Py.result ServerResult * MCPRouter :=
  match _parse_namespaced_tool prompt_name with
  | Py.Raise e => (Py.Raise e, r)
  | Py.Return _ =>
      (Py.Return (Error
         {| types.code := types.METHOD_NOT_FOUND;
            types.message := "Get prompt not yet implemented" |}), r)
  end.

(** The [isinstance] chain of [route_request]. *)
Definition dispatch
    (request : types.ClientRequest) (client_id : string) (r : MCPRouter)
  : Py.result ServerResult * MCPRouter :=
  match request with
  | types.CallToolRequest name arguments => _route_tool_call name arguments client_id r
  | types.ListToolsRequest => _route_list_tools client_id r
  | types.GetPromptRequest name => _route_get_prompt name client_id r
  | types.UnsupportedRequest type_name =>
      (Py.Return (Error
         {| types.code := types.METHOD_NOT_FOUND;
            types.message := "Unsupported request type: " +:+ type_name |}), r)
  end.

Definition route_request
    (request : types.ClientRequest) (context : ClientIdentifier.ConnectionContext)
    (r : MCPRouter) : Py.result ServerResult * MCPRouter :=
  let client_id := Py.or_else (ClientIdentifier.client_id context) "default" in
  match dispatch request client_id r with
  | (Py.Return result, r) => (Py.Return result, r)
  | (Py.Raise e, r) =>
      if Py.is_exception e then
        (Py.Return (Error
           {| types.code := types.INTERNAL_ERROR;
              types.message := "Internal routing error: " +:+ Py.str e |}), r)
      else (Py.Raise e, r)
  end.

End Routing.

End Router.

(** ** The front-end handler for [call_tool] ([core/manager.py]) *)

Module Manager.

Record MCPManager : Type := {
  router : Router.MCPRouter;
  access_middleware : Middleware.AccessControlMiddleware
}.

Definition with_router (mgr : MCPManager) (r : Router.MCPRouter) : MCPManager :=
  {| router := r; access_middleware := access_middleware mgr |}.

(** [self.mcp_server.request_context], as far as the handler reads it:
    the parameters the client sent with [initialize], when the session
    has them. *)
Record RequestContext : Type := {
  client_params : option ClientIdentifier.client_info_obj
}.

Definition _create_connection_context (ctx : RequestContext)
  : ClientIdentifier.ConnectionContext :=
  let client_id :=
    match client_params ctx with
    | Some (ClientIdentifier.InitializeRequestParams (Some client_info)) =>
        Some (ClientIdentifier.name client_info)
    | _ => None
    end in
  {| ClientIdentifier.client_info := client_params ctx;
     ClientIdentifier.transport_type := "stdio";
     ClientIdentifier.headers := ∅;
     ClientIdentifier.remote_address := EmptyString;
     (* fallback client identification *)
     ClientIdentifier.client_id := Some (Py.or_else client_id "default") |}.

Section Handler.

Variable call_tool_key : string -> string -> types.json -> string.
Variables now later : Z.

Definition call_tool
    (ctx : RequestContext) (name : string) (arguments : types.json)
    (mgr : MCPManager) : Py.result (list types.Content) * MCPManager :=
  let context := _create_connection_context ctx in
  let request := types.CallToolRequest name arguments in
  (* check access control *)
  let '((allowed, error_response), context) :=
    Middleware.process_request (access_middleware mgr) request context in
  if negb allowed then
    match error_response with
    | Some err =>
        (Py.Return [types.TextContent ("Access denied: " +:+ types.message err)], mgr)
    | None =>
        (Py.Return [types.TextContent
           "Internal error: 'NoneType' object has no attribute 'message'"], mgr)
    end
  else
    (* route request *)
    let '(routed, r) :=
      Router.route_request call_tool_key now later request context (router mgr) in
    let mgr := with_router mgr r in
    match routed with
    | Py.Return (Router.ToolResult result) => (Py.Return (types.content result), mgr)
    | Py.Return (Router.Error err) =>
        (Py.Return [types.TextContent ("Error: " +:+ types.message err)], mgr)
    | Py.Return _ =>
        (Py.Return [types.TextContent "Unknown error occurred"], mgr)
    | Py.Raise e =>
        if Py.is_exception e then
          (Py.Return [types.TextContent ("Internal error: " +:+ Py.str e)], mgr)
        else (Py.Raise e, mgr)
    end.

End Handler.

End Manager.

(** * The specification's notions

    The definitions of this part follow the words of the specification;
    the theorems below compare them with the functions above. *)

Module Spec.

(** The rule the permission engine resolves for a client: its own rule,
    or the rule of [default] when it has none. *)
Definition resolved_rule
    (clients : PermissionEngine.client_rules) (client_id : string) (rule : ClientRule)
  : Prop :=
  PyDict.get client_id clients = Some rule
  \/ (PyDict.get client_id clients = None /\ PyDict.get "default" clients = Some rule).

(** A tool list matches a tool when it is missing or empty, or when it
    holds the tool's name, the literal [*], or a shell-style wildcard
    that the name matches. *)
Definition tool_list_matches (items : option (list string)) (tool_name : string) : Prop :=
  match items with
  | None => True
  | Some [] => True
  | Some items =>
      In tool_name items
      \/ In "*" items
      \/ exists pattern, In pattern items /\ Fnmatch.fnmatch tool_name pattern = true
  end.

Definition rule_matches_tool (rule : AccessRule) (server_id tool_name : string) : Prop :=
  server rule = server_id /\ tool_list_matches (tools rule) tool_name.

(** Identification.  An expected value that ends in [*] is a shell-style
    wildcard for the context's value; any other expected value must be
    equal to it. *)
Definition value_matches (actual expected : string) : Prop :=
  if Py.endswith expected "*" then Fnmatch.fnmatch actual expected = true
  else actual = expected.

Definition condition_matches
    (context : ClientIdentifier.ConnectionContext) (condition : PyDict.t string) : Prop :=
  forall key expected,
    In (key, expected) condition ->
    value_matches (ClientIdentifier._extract_context_value context key) expected.

(** A rule matches when every condition of its [identify_by] list does. *)
Definition rule_identifies
    (context : ClientIdentifier.ConnectionContext) (rule : ClientRule) : Prop :=
  forall condition, In condition (identify_by rule) -> condition_matches context condition.

(** The context has no value under a key: no client information, no
    such header, or a key that is not a context key at all. *)
Inductive context_lacks (context : ClientIdentifier.ConnectionContext) : string -> Prop :=
| lacks_client_name :
    ClientIdentifier.client_info context = None ->
    context_lacks context "client_info.name"
| lacks_client_version :
    ClientIdentifier.client_info context = None ->
    context_lacks context "client_info.version"
| lacks_user_agent :
    ClientIdentifier.headers context !! "User-Agent" = None ->
    context_lacks context "user_agent"
| lacks_header (h : string) :
    ClientIdentifier.headers context !! h = None ->
    context_lacks context ("header." +:+ h)
| lacks_unknown_key (key : string) :
    ~ In key ["client_info.name"; "client_info.version"; "connection_source";
              "transport_type"; "user_agent"; "remote_address"] ->
    Py.startswith key "header." = false ->
    context_lacks context key.

(** The cache.  What [set] finds after its sweep of expired entries,
    which runs when the number of entries is a multiple of 100. *)
Definition swept {A : Type} (now : Z) (d : PyDict.t (Cache.CacheEntry A))
  : PyDict.t (Cache.CacheEntry A) :=
  if (PyDict.len d mod 100 =? 0)%nat
  then List.filter (fun item => negb (Cache.is_expired now (snd item))) d
  else d.

(** The clock reads a [datetime], and so many seconds later is still a
    [datetime]. *)
Definition representable (now seconds : Z) : Prop :=
  (0 <= now <= Datetime.datetime_max)%Z
  /\ (0 <= now + seconds * 1000000 <= Datetime.datetime_max)%Z.

(** Every [set] of the sequence is made at a time and with a time to live
    ([default_ttl] when none is given) whose expiry time is a
    [datetime]. *)
Definition op_representable {A : Type} (default_ttl : Z) (o : Cache.op A) : Prop :=
  match o with
  | Cache.OpSet now _ _ ttl => representable now (default default_ttl ttl)
  | _ => True
  end.

(** Older or as old, by creation time. *)
Definition created_le {A : Type} (x y : string * Cache.CacheEntry A) : Prop :=
  (Cache.created_at (snd x) <= Cache.created_at (snd y))%Z.

(** Every evicted entry was created no later than every entry kept. *)
Definition oldest_first {A : Type}
    (evicted kept : list (string * Cache.CacheEntry A)) : Prop :=
  forall x y, In x evicted -> In y kept -> created_le x y.

(** The entries of [before] whose keys are no longer in [after]. *)
Definition dropped {A : Type}
    (before after : PyDict.t (Cache.CacheEntry A)) : list (string * Cache.CacheEntry A) :=
  List.filter (fun item => negb (PyDict.mem (fst item) after)) before.

(** Aggregation.  What the list call of a running backend does: it
    answers, it raises an error, or it times out (by the deadline of the
    process or by the deadline of the aggregator). *)
Definition list_call (item : string * Process.MCPProcess)
  : option (Process.outcome types.ListToolsResult) :=
  Process.on_list_tools <$> Process.session (snd item).

Definition answers (item : string * Process.MCPProcess) : bool :=
  match list_call item with Some (Process.Replies _) => true | _ => false end.

Definition raises_error (item : string * Process.MCPProcess) : bool :=
  match list_call item with Some (Process.Fails _) => true | _ => false end.

Definition times_out (item : string * Process.MCPProcess) : bool :=
  match list_call item with
  | Some Process.Expires | Some Process.Cancelled => true
  | _ => false
  end.

(** The tools a backend contributes: its own tools under namespaced
    names when its list call answers, nothing otherwise. *)
Definition contribution (item : string * Process.MCPProcess) : list types.Tool :=
  match list_call item with
  | Some (Process.Replies r) =>
      map (fun tool =>
             {| types.name := fst item +:+ "." +:+ types.name tool;
                types.description :=
                  Some ("[" +:+ fst item +:+ "] " +:+ Py.format (types.description tool));
                types.inputSchema := types.inputSchema tool |})
          (types.tools r)
  | _ => []
  end.

End Spec.

(** * Sample data *)

Module Examples.

(** One-letter cache keys [a], [b], [c], ... *)
Definition key_of (i : nat) : string := String (ascii_of_nat (97 + i)) EmptyString.

(** [n] insertions under distinct keys, one per microsecond, with the
    default time to live. *)
Definition fill (n : nat) : list (Cache.op unit) :=
  map (fun i => Cache.OpSet (Z.of_nat i) (key_of i) () None) (seq 0 n).

(** The guest of the specification's third scenario: every tool of the
    server [fs] is denied, although one of them is also allowed. *)
Definition deny_fs : AccessRule :=
  {| server := "fs"; tools := Some ["*"]; resources := None |}.

Definition allow_read : AccessRule :=
  {| server := "fs"; tools := Some ["read_file"]; resources := None |}.

Definition guest_rule : ClientRule :=
  {| identify_by := [[("client_info.name", "guest")]];
     allow := [allow_read];
     deny := [deny_fs];
     deny_all_except_allowed := false |}.

(** A rule that identifies by a wildcard, and the open default rule. *)
Definition ide_rule : ClientRule :=
  {| identify_by := [[("client_info.name", "claude*")]];
     allow := []; deny := []; deny_all_except_allowed := true |}.

Definition open_rule : ClientRule :=
  {| identify_by := [[("client_info.name", "nobody")]];
     allow := []; deny := []; deny_all_except_allowed := false |}.

Definition clients : PermissionEngine.client_rules :=
  [("ide", ide_rule); ("guest", guest_rule); ("default", open_rule)].

Definition client_named (n : string) : ClientIdentifier.client_info_obj :=
  ClientIdentifier.InitializeRequestParams
    (Some {| ClientIdentifier.name := n; ClientIdentifier.version := "1.0" |}).

Definition context_of (n : string) : ClientIdentifier.ConnectionContext :=
  {| ClientIdentifier.client_info := Some (client_named n);
     ClientIdentifier.transport_type := "stdio";
     ClientIdentifier.headers := ∅;
     ClientIdentifier.remote_address := EmptyString;
     ClientIdentifier.client_id := None |}.

(** A supervisor with the server [fs] configured and an installer whose
    installation fails. *)
Definition fs_config : ServerConfig :=
  {| source := "npm:fs"; transport := stdio; auto_install := true; enabled := true |}.

Definition broken_installer : ServerManager.Installer :=
  {| ServerManager.is_installed := fun _ _ => false;
     ServerManager.get_install_path := fun _ _ => "/srv/fs";
     ServerManager.install := fun _ _ => Py.Raise (Py.RuntimeError "install failed") |}.

Definition supervisor : ServerManager.MCPServerManager :=
  {| ServerManager.servers := {[ "fs" := fs_config ]};
     ServerManager.processes := [];
     ServerManager.installer := broken_installer |}.

Definition echo_session : Process.ClientSession :=
  {| Process.on_list_tools := Process.Replies {| types.tools := [] |};
     Process.on_call_tool := fun _ _ =>
       Process.Replies {| types.content := [types.TextContent "ok"];
                          types.isError := false |} |}.

(** The manager built on these, with the router's default cache. *)
Definition manager : Manager.MCPManager :=
  {| Manager.router :=
       {| Router.server_manager := supervisor;
          Router.permission_engine := clients;
          Router.cache := Cache.init 1000 300 |};
     Manager.access_middleware :=
       {| Middleware.permission_engine := clients;
          Middleware.identifier := clients |} |}.

Definition guest_request : Manager.RequestContext :=
  {| Manager.client_params := Some (client_named "guest") |}.

Definition anonymous_request : Manager.RequestContext :=
  {| Manager.client_params := None |}.

(** Three running backends; the list call of [b] raises. *)
Definition tool (n : string) : types.Tool :=
  {| types.name := n; types.description := Some ("runs " +:+ n);
     types.inputSchema := "{}" |}.

Definition running (sid : string) (o : Process.outcome types.ListToolsResult)
  : string * Process.MCPProcess :=
  (sid,
   {| Process.server_id := sid; Process.config := fs_config;
      Process.install_path := "/srv/" +:+ sid;
      Process.session :=
        Some {| Process.on_list_tools := o;
                Process.on_call_tool := Process.on_call_tool echo_session |};
      Process.status := Process.RUNNING;
      Process.request_count := 0; Process.error_count := 0 |}).

Definition three_backends : ServerManager.MCPServerManager :=
  {| ServerManager.servers := ∅;
     ServerManager.processes :=
       [running "a" (Process.Replies {| types.tools := [tool "x"] |});
        running "b" (Process.Fails (Py.RuntimeError "boom"));
        running "c" (Process.Replies {| types.tools := [tool "y"; tool "z"] |})];
     ServerManager.installer := broken_installer |}.

(** A router over one running backend [fs] that answers every call. *)
Definition live_router : Router.MCPRouter :=
  {| Router.server_manager :=
       {| ServerManager.servers := {[ "fs" := fs_config ]};
          ServerManager.processes :=
            [running "fs" (Process.Replies {| types.tools := [tool "read_file"] |})];
          ServerManager.installer := broken_installer |};
     Router.permission_engine := clients;
     Router.cache := Cache.init 1000 300 |}.

(** The number of requests the router's backend [fs] has counted. *)
Definition fs_requests (r : Router.MCPRouter) : option nat :=
  Process.request_count
    <$> PyDict.get "fs" (ServerManager.processes (Router.server_manager r)).

(** A stand-in for the digest of the cache key. *)
Definition plain_key (server_id tool_name : string) (arguments : types.json) : string :=
  server_id +:+ "/" +:+ tool_name +:+ "/" +:+ arguments.

End Examples.

(** * Further parts of the sources *)

(** ** More Python primitives *)

Module PyStr.

(** [s.split(sep, 1)] for a separator of any length, when [sep in s]:
    the text before the first occurrence of [sep] and the text after it;
    [None] when [sep] does not occur in [s]. *)
Fixpoint split_at (sep s : string) : option (string * string) :=
  if Py.startswith s sep then Some (EmptyString, Py.slice_from (String.length sep) s)
  else
    match s with
    | EmptyString => None
    | String a s' =>
        match split_at sep s' with
        | Some (l, r) => Some (String a l, r)
        | None => None
        end
    end.

(** [sep in s] *)
Definition contains_sub (sep s : string) : bool :=
  match split_at sep s with Some _ => true | None => false end.

(** [c.upper()] on an ASCII letter; other bytes are left as they are. *)
Definition upper_char (c : ascii) : ascii :=
  let n := nat_of_ascii c in
  if (97 <=? n)%nat && (n <=? 122)%nat then ascii_of_nat (n - 32) else c.

(** [s.upper()] for ASCII text *)
Fixpoint upper (s : string) : string :=
  match s with
  | EmptyString => EmptyString
  | String a s' => String (upper_char a) (upper s')
  end.

(** [sep.join(xs)] *)
Fixpoint join (sep : string) (xs : list string) : string :=
  match xs with
  | [] => EmptyString
  | [x] => x
  | x :: xs' => x +:+ sep +:+ join sep xs'
  end.

(** Whether every byte of [s] is an ASCII character. *)
Fixpoint is_ascii (s : string) : bool :=
  match s with
  | EmptyString => true
  | String a s' => (nat_of_ascii a <? 128)%nat && is_ascii s'
  end.

End PyStr.

(** ** Resources in the permission engine ([access/permission_engine.py]) *)

Module ResourceAccess.

Definition _extract_resource_name (resource_uri : string) : string :=
  if PyStr.contains_sub "://" resource_uri then
    match PyStr.split_at "://" resource_uri with
    | Some (_, path) =>
        if Py.contains "/" path then (Py.split1 "/" path).2 else path
    | None => resource_uri
    end
  else resource_uri.

Definition check_resource_access
    (clients : PermissionEngine.client_rules) (client_id server_id resource_uri : string)
  : bool :=
  let lookup :=
    match PyDict.get client_id clients with
    | Some rule => Some rule
    | None => PyDict.get "default" clients
    end in
  match lookup with
  | None => false
  | Some rule =>
      let resource_name := _extract_resource_name resource_uri in
      if PermissionEngine.any_rule_matches (deny rule) server_id resource_name "resources"
      then false
      else if PermissionEngine.any_rule_matches (allow rule) server_id resource_name
                "resources"
      then true
      else negb (deny_all_except_allowed rule)
  end.

(** The inner loop of [filter_tools]: [allowed_tools.append(tool)] for
    every tool the client may use. *)
Fixpoint allowed_tools_loop
    (clients : PermissionEngine.client_rules) (client_id server_id : string)
    (tools : list types.Tool) (allowed_tools : list types.Tool) : list types.Tool :=
  match tools with
  | [] => allowed_tools
  | tool :: tools' =>
      allowed_tools_loop clients client_id server_id tools'
        (if PermissionEngine.check_tool_access clients client_id server_id (types.name tool)
         then allowed_tools ++ [tool] else allowed_tools)
  end.

(** The outer loop of [filter_tools], over [server_tools.items()]. *)
Fixpoint filter_tools_loop
    (clients : PermissionEngine.client_rules) (client_id : string)
    (server_tools : PyDict.t (list types.Tool))
    (filtered_tools : PyDict.t (list types.Tool)) : PyDict.t (list types.Tool) :=
  match server_tools with
  | [] => filtered_tools
  | (server_id, tools) :: server_tools' =>
      let allowed_tools := allowed_tools_loop clients client_id server_id tools [] in
      filter_tools_loop clients client_id server_tools'
        (match allowed_tools with
         | [] => filtered_tools
         | _ :: _ => PyDict.setitem server_id allowed_tools filtered_tools
         end)
  end.

Definition filter_tools
    (clients : PermissionEngine.client_rules) (client_id : string)
    (server_tools : PyDict.t (list types.Tool)) : PyDict.t (list types.Tool) :=
  filter_tools_loop clients client_id server_tools [].

End ResourceAccess.

(** ** The middleware's parser of resource URIs ([access/middleware.py]) *)

Module MiddlewareResources.

Definition _parse_namespaced_resource (resource_uri : string) : string * string :=
  if Py.startswith resource_uri "mcp://" then
    let uri_parts := Py.slice_from 6 resource_uri in
    if Py.contains "/" uri_parts then Py.split1 "/" uri_parts
    else (uri_parts, EmptyString)
  else ("default", resource_uri).

End MiddlewareResources.

(** ** Cache statistics ([routing/cache.py]) *)

Module CacheStats.

(** The integer entries of the dictionary [get_stats] returns.  Its
    [fill_percentage] is the float [(total_entries / max_size) * 100]; the
    float is not represented, the division's failure is. *)
Record stats : Type := {
  total_entries : nat;
  expired_entries : nat;
  active_entries : Z;
  max_size : Z
}.

Inductive stats_result : Type :=
| Stats (s : stats)
| ZeroDivisionError.

(** [sum(1 for entry in d.values() if entry.is_expired())] *)
Fixpoint count_expired {A : Type} (now : Z) (d : PyDict.t (Cache.CacheEntry A)) : nat :=
  match d with
  | [] => 0
  | (_, entry) :: d' =>
      if Cache.is_expired now entry then S (count_expired now d')
      else count_expired now d'
  end.

Definition get_stats {A : Type} (now : Z) (c : Cache.ResponseCache A) : stats_result :=
  let total := PyDict.len (Cache.cache c) in
  let expired := count_expired now (Cache.cache c) in
  if (Cache.max_size c =? 0)%Z then ZeroDivisionError
  else Stats {| total_entries := total;
                expired_entries := expired;
                active_entries := (Z.of_nat total - Z.of_nat expired)%Z;
                max_size := Cache.max_size c |}.

End CacheStats.

(** ** Stopping and restarting backends ([server/process.py],
    [server/manager.py]) *)

Module Supervisor.

(** The exception of a clean-up step that [except Exception] does not
    swallow. *)
Definition escapes (r : Py.result unit) : option Py.exn :=
  match r with
  | Py.Raise e => if Py.is_exception e then None else Some e
  | Py.Return _ => None
  end.

(** [MCPProcess.stop].  [session_exit] and [stdio_exit] are what leaving
    the session and the transport context managers gives; both context
    managers are set and cleared together with [session]. *)
Definition stop (session_exit stdio_exit : Py.result unit) (p : Process.MCPProcess)
  : Py.result unit * Process.MCPProcess :=
  if negb (bool_decide (Process.status p = Process.RUNNING)
           || bool_decide (Process.status p = Process.STARTING))
  then (Py.Return (), p)
  else
    let had_session := Process.session p in
    let p := Process.with_status p Process.STOPPING in
    match had_session with
    | None => (Py.Return (), Process.with_status p Process.STOPPED)
    | Some _ =>
        (* [finally: self.session = None] *)
        let p := Process.with_session p None in
        match escapes session_exit with
        | Some e => (Py.Raise e, p)
        | None =>
            match escapes stdio_exit with
            | Some e => (Py.Raise e, p)
            | None => (Py.Return (), Process.with_status p Process.STOPPED)
            end
        end
    end.

Definition stop_server
    (session_exit stdio_exit : Py.result unit) (server_id : string)
    (m : ServerManager.MCPServerManager) : Py.result unit * ServerManager.MCPServerManager :=
  match PyDict.get server_id (ServerManager.processes m) with
  | None => (Py.Return (), m)
  | Some process =>
      match stop session_exit stdio_exit process with
      | (Py.Raise e, process) =>
          (Py.Raise e,
           ServerManager.with_processes m
             (PyDict.setitem server_id process (ServerManager.processes m)))
      | (Py.Return _, _) =>
          match PyDict.delitem server_id (ServerManager.processes m) with
          | Py.Return ps => (Py.Return (), ServerManager.with_processes m ps)
          | Py.Raise e => (Py.Raise e, m)
          end
      end
  end.

Definition restart_server
    (session_exit stdio_exit : Py.result unit) (spawn : Py.result Process.ClientSession)
    (server_id : string) (m : ServerManager.MCPServerManager)
  : Py.result unit * ServerManager.MCPServerManager :=
  let '(stopped, m) :=
    if PyDict.mem server_id (ServerManager.processes m)
    then stop_server session_exit stdio_exit server_id m
    else (Py.Return (), m) in
  match stopped with
  | Py.Raise e => (Py.Raise e, m)
  | Py.Return _ => ServerManager.start_server spawn server_id m
  end.

(** The supervisor's operations on one backend, each with what the
    outside world does during the call. *)
Inductive op : Type :=
| Start (server_id : string) (spawn : Py.result Process.ClientSession)
| Stop (server_id : string) (session_exit stdio_exit : Py.result unit)
| Restart (server_id : string) (session_exit stdio_exit : Py.result unit)
    (spawn : Py.result Process.ClientSession)
| CallTool (server_id tool_name : string) (arguments : types.json).

Definition step (o : op) (m : ServerManager.MCPServerManager)
  : ServerManager.MCPServerManager :=
  match o with
  | Start server_id spawn => (ServerManager.start_server spawn server_id m).2
  | Stop server_id session_exit stdio_exit =>
      (stop_server session_exit stdio_exit server_id m).2
  | Restart server_id session_exit stdio_exit spawn =>
      (restart_server session_exit stdio_exit spawn server_id m).2
  | CallTool server_id tool_name arguments =>
      (ServerManager.call_tool server_id tool_name arguments m).2
  end.

(** A sequence of calls; a caller that catches the exception of one call
    goes on with the next. *)
Definition run (ops : list op) (m : ServerManager.MCPServerManager)
  : ServerManager.MCPServerManager :=
  foldl (fun m o => step o m) m ops.

(** No clean-up step of the operation is cancelled from outside. *)
Definition uncancelled (o : op) : Prop :=
  match o with
  | Stop _ session_exit stdio_exit | Restart _ session_exit stdio_exit _ =>
      escapes session_exit = None /\ escapes stdio_exit = None
  | _ => True
  end.

(** What the supervisor keeps true of its session map. *)
Definition session_map_ok (m : ServerManager.MCPServerManager) : Prop :=
  PyDict.wf (ServerManager.processes m)
  /\ forall server_id process,
       In (server_id, process) (ServerManager.processes m) ->
       Process.server_id process = server_id
       /\ Process.status process = Process.RUNNING
       /\ is_Some (Process.session process)
       /\ (Process.error_count process <= Process.request_count process)%nat
       /\ ServerManager.servers m !! server_id = Some (Process.config process).

End Supervisor.

(** ** Configuration adaptation ([config/adaptation.py]) *)

Module ConfigAdaptation.

(** A value of a server's [config] dictionary, by the cases that
    [adapt_config] tells apart: [None], a [bool], a list or tuple (with
    [str(item)] of each item), and any other value (with [str(value)]). *)
Inductive value : Type :=
| VNone
| VBool (b : bool)
| VList (items : list string)
| VOther (text : string).

(** The dictionary [{"cli_args": ..., "env_vars": ...}] that is returned. *)
Record adapted : Type := {
  cli_args : list string;
  env_vars : PyDict.t string
}.

Definition adapt_config (config : PyDict.t value) : adapted :=
  match config with
  | [] => {| cli_args := []; env_vars := [] |}
  | _ =>
      let env_vars :=
        foldl (fun (env_vars : PyDict.t string) (item : string * value) =>
                 let '(key, value) := item in
                 match value with
                 | VNone => env_vars
                 | VBool b =>
                     PyDict.setitem (PyStr.upper key)
                       (if b then "true" else "false") env_vars
                 | VList items =>
                     PyDict.setitem (PyStr.upper key) (PyStr.join "," items) env_vars
                 | VOther text => PyDict.setitem (PyStr.upper key) text env_vars
                 end)
              [] config in
      {| cli_args := []; env_vars := env_vars |}
  end.

End ConfigAdaptation.

(** ** Server sources ([config/manager.py], [server/process.py]) *)

Module ServerSource.

Section Files.

(** [Path(p).exists()] *)
Variable path_exists : string -> bool.

(** [ConfigManager._validate_server_source] *)
Definition _validate_server_source (server_config : ServerConfig) : bool :=
  let source := source server_config in
  if negb (Py.contains ":" source) then false
  else
    let '(source_type, source_path) := Py.split1 ":" source in
    if negb (Py.str_in source_type ["npm"; "github"; "local"]) then false
    else if String.eqb source_type "local" then
      (* check if the local path exists *)
      if negb (path_exists source_path) then false else true
    else true.

End Files.

(** The package name that [MCPProcess._start_stdio] hands to the server
    detector. *)
Definition requested_package (config : ServerConfig) : option string :=
  if Py.contains ":" (source config) then
    let '(source_type, package_name) := Py.split1 ":" (source config) in
    if Py.str_in source_type ["npm"; "uvx"; "pip"] then Some package_name
    else None
  else None.

End ServerSource.

(** ** The front-end handler for [list_tools] ([core/manager.py]) *)

Module Manager2.

Section Handler.

Variable call_tool_key : string -> string -> types.json -> string.
Variables now later : Z.

Definition list_tools (ctx : Manager.RequestContext) (mgr : Manager.MCPManager)
  : Py.result (list types.Tool) * Manager.MCPManager :=
  let context := Manager._create_connection_context ctx in
  let '(routed, r) :=
    Router.route_request call_tool_key now later types.ListToolsRequest context
      (Manager.router mgr) in
  let mgr := Manager.with_router mgr r in
  match routed with
  | Py.Return (Router.ToolsList result) => (Py.Return (types.tools result), mgr)
  | Py.Return _ => (Py.Return [], mgr)        (* empty list on error *)
  | Py.Raise e =>
      if Py.is_exception e then (Py.Return [], mgr) else (Py.Raise e, mgr)
  end.

End Handler.

End Manager2.

(** ** Notions used by the further properties *)

Module Notions.

(** Some rule of the list matches the server and the tool. *)
Definition some_rule_matches_tool
    (rules : list AccessRule) (server_id tool_name : string) : Prop :=
  exists r, In r rules /\ Spec.rule_matches_tool r server_id tool_name.

(** A rule matches a resource of a server by its [resources] list, with
    the same reading of the list as for tools. *)
Definition rule_matches_resource
    (rule : AccessRule) (server_id resource_name : string) : Prop :=
  server rule = server_id /\ Spec.tool_list_matches (resources rule) resource_name.

Definition some_rule_matches_resource
    (rules : list AccessRule) (server_id resource_name : string) : Prop :=
  exists r, In r rules /\ rule_matches_resource r server_id resource_name.

(** The tools of one server that the client may use, in order. *)
Definition allowed_of
    (clients : PermissionEngine.client_rules) (client_id : string)
    (item : string * list types.Tool) : string * list types.Tool :=
  (item.1,
   List.filter
     (fun tool =>
        PermissionEngine.check_tool_access clients client_id item.1 (types.name tool))
     item.2).

Definition nonempty {B : Type} (item : string * list B) : bool :=
  match item.2 with [] => false | _ :: _ => true end.


(** The text of the environment variable that stands for a
    configuration value; [None] has none. *)
Definition env_text (v : ConfigAdaptation.value) : option string :=
  match v with
  | ConfigAdaptation.VNone => None
  | ConfigAdaptation.VBool true => Some "true"
  | ConfigAdaptation.VBool false => Some "false"
  | ConfigAdaptation.VList items => Some (PyStr.join "," items)
  | ConfigAdaptation.VOther text => Some text
  end.

End Notions.

(** ** More sample data *)

Module Examples2.

(** A connection about which nothing is known. *)
Definition bare_context : ClientIdentifier.ConnectionContext :=
  {| ClientIdentifier.client_info := None;
     ClientIdentifier.transport_type := EmptyString;
     ClientIdentifier.headers := ∅;
     ClientIdentifier.remote_address := EmptyString;
     ClientIdentifier.client_id := None |}.

(** A catch-all rule in front of the guest's rule. *)
Definition anyone_rule : ClientRule :=
  {| identify_by := []; allow := []; deny := []; deny_all_except_allowed := true |}.

Definition shadowed_clients : PyDict.t ClientRule :=
  [("anyone", anyone_rule); ("guest", Examples.guest_rule)].


Definition fs_backend : ServerManager.MCPServerManager :=
  {| ServerManager.servers := {[ "fs" := Examples.fs_config ]};
     ServerManager.processes :=
       [Examples.running "fs"
          (Process.Replies
             {| types.tools := [Examples.tool "read_file"; Examples.tool "write_file"] |})];
     ServerManager.installer := Examples.broken_installer |}.



Definition ok_result : types.CallToolResult :=
  {| types.content := [types.TextContent "ok"]; types.isError := false |}.

(** The router of [Examples.live_router] with the answer to
    [fs.read_file] in its cache since the tenth microsecond. *)
Definition cached_router : Router.MCPRouter :=
  Router.with_cache Examples.live_router
    {| Cache.cache :=
         [(Examples.plain_key "fs" "read_file" "{}", Cache.new_entry ok_result 300 10)];
       Cache.max_size := 1000; Cache.default_ttl := 300 |}.

(** A supervisor with a working installer and nothing running, and a
    day in its life. *)
Definition working_installer : ServerManager.Installer :=
  {| ServerManager.is_installed := fun _ _ => true;
     ServerManager.get_install_path := fun sid _ => "/srv/" +:+ sid;
     ServerManager.install := fun sid _ => Py.Return ("/srv/" +:+ sid) |}.

Definition sse_config : ServerConfig :=
  {| source := "npm:events"; transport := sse; auto_install := true; enabled := true |}.

Definition idle_supervisor : ServerManager.MCPServerManager :=
  {| ServerManager.servers := {[ "fs" := Examples.fs_config; "events" := sse_config ]};
     ServerManager.processes := [];
     ServerManager.installer := working_installer |}.

Definition day : list Supervisor.op :=
  [Supervisor.Start "fs" (Py.Return Examples.echo_session);
   Supervisor.Start "events" (Py.Return Examples.echo_session);
   Supervisor.CallTool "fs" "read_file" "{}";
   Supervisor.Restart "fs" (Py.Raise (Py.RuntimeError "closed")) (Py.Return ())
     (Py.Return Examples.echo_session);
   Supervisor.Stop "fs" (Py.Return ()) (Py.Return ())].

(** The [config] dictionary of a server. *)
Definition server_settings : PyDict.t ConfigAdaptation.value :=
  [("api_key", ConfigAdaptation.VOther "s3cret");
   ("verbose", ConfigAdaptation.VBool true);
   ("roots", ConfigAdaptation.VList ["/a"; "/b"]);
   ("proxy", ConfigAdaptation.VNone)].

(** A backend [fs] whose tool reports an error of its own. *)
Definition error_result : types.CallToolResult :=
  {| types.content := [types.TextContent "no such file"]; types.isError := true |}.

Definition complaining_router : Router.MCPRouter :=
  {| Router.server_manager :=
       {| ServerManager.servers := {[ "fs" := Examples.fs_config ]};
          ServerManager.processes :=
            [("fs",
              {| Process.server_id := "fs"; Process.config := Examples.fs_config;
                 Process.install_path := "/srv/fs";
                 Process.session :=
                   Some {| Process.on_list_tools :=
                             Process.Replies {| types.tools := [Examples.tool "read_file"] |};
                           Process.on_call_tool := fun _ _ => Process.Replies error_result |};
                 Process.status := Process.RUNNING;
                 Process.request_count := 0; Process.error_count := 0 |})];
          ServerManager.installer := Examples.broken_installer |};
     Router.permission_engine := Examples.clients;
     Router.cache := Cache.init 1000 300 |}.

End Examples2.

(** * Properties *)

(** ** Python primitives *)

Lemma str_in_In (x : string) (xs : list string) :
  Py.str_in x xs = true <-> In x xs.
Proof.
  induction xs as [|y ys IH]; simpl.
  - split; [discriminate | tauto].
  - destruct (String.eqb_spec x y) as [->|Hne].
    + split; auto.
    + rewrite IH. split; [auto | intros [Heq|Hin]; [congruence | done]].
Qed.

(** ** Permission engine *)

Lemma wildcard_match_exists (item_name : string) (patterns : list string) :
  PermissionEngine._wildcard_match item_name patterns = true
  <-> exists pattern, In pattern patterns /\ Fnmatch.fnmatch item_name pattern = true.
Proof.
  induction patterns as [|p ps IH]; simpl.
  - split; [discriminate | intros (p & [] & _)].
  - destruct (Fnmatch.fnmatch item_name p) eqn:Hp.
    + split; [eauto | done].
    + rewrite IH. split.
      * intros (q & Hq & Hm). eauto.
      * intros (q & [<-|Hq] & Hm); [congruence | eauto].
Qed.

Lemma matches_access_rule_tools (rule : AccessRule) (server_id tool_name : string) :
  PermissionEngine._matches_access_rule rule server_id tool_name "tools" = true
  <-> Spec.rule_matches_tool rule server_id tool_name.
Proof.
  unfold PermissionEngine._matches_access_rule, Spec.rule_matches_tool,
    Spec.tool_list_matches.
  destruct (String.eqb_spec (server rule) server_id) as [Hs|Hs]; simpl.
  - destruct (tools rule) as [[|i items]|].
    + tauto.
    + rewrite !orb_true_iff, !str_in_In, wildcard_match_exists. tauto.
    + tauto.
  - split; [discriminate | tauto].
Qed.

Lemma any_rule_matches_exists
    (rules : list AccessRule) (server_id item_name item_type : string) :
  PermissionEngine.any_rule_matches rules server_id item_name item_type = true
  <-> exists r, In r rules
        /\ PermissionEngine._matches_access_rule r server_id item_name item_type = true.
Proof.
  induction rules as [|r rs IH]; simpl.
  - split; [discriminate | intros (r & [] & _)].
  - destruct (PermissionEngine._matches_access_rule r server_id item_name item_type) eqn:Hr.
    + split; [eauto | done].
    + rewrite IH. split.
      * intros (q & Hq & Hm). eauto.
      * intros (q & [<-|Hq] & Hm); [congruence | eauto].
Qed.

Lemma check_tool_access_resolved
    (clients : PermissionEngine.client_rules) (c s t : string) (rule : ClientRule) :
  Spec.resolved_rule clients c rule ->
  PermissionEngine.check_tool_access clients c s t =
    if PermissionEngine.any_rule_matches (deny rule) s t "tools" then false
    else if PermissionEngine.any_rule_matches (allow rule) s t "tools" then true
    else negb (deny_all_except_allowed rule).
Proof.
  unfold PermissionEngine.check_tool_access.
  intros [-> | [-> ->]]; by destruct (deny_all_except_allowed rule).
Qed.

Lemma matching_deny_rule_denies
    (clients : PermissionEngine.client_rules) (c s t : string)
    (rule : ClientRule) (d : AccessRule) :
  Spec.resolved_rule clients c rule ->
  In d (deny rule) ->
  Spec.rule_matches_tool d s t ->
  PermissionEngine.check_tool_access clients c s t = false.
Proof.
  intros Hres Hin Hmatch.
  rewrite (check_tool_access_resolved _ _ _ _ _ Hres).
  assert (PermissionEngine.any_rule_matches (deny rule) s t "tools" = true) as ->; [|done].
  apply any_rule_matches_exists. exists d. split; [done|].
  by apply matches_access_rule_tools.
Qed.

(** C1. Deny precedence: whenever a rule of the deny list of the client's
    resolved rule (its own rule, or the rule of [default]) matches the
    server and the tool (a missing or empty tool list matching every tool,
    a listed name, the literal [*] or a wildcard pattern matching the
    name), [check_tool_access] is false, whatever the allow list holds. *)
Theorem deny_precedence
    (clients : PermissionEngine.client_rules) (c s t : string)
    (rule : ClientRule) (d : AccessRule) :
  Spec.resolved_rule clients c rule ->
  In d (deny rule) ->
  Spec.rule_matches_tool d s t ->
  PermissionEngine.check_tool_access clients c s t = false.
Proof. apply matching_deny_rule_denies. Qed.

(** The guest's allow list names [read_file], and its deny list still
    wins. *)
Lemma deny_precedence_witness :
  In Examples.deny_fs (deny Examples.guest_rule)
  /\ In Examples.allow_read (allow Examples.guest_rule)
  /\ PermissionEngine.check_tool_access Examples.clients "guest" "fs" "read_file" = false.
Proof.
  split; [by left|]. split; [by left|].
  apply (deny_precedence Examples.clients "guest" "fs" "read_file"
           Examples.guest_rule Examples.deny_fs).
  - left. reflexivity.
  - left. reflexivity.
  - split; [reflexivity|]. simpl. right. left. left. reflexivity.
Defined.

(** ** Client identification *)

Lemma matches_value_spec (actual expected : string) :
  ClientIdentifier._matches_value actual expected = true
  <-> Spec.value_matches actual expected.
Proof.
  unfold ClientIdentifier._matches_value, Spec.value_matches.
  destruct (Py.endswith expected "*"); [done|].
  apply String.eqb_eq.
Qed.

Lemma matches_condition_spec
    (context : ClientIdentifier.ConnectionContext) (condition : PyDict.t string) :
  ClientIdentifier.matches_condition context condition = true
  <-> Spec.condition_matches context condition.
Proof.
  unfold Spec.condition_matches.
  induction condition as [|[key expected] condition IH]; simpl.
  - split; [intros _ ? ? [] | done].
  - destruct (ClientIdentifier._matches_value _ expected) eqn:Hv; simpl.
    + rewrite IH. split.
      * intros H k e [[= <- <-]|Hin]; [by apply matches_value_spec | by apply H].
      * intros H k e Hin. apply H. by right.
    + split; [done|]. intros H.
      assert (Spec.value_matches
                (ClientIdentifier._extract_context_value context key) expected) as Hm
        by (apply H; by left).
      apply matches_value_spec in Hm. congruence.
Qed.

Lemma matches_rule_spec
    (context : ClientIdentifier.ConnectionContext) (rule : ClientRule) :
  ClientIdentifier._matches_rule context (identify_by rule) = true
  <-> Spec.rule_identifies context rule.
Proof.
  unfold Spec.rule_identifies.
  induction (identify_by rule) as [|condition conditions IH]; simpl.
  - split; [intros _ ? [] | done].
  - destruct (ClientIdentifier.matches_condition context condition) eqn:Hc.
    + rewrite IH. split.
      * intros H c [<-|Hin]; [by apply matches_condition_spec | by apply H].
      * intros H c Hin. apply H. by right.
    + split; [done|]. intros H.
      assert (Spec.condition_matches context condition) as Hm by (apply H; by left).
      apply matches_condition_spec in Hm. congruence.
Qed.

Lemma header_missing (context : ClientIdentifier.ConnectionContext) (h : string) :
  ClientIdentifier.headers context !! h = None ->
  ClientIdentifier.header context h = EmptyString.
Proof.
  unfold ClientIdentifier.header. intros ->. by case_decide.
Qed.

Lemma extract_header_key (context : ClientIdentifier.ConnectionContext) (h : string) :
  ClientIdentifier._extract_context_value context ("header." +:+ h)
  = ClientIdentifier.header context h.
Proof. reflexivity. Qed.

Lemma extract_missing_value
    (context : ClientIdentifier.ConnectionContext) (key : string) :
  Spec.context_lacks context key ->
  ClientIdentifier._extract_context_value context key = EmptyString.
Proof.
  intros [Hci|Hci|Hua|h Hh|k Hk Hp].
  - unfold ClientIdentifier._extract_context_value. simpl. by rewrite Hci.
  - unfold ClientIdentifier._extract_context_value. simpl. by rewrite Hci.
  - unfold ClientIdentifier._extract_context_value. simpl. by apply header_missing.
  - rewrite extract_header_key. by apply header_missing.
  - unfold ClientIdentifier._extract_context_value.
    repeat match goal with
           | |- context [String.eqb k ?s] =>
               destruct (String.eqb_spec k s) as [->|?];
               [exfalso; apply Hk; simpl; tauto|]
           end.
    rewrite Hp. reflexivity.
Qed.


(** The first scenario of the specification: [claude-desktop] matches the
    wildcard of the rule [ide]; [vscode] matches no rule. *)
Example identify_by_wildcard :
  (ClientIdentifier.identify_client Examples.clients
     (Examples.context_of "claude-desktop")).1 = "ide"
  /\ (ClientIdentifier.identify_client Examples.clients
        (Examples.context_of "vscode")).1 = "default".
Proof. split; reflexivity. Qed.

(** ** Dictionaries *)

Section PyDictFacts.
Context {V : Type}.
Implicit Types (d : PyDict.t V) (k : string) (v : V).

Lemma dict_get_In k d v : PyDict.get k d = Some v -> In (k, v) d.
Proof.
  induction d as [|[k' v'] d IH]; simpl; [done|].
  destruct (String.eqb_spec k k') as [->|Hne].
  - intros [= ->]. by left.
  - intros H. right. by apply IH.
Qed.

Lemma dict_mem_keys k d : PyDict.mem k d = true <-> In k (PyDict.keys d).
Proof.
  unfold PyDict.mem. induction d as [|[k' v'] d IH]; simpl.
  - split; [discriminate | tauto].
  - destruct (String.eqb_spec k k') as [->|Hne].
    + split; auto.
    + rewrite IH. split; [auto | intros [Heq|Hin]; [congruence | done]].
Qed.

Lemma dict_get_remove k d : PyDict.get k (PyDict.remove k d) = None.
Proof.
  unfold PyDict.remove. induction d as [|[k' v'] d IH]; simpl; [done|].
  destruct (String.eqb_spec k k') as [->|Hne]; simpl; [done|].
  by destruct (String.eqb_spec k k').
Qed.

Lemma dict_keys_filter (f : string * V -> bool) d :
  NoDup (PyDict.keys d) -> NoDup (PyDict.keys (List.filter f d)).
Proof.
  unfold PyDict.keys. induction d as [|x d IH]; simpl; [done|].
  rewrite NoDup_cons. intros [Hx Hd]. destruct (f x); simpl; [|auto].
  apply NoDup_cons. split; [|auto].
  rewrite list_elem_of_In, in_map_iff. intros (y & Hy & Hin).
  apply Hx. rewrite list_elem_of_In, in_map_iff. exists y.
  apply filter_In in Hin. tauto.
Qed.

Lemma dict_wf_remove k d : PyDict.wf d -> PyDict.wf (PyDict.remove k d).
Proof. apply dict_keys_filter. Qed.

Lemma dict_keys_setitem k v d :
  PyDict.keys (PyDict.setitem k v d)
  = if PyDict.mem k d then PyDict.keys d else PyDict.keys d ++ [k].
Proof.
  unfold PyDict.mem. induction d as [|[k' v'] d IH]; simpl; [done|].
  destruct (String.eqb_spec k k') as [->|Hne]; simpl; [done|].
  rewrite IH. by destruct (PyDict.get k d).
Qed.

Lemma dict_wf_setitem k v d : PyDict.wf d -> PyDict.wf (PyDict.setitem k v d).
Proof.
  unfold PyDict.wf. rewrite dict_keys_setitem.
  destruct (PyDict.mem k d) eqn:Hm; [done|].
  intros Hd. apply NoDup_app. split; [done|]. split; [|apply NoDup_singleton].
  intros x Hx Hk. apply list_elem_of_singleton in Hk as ->.
  apply list_elem_of_In, dict_mem_keys in Hx. congruence.
Qed.

Lemma dict_len_setitem k v d :
  PyDict.len (PyDict.setitem k v d)
  = if PyDict.mem k d then PyDict.len d else S (PyDict.len d).
Proof.
  unfold PyDict.len, PyDict.mem. induction d as [|[k' v'] d IH]; simpl; [done|].
  destruct (String.eqb_spec k k') as [->|Hne]; simpl; [done|].
  rewrite IH. by destruct (PyDict.get k d).
Qed.

Lemma dict_get_setitem k v d : PyDict.get k (PyDict.setitem k v d) = Some v.
Proof.
  induction d as [|[k' v'] d IH]; simpl.
  - by rewrite String.eqb_refl.
  - destruct (String.eqb_spec k k') as [->|Hne]; simpl.
    + by rewrite String.eqb_refl.
    + by destruct (String.eqb_spec k k').
Qed.

Lemma dict_len_filter (f : string * V -> bool) d :
  (PyDict.len (List.filter f d) <= PyDict.len d)%nat.
Proof. apply List.filter_length_le. Qed.

End PyDictFacts.

(** ** Response cache *)

Section CacheFacts.
Context {A : Type}.
Implicit Types (d : PyDict.t (Cache.CacheEntry A)) (c : Cache.ResponseCache A).

Lemma del_keys_filter (ks : list string) d :
  NoDup ks ->
  (forall k, In k ks -> In k (PyDict.keys d)) ->
  Cache.del_keys ks d
  = Py.Return (List.filter (fun item => negb (Py.str_in (fst item) ks)) d).
Proof.
  revert d. induction ks as [|k ks IH]; intros d Hnd Hin; simpl.
  - f_equal. induction d as [|x d IHd]; simpl; [done | by rewrite <- IHd].
  - apply NoDup_cons in Hnd as [Hk Hnd].
    unfold PyDict.delitem.
    assert (PyDict.mem k d = true) as -> by (apply dict_mem_keys, Hin; by left).
    simpl. rewrite IH; [|done|].
    + f_equal. unfold PyDict.remove. clear.
      induction d as [|x d IHd]; simpl; [done|].
      rewrite (String.eqb_sym (fst x) k).
      destruct (String.eqb k (fst x)); simpl; [done|].
      destruct (Py.str_in (fst x) ks); simpl; by rewrite IHd.
    + intros k' Hk'. unfold PyDict.keys, PyDict.remove.
      apply in_map_iff. specialize (Hin k' (or_intror Hk')).
      apply in_map_iff in Hin as (x & <- & Hx). exists x. split; [done|].
      apply filter_In. split; [done|].
      destruct (String.eqb_spec k (fst x)) as [->|]; [|done].
      exfalso. apply Hk. by apply list_elem_of_In.
Qed.

(** The sweep of expired entries keeps exactly the entries that have not
    expired. *)
Lemma cleanup_expired_filter (now : Z) d :
  PyDict.wf d ->
  Cache._cleanup_expired_unlocked now d
  = Py.Return (List.filter (fun item => negb (Cache.is_expired now (snd item))) d).
Proof.
  intros Hwf. unfold Cache._cleanup_expired_unlocked.
  rewrite del_keys_filter.
  - f_equal. apply List.filter_ext_in. intros x Hx. f_equal.
    destruct (Cache.is_expired now (snd x)) eqn:Hexp.
    + apply str_in_In, in_map_iff. exists x. split; [done|].
      apply filter_In. by split.
    + apply not_true_is_false. rewrite str_in_In, in_map_iff.
      intros (y & Hfst & Hy). apply filter_In in Hy as [Hy Hexpy].
      assert (x = y) as ->; [|congruence].
      clear -Hwf Hx Hy Hfst. unfold PyDict.wf, PyDict.keys in Hwf.
      induction d as [|z d IH]; [done|].
      simpl in Hwf. apply NoDup_cons in Hwf as [Hz Hd].
      destruct Hx as [->|Hx], Hy as [->|Hy]; [done| | |by apply IH].
      * exfalso. apply Hz. rewrite <- Hfst. apply list_elem_of_In.
        by apply in_map.
      * exfalso. apply Hz. rewrite Hfst. apply list_elem_of_In.
        by apply in_map.
  - apply (dict_keys_filter _ d Hwf).
  - intros k Hk. apply in_map_iff in Hk as (x & <- & Hx).
    apply filter_In in Hx as [Hx _]. by apply in_map.
Qed.

Lemma insert_by_created_perm x (l : list (string * Cache.CacheEntry A)) :
  Cache.insert_by_created x l ≡ₚ x :: l.
Proof.
  induction l as [|y l IH]; simpl; [done|].
  destruct (Cache.created_at (snd x) <=? Cache.created_at (snd y))%Z; [done|].
  rewrite IH. apply Permutation_swap.
Qed.

Lemma sorted_by_created_perm (l : list (string * Cache.CacheEntry A)) :
  Cache.sorted_by_created l ≡ₚ l.
Proof.
  induction l as [|x l IH]; simpl; [done|].
  by rewrite insert_by_created_perm, IH.
Qed.

Lemma insert_by_created_sorted x (l : list (string * Cache.CacheEntry A)) :
  StronglySorted Spec.created_le l ->
  StronglySorted Spec.created_le (Cache.insert_by_created x l).
Proof.
  induction 1 as [|y l Hl IH Hy]; simpl.
  - repeat constructor.
  - destruct (Z.leb_spec (Cache.created_at (snd x)) (Cache.created_at (snd y)))
      as [Hle|Hgt].
    + constructor; [by constructor|].
      constructor; [done|].
      eapply Forall_impl; [exact Hy|]. unfold Spec.created_le. intros; lia.
    + constructor; [done|].
      rewrite insert_by_created_perm. constructor; [|done].
      unfold Spec.created_le. lia.
Qed.

Lemma sorted_by_created_sorted (l : list (string * Cache.CacheEntry A)) :
  StronglySorted Spec.created_le (Cache.sorted_by_created l).
Proof.
  induction l as [|x l IH]; simpl; [constructor|].
  by apply insert_by_created_sorted.
Qed.

Lemma filter_perm {B : Type} (f : B -> bool) (l l' : list B) :
  l ≡ₚ l' -> List.filter f l ≡ₚ List.filter f l'.
Proof.
  induction 1 as [|x l l' _ IH|x y l|l l' l'' _ IH1 _ IH2]; simpl.
  - done.
  - destruct (f x); [by constructor | done].
  - destruct (f x), (f y); try done. apply Permutation_swap.
  - by etransitivity.
Qed.

(** [_evict_oldest] removes the [max(1, len // 10)] first entries of the
    cache in creation order and keeps the others in place. *)
Lemma evict_oldest_spec d :
  PyDict.wf d ->
  exists evicted kept,
    Cache._evict_oldest d = Py.Return kept
    /\ evicted = take (Cache.evict_count d) (Cache.sorted_by_created d)
    /\ kept = List.filter (fun item => negb (Py.str_in (fst item) (map fst evicted))) d
    /\ d ≡ₚ evicted ++ kept
    /\ length evicted = Nat.min (PyDict.len d) (Nat.max 1 (PyDict.len d / 10))
    /\ Spec.oldest_first evicted kept
    /\ PyDict.wf kept.
Proof.
  intros Hwf.
  set (s := Cache.sorted_by_created d).
  set (n := Cache.evict_count d).
  pose proof (sorted_by_created_perm d) as Hs. fold s in Hs.
  pose proof (sorted_by_created_sorted d) as Hsorted. fold s in Hsorted.
  assert (NoDup (map fst (take n s) ++ map fst (drop n s))) as Hnd.
  { rewrite <- map_app, take_drop.
    assert (map fst s ≡ₚ map fst d) as -> by (by apply Permutation_map).
    exact Hwf. }
  apply NoDup_app in Hnd as (Hnd1 & Hdisj & Hnd2).
  assert (forall x, In x (take n s) -> In x d) as Hsub.
  { intros x Hx. eapply Permutation_in; [exact Hs|].
    rewrite <- (take_drop n s). apply in_or_app. by left. }
  set (P := fun item : string * Cache.CacheEntry A =>
              negb (Py.str_in (fst item) (map fst (take n s)))).
  assert (List.filter P d ≡ₚ drop n s) as Hkept.
  { rewrite (filter_perm P d s) by (by symmetry).
    rewrite <- (take_drop n s) at 1. rewrite List.filter_app.
    assert (List.filter P (take n s) = []) as ->.
    { rewrite <- (List.filter_false (take n s)).
      apply List.filter_ext_in. intros x Hx. unfold P.
      apply negb_false_iff, str_in_In. by apply in_map. }
    assert (List.filter P (drop n s) = drop n s) as ->; [|done].
    rewrite <- (List.filter_true (drop n s)) at 2.
    apply List.filter_ext_in. intros x Hx. unfold P.
    apply negb_true_iff, not_true_is_false. rewrite str_in_In. intros Hin.
    apply (Hdisj (fst x)); apply list_elem_of_In; [done | by apply in_map]. }
  exists (take n s), (List.filter P d). repeat split.
  - unfold Cache._evict_oldest. fold s n. apply del_keys_filter; [done|].
    intros k Hk. apply in_map_iff in Hk as (x & <- & Hx).
    apply in_map. by apply Hsub.
  - rewrite Hkept, take_drop. by symmetry.
  - rewrite length_take, (Permutation_length Hs).
    unfold n, Cache.evict_count, PyDict.len. lia.
  - intros x y Hx Hy.
    apply (StronglySorted_app_1_elem_of Spec.created_le (take n s) (drop n s)).
    + by rewrite take_drop.
    + by apply list_elem_of_In.
    + apply list_elem_of_In. eapply Permutation_in; [exact Hkept | done].
  - by apply dict_keys_filter.
Qed.

End CacheFacts.

Section CacheOperations.
Context {A : Type}.
Implicit Types (c : Cache.ResponseCache A).

Lemma get_cases (now : Z) (k : string) c :
  Cache.get now k c =
    match PyDict.get k (Cache.cache c) with
    | None => Py.Return (None, c)
    | Some entry =>
        if Cache.is_expired now entry
        then Py.Return (None, Cache.with_cache c (PyDict.remove k (Cache.cache c)))
        else Py.Return (Some (Cache.data entry), c)
    end.
Proof.
  unfold Cache.get.
  destruct (PyDict.get k (Cache.cache c)) as [entry|] eqn:Hget; [|done].
  destruct (Cache.is_expired now entry); [|done].
  unfold PyDict.delitem, PyDict.mem. by rewrite Hget.
Qed.

Lemma swept_wf (now : Z) (d : PyDict.t (Cache.CacheEntry A)) :
  PyDict.wf d -> PyDict.wf (Spec.swept now d).
Proof.
  unfold Spec.swept. destruct (_ =? _)%nat; [|done]. apply dict_keys_filter.
Qed.

Lemma swept_len (now : Z) (d : PyDict.t (Cache.CacheEntry A)) :
  (PyDict.len (Spec.swept now d) <= PyDict.len d)%nat.
Proof.
  unfold Spec.swept. destruct (_ =? _)%nat; [|done]. apply dict_len_filter.
Qed.

(** The construction of an entry returns exactly when the expiry time is
    a [datetime], and raises [OverflowError] otherwise. *)
Lemma entry_init_representable (v : A) (seconds now : Z) :
  Spec.representable now seconds ->
  Cache.CacheEntry_init v seconds now = Py.Return (Cache.new_entry v seconds now).
Proof.
  unfold Spec.representable, Datetime.datetime_max. intros [Hnow Hsum].
  unfold Cache.CacheEntry_init, Datetime.timedelta, Datetime.add, Datetime.datetime_max.
  pose proof (Z.div_mod seconds 86400 ltac:(lia)) as Hdiv.
  pose proof (Z.mod_pos_bound seconds 86400 ltac:(lia)) as Hmod.
  assert (((seconds / 86400 <? - 2147483648) || (2147483647 <? seconds / 86400))%Z = false)
    as -> by (apply orb_false_iff; split; apply Z.ltb_ge; lia).
  assert (((seconds / 86400 <? - 999999999) || (999999999 <? seconds / 86400))%Z = false)
    as -> by (apply orb_false_iff; split; apply Z.ltb_ge; lia).
  simpl.
  assert (((now + seconds * 1000000 <? 0)
           || (315537897599999999 <? now + seconds * 1000000))%Z = false)
    as -> by (apply orb_false_iff; split; apply Z.ltb_ge; lia).
  done.
Qed.

Lemma entry_init_cases (v : A) (seconds now : Z) :
  match Cache.CacheEntry_init v seconds now with
  | Py.Return entry =>
      entry = Cache.new_entry v seconds now
      /\ (0 <= now + seconds * 1000000 <= Datetime.datetime_max)%Z
  | Py.Raise e =>
      (exists msg, e = Py.OverflowError msg) /\ ~ Spec.representable now seconds
  end.
Proof.
  unfold Cache.CacheEntry_init, Datetime.timedelta, Datetime.add.
  destruct ((seconds / 86400 <? - 2147483648) || (2147483647 <? seconds / 86400))%Z
    eqn:Hint; simpl.
  { split; [by eexists|]. intros Hrep.
    pose proof (entry_init_representable v seconds now Hrep) as Hinit.
    unfold Cache.CacheEntry_init, Datetime.timedelta in Hinit.
    rewrite Hint in Hinit. discriminate. }
  destruct ((seconds / 86400 <? - 999999999) || (999999999 <? seconds / 86400))%Z
    eqn:Hdays; simpl.
  { split; [by eexists|]. intros Hrep.
    pose proof (entry_init_representable v seconds now Hrep) as Hinit.
    unfold Cache.CacheEntry_init, Datetime.timedelta in Hinit.
    rewrite Hint, Hdays in Hinit. discriminate. }
  destruct ((now + seconds * 1000000 <? 0)
            || (Datetime.datetime_max <? now + seconds * 1000000))%Z eqn:Hsum; simpl.
  - split; [by eexists|]. intros [_ Hrep].
    apply orb_true_iff in Hsum as [Hlt|Hgt]; [apply Z.ltb_lt in Hlt | apply Z.ltb_lt in Hgt];
      lia.
  - split; [done|]. apply orb_false_iff in Hsum as [Hlt Hgt].
    apply Z.ltb_ge in Hlt, Hgt. lia.
Qed.

(** What [set] does: it sweeps, it evicts by the number of entries it
    finds after the sweep, and it stores the new entry unless its
    construction raises. *)
Lemma set_spec (now : Z) (k : string) (v : A) (ttl : option Z) c :
  PyDict.wf (Cache.cache c) ->
  let d1 := Spec.swept now (Cache.cache c) in
  let seconds := default (Cache.default_ttl c) ttl in
  exists evicted kept,
    d1 ≡ₚ evicted ++ kept
    /\ (if (Cache.max_size c <=? Z.of_nat (PyDict.len d1))%Z
        then length evicted = Nat.min (PyDict.len d1) (Nat.max 1 (PyDict.len d1 / 10))
        else evicted = [] /\ kept = d1)
    /\ Spec.oldest_first evicted kept
    /\ PyDict.wf kept
    /\ Cache.set now k v ttl c
       = match Cache.CacheEntry_init v seconds now with
         | Py.Return entry =>
             (Py.Return (), Cache.with_cache c (PyDict.setitem k entry kept))
         | Py.Raise e => (Py.Raise e, Cache.with_cache c kept)
         end.
Proof.
  intros Hwf d1 seconds.
  assert ((if (PyDict.len (Cache.cache c) mod 100 =? 0)%nat
           then Cache._cleanup_expired_unlocked now (Cache.cache c)
           else Py.Return (Cache.cache c)) = Py.Return d1) as Hsweep.
  { unfold d1, Spec.swept. destruct (_ =? _)%nat; [|done].
    by apply cleanup_expired_filter. }
  unfold Cache.set. rewrite Hsweep. fold seconds.
  destruct (Cache.max_size c <=? Z.of_nat (PyDict.len d1))%Z.
  - destruct (evict_oldest_spec d1) as (evicted & kept & Hev & _ & _ & Hperm & Hlen & Hold & Hk).
    { by apply swept_wf. }
    exists evicted, kept. rewrite Hev. repeat split; try done;
      try by destruct (Cache.CacheEntry_init v seconds now).
  - exists [], d1. repeat split; try done;
      first [ by intros x y [] | by apply swept_wf
            | by destruct (Cache.CacheEntry_init v seconds now) ].
Qed.

(** [set] returns, with the entry stored, when the expiry time is a
    [datetime]. *)
Lemma set_returns (now : Z) (k : string) (v : A) (ttl : option Z) c :
  PyDict.wf (Cache.cache c) ->
  Spec.representable now (default (Cache.default_ttl c) ttl) ->
  exists d2,
    Cache.set now k v ttl c
    = (Py.Return (),
       Cache.with_cache c
         (PyDict.setitem k (Cache.new_entry v (default (Cache.default_ttl c) ttl) now) d2))
    /\ PyDict.wf d2
    /\ (PyDict.len d2 <= PyDict.len (Cache.cache c))%nat.
Proof.
  intros Hwf Hrep.
  destruct (set_spec now k v ttl c Hwf) as (evicted & kept & Hperm & _ & _ & Hk & ->).
  rewrite (entry_init_representable v _ _ Hrep). exists kept.
  split; [done|]. split; [done|].
  apply Permutation_length in Hperm. rewrite length_app in Hperm.
  pose proof (swept_len now (Cache.cache c)). unfold PyDict.len in *. lia.
Qed.

(** The invariant of a cache in use: keys are unique and the number of
    entries is at most [max_size].  Every operation keeps it, also a
    [set] that raises; and nothing but such a [set] raises. *)
Lemma step_invariant (o : Cache.op A) c :
  (1 <= Cache.max_size c)%Z ->
  PyDict.wf (Cache.cache c) ->
  (Z.of_nat (PyDict.len (Cache.cache c)) <= Cache.max_size c)%Z ->
  exists res c',
    Cache.step o c = (res, c')
    /\ Cache.max_size c' = Cache.max_size c
    /\ Cache.default_ttl c' = Cache.default_ttl c
    /\ PyDict.wf (Cache.cache c')
    /\ (Z.of_nat (PyDict.len (Cache.cache c')) <= Cache.max_size c')%Z
    /\ (Spec.op_representable (Cache.default_ttl c) o -> res = Py.Return ()).
Proof.
  intros Hmax Hwf Hlen. destruct o as [now k|now k v ttl|k|]; simpl.
  - rewrite get_cases.
    destruct (PyDict.get k (Cache.cache c)) as [entry|]; [|by eexists _, _].
    destruct (Cache.is_expired now entry); [|by eexists _, _].
    eexists _, _. split; [done|]. simpl. repeat split; [by apply dict_wf_remove|].
    pose proof (dict_len_filter (fun item => negb (String.eqb k (fst item)))
                  (Cache.cache c)).
    unfold PyDict.remove. lia.
  - destruct (set_spec now k v ttl c Hwf) as (evicted & kept & Hperm & Hev & _ & Hk & ->).
    pose proof (swept_len now (Cache.cache c)) as Hle.
    apply Permutation_length in Hperm. rewrite length_app in Hperm.
    assert ((PyDict.len kept <= PyDict.len (Cache.cache c))%nat
            /\ (Z.of_nat (PyDict.len kept) < Cache.max_size c)%Z) as [Hkept Hroom].
    { unfold PyDict.len in *.
      destruct (Z.leb_spec (Cache.max_size c)
                  (Z.of_nat (length (Spec.swept now (Cache.cache c))))) as [Hfull|Hfree].
      - lia.
      - destruct Hev as [-> ->]. simpl in *. lia. }
    pose proof (entry_init_cases v (default (Cache.default_ttl c) ttl) now) as Hinit.
    destruct (Cache.CacheEntry_init v (default (Cache.default_ttl c) ttl) now)
      as [entry|e].
    + eexists _, _. split; [done|]. simpl. repeat split; [by apply dict_wf_setitem|].
      rewrite dict_len_setitem. unfold PyDict.len in *.
      destruct (PyDict.mem k kept); lia.
    + eexists _, _. split; [done|]. simpl. repeat split; [done|lia|].
      intros Hrep. by destruct Hinit as [_ []].
  - eexists _, _. split; [done|]. simpl. repeat split; [by apply dict_wf_remove|].
    pose proof (dict_len_filter (fun item => negb (String.eqb k (fst item)))
                  (Cache.cache c)).
    unfold PyDict.pop, PyDict.remove. lia.
  - eexists _, _. split; [done|]. simpl. repeat split; [constructor | lia].
Qed.

Lemma after_invariant (ops : list (Cache.op A)) c :
  (1 <= Cache.max_size c)%Z ->
  PyDict.wf (Cache.cache c) ->
  (Z.of_nat (PyDict.len (Cache.cache c)) <= Cache.max_size c)%Z ->
  let c' := Cache.after ops c in
  Cache.max_size c' = Cache.max_size c
  /\ Cache.default_ttl c' = Cache.default_ttl c
  /\ PyDict.wf (Cache.cache c')
  /\ (Z.of_nat (PyDict.len (Cache.cache c')) <= Cache.max_size c')%Z
  /\ (Forall (Spec.op_representable (Cache.default_ttl c)) ops ->
      Cache.run ops c = Py.Return c').
Proof.
  unfold Cache.after. revert c.
  induction ops as [|o ops IH]; intros c Hmax Hwf Hlen; simpl; [done|].
  destruct (step_invariant o c Hmax Hwf Hlen)
    as (res & c1 & Hstep & Hm1 & Ht1 & Hwf1 & Hlen1 & Hres).
  rewrite Hstep. simpl.
  destruct (IH c1) as (Hm' & Ht' & Hwf' & Hlen' & Hrun); [lia|done|done|].
  repeat split; [congruence | congruence | done | done |].
  intros Hops. apply Forall_cons in Hops as [Ho Hops].
  rewrite (Hres Ho). apply Hrun. by rewrite Ht1.
Qed.

End CacheOperations.

(** C2 as stated fails on the code.  With [max_size = 15] a full cache of
    15 live entries loses one entry on the next [set], which is less than
    10% of 15; and with [max_size = 0] the first [set] leaves one entry in
    the cache, more than [max_size]. *)
Lemma cache_claim_counterexample :
  (exists c c' : Cache.ResponseCache unit,
      Cache.run (Examples.fill 15) (Cache.init 15 300) = Py.Return c
      /\ PyDict.len (Cache.cache c) = 15%nat
      /\ Cache.set 100 "new" () None c = (Py.Return (), c')
      /\ length (Spec.dropped (Cache.cache c) (Cache.cache c')) = 1%nat
      /\ (10 * 1 < 15)%nat)
  /\ (exists c : Cache.ResponseCache unit,
        Cache.run [Cache.OpSet 0 "a" () None] (Cache.init 0 300) = Py.Return c
        /\ (Cache.max_size c < Z.of_nat (PyDict.len (Cache.cache c)))%Z).
Proof.
  split.
  - eexists. eexists. split; [vm_compute; reflexivity|].
    split; [reflexivity|]. split; [vm_compute; reflexivity|].
    split; [vm_compute; reflexivity | lia].
  - eexists. split; [vm_compute; reflexivity|]. simpl. lia.
Qed.

(** C2, amended.  When [max_size] is at least 1, the cache holds at most
    [max_size] entries after every sequence of cache operations from the
    empty cache, whether or not one of them raises; the sequence runs
    without an exception when the expiry time of every [set] is a
    [datetime].  A [set] on the cache so reached that finds, after its
    sweep of expired entries, at least [max_size] entries first evicts
    [max(1, n // 10)] of these [n] entries, none of them created later
    than an entry it keeps.  It then stores the new entry when the expiry
    time is a [datetime]; it raises nothing but [OverflowError], only when
    the expiry time is not a [datetime], and then the entry is not stored
    and the sweep and the eviction stay done. *)
Theorem cache_bounded {A : Type}
    (max_size default_ttl : Z) (ops : list (Cache.op A)) :
  (1 <= max_size)%Z ->
  let c := Cache.after ops (Cache.init max_size default_ttl) in
  Cache.max_size c = max_size
  /\ (Z.of_nat (PyDict.len (Cache.cache c)) <= max_size)%Z
  /\ (Forall (Spec.op_representable default_ttl) ops ->
      Cache.run ops (Cache.init max_size default_ttl) = Py.Return c)
  /\ forall (now : Z) (k : string) (v : A) (ttl : option Z),
       let d1 := Spec.swept now (Cache.cache c) in
       let seconds := default (Cache.default_ttl c) ttl in
       (max_size <= Z.of_nat (PyDict.len d1))%Z ->
       exists evicted kept,
         d1 ≡ₚ evicted ++ kept
         /\ length evicted = Nat.max 1 (PyDict.len d1 / 10)
         /\ Spec.oldest_first evicted kept
         /\ (Spec.representable now seconds ->
             let entry := Cache.new_entry v seconds now in
             exists c',
               Cache.set now k v ttl c = (Py.Return (), c')
               /\ Cache.cache c' = PyDict.setitem k entry kept
               /\ PyDict.get k (Cache.cache c') = Some entry
               /\ (Z.of_nat (PyDict.len (Cache.cache c')) <= max_size)%Z)
         /\ (forall e c',
               Cache.set now k v ttl c = (Py.Raise e, c') ->
               (exists msg, e = Py.OverflowError msg)
               /\ ~ Spec.representable now seconds
               /\ Cache.cache c' = kept).
Proof.
  intros Hmax c.
  destruct (after_invariant ops (Cache.init max_size default_ttl))
    as (Hm & Ht & Hwf & Hlen & Hrun); [done | constructor | simpl; lia |].
  fold c in Hm, Ht, Hwf, Hlen, Hrun. simpl in Hm, Ht, Hrun.
  split; [done|]. split; [lia|]. split; [done|].
  intros now k v ttl d1 seconds Hfull.
  destruct (set_spec now k v ttl c Hwf) as (evicted & kept & Hperm & Hev & Hold & Hk & Hset).
  fold d1 seconds in Hperm, Hev, Hset.
  destruct (Z.leb_spec (Cache.max_size c) (Z.of_nat (PyDict.len d1))) as [_|Hroom];
    [|lia].
  exists evicted, kept. split; [done|]. split.
  { rewrite Hev. assert (PyDict.len d1 / 10 <= PyDict.len d1)%nat
      by (apply Nat.Div0.div_le_upper_bound; lia). lia. }
  split; [done|].
  pose proof (entry_init_cases v seconds now) as Hinit.
  pose proof (swept_len now (Cache.cache c)) as Hle. fold d1 in Hle.
  pose proof (Permutation_length Hperm) as Hplen. rewrite length_app in Hplen.
  split.
  - intros Hrep entry. rewrite Hset, (entry_init_representable v _ _ Hrep).
    eexists. split; [done|]. cbn [Cache.cache Cache.with_cache].
    split; [done|]. split; [apply dict_get_setitem|].
    rewrite dict_len_setitem. unfold PyDict.len in *.
    destruct (PyDict.mem k kept); lia.
  - intros e c'. rewrite Hset.
    destruct (Cache.CacheEntry_init v seconds now) as [entry|e0]; [done|].
    intros [= <- <-]. destruct Hinit as [Hmsg Hnot]. done.
Qed.

Lemma cache_bounded_witness :
  exists c : Cache.ResponseCache unit,
    Cache.run (Examples.fill 3) (Cache.init 2 300) = Py.Return c
    /\ (Z.of_nat (PyDict.len (Cache.cache c)) <= 2)%Z.
Proof.
  destruct (cache_bounded (A:=unit) 2 300 (Examples.fill 3)) as (_ & Hlen & Hrun & _).
  - lia.
  - eexists. split; [|exact Hlen]. apply Hrun.
    repeat constructor; unfold Datetime.datetime_max; simpl; lia.
Defined.

(** One microsecond is not past the expiry time: at [now = expires_at] the
    entry is still served. *)
Lemma cache_get_at_expiry {A : Type}
    (c : Cache.ResponseCache A) (k : string) (entry : Cache.CacheEntry A) :
  PyDict.get k (Cache.cache c) = Some entry ->
  Cache.get (Cache.expires_at entry) k c = Py.Return (Some (Cache.data entry), c).
Proof.
  intros Hget. rewrite get_cases, Hget. unfold Cache.is_expired.
  by rewrite Z.ltb_irrefl.
Qed.

(** C3. For a key present with expiry time [e]: [get] returns the stored
    payload when [now < e]; when the entry is expired ([now > e]) it
    deletes the entry and returns a miss; for an absent key it returns a
    miss; and [get] never raises. *)
Theorem cache_get_spec {A : Type}
    (c : Cache.ResponseCache A) (k : string) (now : Z) :
  (forall entry,
      PyDict.get k (Cache.cache c) = Some entry ->
      ((now < Cache.expires_at entry)%Z ->
       Cache.get now k c = Py.Return (Some (Cache.data entry), c))
      /\ ((Cache.expires_at entry < now)%Z ->
          exists c',
            Cache.get now k c = Py.Return (None, c')
            /\ Cache.cache c' = PyDict.remove k (Cache.cache c)
            /\ PyDict.get k (Cache.cache c') = None))
  /\ (PyDict.get k (Cache.cache c) = None -> Cache.get now k c = Py.Return (None, c))
  /\ (exists r, Cache.get now k c = Py.Return r).
Proof.
  rewrite get_cases. split; [|split].
  - intros entry ->. unfold Cache.is_expired. split.
    + intros Hlive. destruct (Z.ltb_spec (Cache.expires_at entry) now); [lia | done].
    + intros Hexp. destruct (Z.ltb_spec (Cache.expires_at entry) now); [|lia].
      eexists. split; [done|]. simpl. split; [done | apply dict_get_remove].
  - by intros ->.
  - destruct (PyDict.get k (Cache.cache c)) as [entry|]; [|by eexists].
    destruct (Cache.is_expired now entry); by eexists.
Qed.

Lemma cache_get_spec_witness :
  exists c : Cache.ResponseCache unit,
    Cache.run (Examples.fill 1) (Cache.init 2 300) = Py.Return c
    /\ Cache.get 5 "a" c = Py.Return (Some (), c)
    /\ (exists c', Cache.get 300000001 "a" c = Py.Return (None, c')
                   /\ PyDict.get "a" (Cache.cache c') = None)
    /\ Cache.get 5 "b" c = Py.Return (None, c).
Proof.
  eexists. split; [vm_compute; reflexivity|].
  match goal with
  | |- Cache.get _ _ ?c = _ /\ _ =>
      set (entry := {| Cache.data := (); Cache.created_at := 0%Z;
                       Cache.expires_at := 300000000%Z |} : Cache.CacheEntry unit);
      pose proof (cache_get_spec c "a" 5) as (Hpresent & _ & _);
      pose proof (cache_get_spec c "a" 300000001) as (Hpresent' & _ & _);
      pose proof (cache_get_spec c "b" 5) as (_ & Habsent & _)
  end.
  destruct (Hpresent entry) as [Hlive _]; [reflexivity|].
  destruct (Hpresent' entry) as [_ Hexp]; [reflexivity|].
  split; [apply Hlive; simpl; lia|].
  split; [|apply Habsent; reflexivity].
  destruct Hexp as (c' & Hget & _ & Hgone); [simpl; lia|].
  exists c'. split; [exact Hget | exact Hgone].
Defined.

(** ** Namespacing *)

Lemma append_cons (a : ascii) (s t : string) : String a s +:+ t = String a (s +:+ t).
Proof. reflexivity. Qed.

Lemma contains_append_sep (c : ascii) (s t : string) :
  Py.contains c (s +:+ String c t) = true.
Proof.
  induction s as [|a s IH]; [simpl; by rewrite Ascii.eqb_refl|].
  rewrite append_cons. simpl. by destruct (Ascii.eqb a c).
Qed.

Lemma split1_append_sep (c : ascii) (s t : string) :
  Py.contains c s = false ->
  Py.split1 c (s +:+ String c t) = (s, t).
Proof.
  induction s as [|a s IH]; [intros _; simpl; by rewrite Ascii.eqb_refl|].
  rewrite append_cons. simpl. destruct (Ascii.eqb a c); [done|].
  intros Hs. by rewrite IH.
Qed.

Lemma parse_namespaced_name (s n : string) :
  Py.contains "." s = false ->
  Router._parse_namespaced_tool (Aggregator.namespaced_name s n) = Py.Return (s, n).
Proof.
  intros Hs. unfold Router._parse_namespaced_tool, Aggregator.namespaced_name.
  change ("." +:+ n) with (String "." n).
  by rewrite contains_append_sep, split1_append_sep.
Qed.

(** C4 as stated fails on the code: a server id may contain the separator.
    The pairs [("a.b", "c")] and [("a", "b.c")] get the same namespaced
    name, which parses to the second; and the router's parser reads the
    URI text of the resource [c] of a server [a/b] as the resource [b/c]
    of the server [a]. *)
Lemma namespace_claim_counterexample :
  Aggregator.namespaced_name "a.b" "c" = Aggregator.namespaced_name "a" "b.c"
  /\ Router._parse_namespaced_tool (Aggregator.namespaced_name "a.b" "c")
     = Py.Return ("a", "b.c")
  /\ Router._parse_namespaced_resource "mcp://a/b/c" = Py.Return ("a", "b/c").
Proof. repeat split. Qed.

(** C4, amended.  For tools: the map from a server id and a tool name to
    [server_id.name] is defined for every pair; on the server ids without
    a [.] it is injective and the router's parser inverts it. *)
Theorem namespace_round_trip (s n : string) :
  Py.contains "." s = false ->
  Router._parse_namespaced_tool (Aggregator.namespaced_name s n) = Py.Return (s, n)
  /\ forall s' n',
       Py.contains "." s' = false ->
       Aggregator.namespaced_name s n = Aggregator.namespaced_name s' n' ->
       s = s' /\ n = n'.
Proof.
  intros Hs. split; [by apply parse_namespaced_name|].
  intros s' n' Hs' Heq.
  pose proof (parse_namespaced_name s n Hs) as H1.
  pose proof (parse_namespaced_name s' n' Hs') as H2.
  rewrite Heq, H2 in H1. by injection H1 as -> ->.
Qed.

Lemma namespace_round_trip_witness :
  Router._parse_namespaced_tool (Aggregator.namespaced_name "fs" "read.file")
  = Py.Return ("fs", "read.file").
Proof.
  destruct (namespace_round_trip "fs" "read.file") as [Htool _].
  - reflexivity.
  - exact Htool.
Defined.

(** ** Aggregation *)

Lemma get_server_tools_contribution (item : string * Process.MCPProcess) :
  match Aggregator._get_server_tools (fst item) (snd item) with
  | Py.Return r => map (Aggregator.namespaced_tool (fst item)) (types.tools r)
  | Py.Raise _ => []
  end = Spec.contribution item.
Proof.
  unfold Aggregator._get_server_tools, Process.list_tools, Spec.contribution,
    Spec.list_call.
  destruct (Process.session (snd item)) as [s|]; simpl; [|done].
  destruct (Process.on_list_tools s) as [r|e| |]; simpl; try done.
  by destruct e.
Qed.

Lemma process_results_flat_map
    (sessions : PyDict.t Process.MCPProcess) (all_tools : list types.Tool) :
  Aggregator.process_results
    (zip (PyDict.keys sessions)
         (map (fun item => Aggregator._get_server_tools (fst item) (snd item)) sessions))
    all_tools
  = all_tools ++ flat_map Spec.contribution sessions.
Proof.
  revert all_tools. induction sessions as [|item sessions IH]; intros all_tools; simpl.
  - by rewrite app_nil_r.
  - rewrite <- (get_server_tools_contribution item).
    destruct (Aggregator._get_server_tools (fst item) (snd item)); rewrite IH.
    + by rewrite <- app_assoc.
    + done.
Qed.

Lemma flat_map_answering (sessions : PyDict.t Process.MCPProcess) :
  flat_map Spec.contribution sessions
  = flat_map Spec.contribution (List.filter Spec.answers sessions).
Proof.
  induction sessions as [|item sessions IH]; simpl; [done|].
  destruct (Spec.answers item) eqn:Ha; simpl; [by rewrite IH|].
  rewrite <- IH.
  assert (Spec.contribution item = []) as ->; [|done].
  unfold Spec.contribution, Spec.answers in *.
  by destruct (Spec.list_call item) as [[]|].
Qed.

Lemma sessions_partition (sessions : PyDict.t Process.MCPProcess) :
  (forall item, In item sessions -> is_Some (Process.session (snd item))) ->
  (length (List.filter Spec.answers sessions)
   + length (List.filter Spec.raises_error sessions)
   + length (List.filter Spec.times_out sessions) = length sessions)%nat.
Proof.
  induction sessions as [|item sessions IH]; intros Hall; [done|].
  specialize (IH (fun x Hx => Hall x (or_intror Hx))).
  destruct (Hall item (or_introl eq_refl)) as [s Hs].
  simpl. unfold Spec.answers at 1, Spec.raises_error at 1, Spec.times_out at 1.
  unfold Spec.list_call. rewrite Hs. simpl.
  destruct (Process.on_list_tools s); simpl; lia.
Qed.

Lemma active_sessions_partition (m : ServerManager.MCPServerManager) :
  let sessions := ServerManager.get_active_sessions m in
  (length (List.filter Spec.answers sessions)
   + length (List.filter Spec.raises_error sessions)
   + length (List.filter Spec.times_out sessions) = length sessions)%nat.
Proof.
  apply sessions_partition. intros item Hin.
  apply filter_In in Hin as [_ Hin]. apply andb_true_iff in Hin as [_ Hs].
  by apply bool_decide_eq_true in Hs.
Qed.

(** C6. With [N] running backend sessions of which [k] raise an error and
    [m] time out on their list call, [aggregate_tools] returns exactly the
    tools of the [N - k - m] other backends, in the order of the sessions:
    a failing backend contributes nothing, and every tool of a backend that
    answers appears under the name [server_id.tool_name] with the
    description prefixed by [[server_id] ]. *)
Theorem aggregate_tools_partial_failure
    (m : ServerManager.MCPServerManager) (client_id : string) :
  let sessions := ServerManager.get_active_sessions m in
  let N := length sessions in
  let k := length (List.filter Spec.raises_error sessions) in
  let m' := length (List.filter Spec.times_out sessions) in
  let remaining := List.filter Spec.answers sessions in
  length remaining = (N - k - m')%nat
  /\ (k + m' <= N)%nat
  /\ Aggregator.aggregate_tools m client_id = flat_map Spec.contribution remaining.
Proof.
  intros sessions N k m' remaining.
  pose proof (active_sessions_partition m) as Hpart. cbv zeta in Hpart.
  fold sessions in Hpart. fold remaining k m' N in Hpart.
  split; [lia|]. split; [lia|].
  unfold Aggregator.aggregate_tools. fold sessions.
  unfold remaining. rewrite <- flat_map_answering.
  destruct sessions as [|item sessions'] eqn:Hsessions; [done|].
  by rewrite process_results_flat_map.
Qed.

(** The fourth scenario of the specification: the tools of [a] and [c],
    none of [b]. *)
Example partial_aggregation :
  Aggregator.aggregate_tools Examples.three_backends "guest"
  = [ {| types.name := "a.x"; types.description := Some "[a] runs x";
         types.inputSchema := "{}" |};
      {| types.name := "c.y"; types.description := Some "[c] runs y";
         types.inputSchema := "{}" |};
      {| types.name := "c.z"; types.description := Some "[c] runs z";
         types.inputSchema := "{}" |} ].
Proof. reflexivity. Qed.

(** ** The supervisor *)

Lemma process_start_running
    (spawn : Py.result Process.ClientSession) (server_id : string)
    (cfg : ServerConfig) (path : string) (process : Process.MCPProcess) :
  Process.start spawn (Process.init server_id cfg path) = (Py.Return (), process) ->
  Process.status process = Process.RUNNING /\ is_Some (Process.session process).
Proof.
  unfold Process.start, Process.init. simpl.
  destruct (transport cfg); simpl; [|done|done].
  destruct spawn as [s|e]; simpl.
  - intros [= <-]. simpl. eauto.
  - destruct (Py.is_exception e) eqn:He; simpl; by rewrite He.
Qed.

Lemma start_server_cases
    (spawn : Py.result Process.ClientSession) (server_id : string)
    (m : ServerManager.MCPServerManager) :
  ServerManager.start_server spawn server_id m = (Py.Return (), m)
  \/ (exists e, ServerManager.start_server spawn server_id m = (Py.Raise e, m)
                /\ PyDict.mem server_id (ServerManager.processes m) = false)
  \/ (exists cfg path process,
        PyDict.mem server_id (ServerManager.processes m) = false
        /\ ServerManager.servers m !! server_id = Some cfg
        /\ ServerManager._ensure_server_installed m server_id cfg = Py.Return path
        /\ Process.start spawn (Process.init server_id cfg path) = (Py.Return (), process)
        /\ ServerManager.start_server spawn server_id m
           = (Py.Return (),
              ServerManager.with_processes m
                (PyDict.setitem server_id process (ServerManager.processes m)))).
Proof.
  unfold ServerManager.start_server.
  destruct (PyDict.mem server_id (ServerManager.processes m)) eqn:Hmem; [by left|].
  destruct (ServerManager.servers m !! server_id) as [cfg|] eqn:Hcfg;
    [|right; left; by eexists].
  destruct (enabled cfg); simpl; [|by left].
  destruct (ServerManager._ensure_server_installed m server_id cfg) as [path|e] eqn:Hinst;
    [|right; left; by eexists].
  destruct (Process.start spawn (Process.init server_id cfg path)) as [[[]|e] process] eqn:Hst.
  - right. right. by exists cfg, path, process.
  - right. left. by eexists.
Qed.

(** C9. When [start_server] raises, the supervisor is left as it was: its
    session map is unchanged and holds no entry for the server id.  A
    failure of the installation and a failure of the process start both
    reach the caller as the exception raised.  The session map changes only
    by the insertion, under the server id, of a process whose start
    succeeded. *)
Theorem start_server_failure_isolated
    (spawn : Py.result Process.ClientSession) (server_id : string)
    (m : ServerManager.MCPServerManager) :
  let result := ServerManager.start_server spawn server_id m in
  (forall e, result.1 = Py.Raise e ->
     ServerManager.processes result.2 = ServerManager.processes m
     /\ PyDict.get server_id (ServerManager.processes result.2) = None)
  /\ (forall cfg e,
        PyDict.mem server_id (ServerManager.processes m) = false ->
        ServerManager.servers m !! server_id = Some cfg ->
        enabled cfg = true ->
        ServerManager._ensure_server_installed m server_id cfg = Py.Raise e ->
        result = (Py.Raise e, m))
  /\ (forall cfg path e process,
        PyDict.mem server_id (ServerManager.processes m) = false ->
        ServerManager.servers m !! server_id = Some cfg ->
        enabled cfg = true ->
        ServerManager._ensure_server_installed m server_id cfg = Py.Return path ->
        Process.start spawn (Process.init server_id cfg path) = (Py.Raise e, process) ->
        result = (Py.Raise e, m))
  /\ (ServerManager.processes result.2 <> ServerManager.processes m ->
      exists cfg path process,
        Process.start spawn (Process.init server_id cfg path) = (Py.Return (), process)
        /\ Process.status process = Process.RUNNING
        /\ result.1 = Py.Return ()
        /\ ServerManager.processes result.2
           = PyDict.setitem server_id process (ServerManager.processes m)).
Proof.
  intros result. split; [|split; [|split]].
  - intros e Hraise. subst result.
    destruct (start_server_cases spawn server_id m)
      as [Hsame|[(e' & Hfail & Hmem)|(cfg & path & process & _ & _ & _ & _ & Hok)]].
    + rewrite Hsame in Hraise. discriminate.
    + rewrite Hfail. simpl. split; [done|].
      unfold PyDict.mem in Hmem. by destruct (PyDict.get server_id _).
    + rewrite Hok in Hraise. discriminate.
  - intros cfg e Hmem Hcfg Hen Hinst. subst result.
    unfold ServerManager.start_server. by rewrite Hmem, Hcfg, Hen, Hinst.
  - intros cfg path e process Hmem Hcfg Hen Hinst Hstart. subst result.
    unfold ServerManager.start_server. by rewrite Hmem, Hcfg, Hen, Hinst, Hstart.
  - intros Hchanged. subst result.
    destruct (start_server_cases spawn server_id m)
      as [Hsame|[(e' & Hfail & _)|(cfg & path & process & _ & _ & _ & Hstart & Hok)]].
    + rewrite Hsame in Hchanged. done.
    + rewrite Hfail in Hchanged. done.
    + exists cfg, path, process. rewrite Hok. simpl.
      split; [done|]. split; [|done].
      by apply (process_start_running spawn server_id cfg path).
Qed.

Lemma start_server_failure_isolated_witness :
  ServerManager.start_server (Py.Return Examples.echo_session) "fs" Examples.supervisor
  = (Py.Raise (Py.RuntimeError "install failed"), Examples.supervisor).
Proof.
  destruct (start_server_failure_isolated
              (Py.Return Examples.echo_session) "fs" Examples.supervisor)
    as (_ & Hinstall & _).
  apply (Hinstall Examples.fs_config); reflexivity.
Defined.

(** ** Routing of tool calls *)

Section RoutingFacts.
Variable call_tool_key : string -> string -> types.json -> string.
Variables now later : Z.

Lemma route_tool_call_unnamespaced
    (tool_name : string) (arguments : types.json) (client_id : string)
    (r : Router.MCPRouter) :
  Py.contains "." tool_name = false ->
  Router._route_tool_call call_tool_key now later tool_name arguments client_id r
  = (Py.Raise (Py.ValueError ("Tool name must be namespaced: " +:+ tool_name)), r).
Proof.
  intros Hdot. unfold Router._route_tool_call, Router._parse_namespaced_tool.
  by rewrite Hdot.
Qed.

(** The parse error of a name without a separator is raised before the
    [try] block of [_route_tool_call]; the handler of [route_request]
    turns it into an internal error, and the router's state (cache,
    processes and their counters) is untouched. *)
Lemma route_request_unnamespaced
    (tool_name : string) (arguments : types.json)
    (context : ClientIdentifier.ConnectionContext) (r : Router.MCPRouter) :
  Py.contains "." tool_name = false ->
  Router.route_request call_tool_key now later
    (types.CallToolRequest tool_name arguments) context r
  = (Py.Return (Router.Error
       {| types.code := types.INTERNAL_ERROR;
          types.message :=
            "Internal routing error: "
            +:+ ("Tool name must be namespaced: " +:+ tool_name) |}), r).
Proof.
  intros Hdot. unfold Router.route_request, Router.dispatch.
  by rewrite route_tool_call_unnamespaced.
Qed.

(** The other error paths of a tool call, on a cache miss: an unknown
    server id is an invalid request; the router's deadline is an internal
    error whose message has the word [timeout]; a failure of the backend
    session is an internal error; and so is the deadline of the process,
    should it pass before the router's. *)
Lemma route_tool_call_backend_errors
    (tool_name server_id actual : string) (arguments : types.json)
    (context : ClientIdentifier.ConnectionContext) (r : Router.MCPRouter)
    (c : Cache.ResponseCache types.CallToolResult) :
  Router._parse_namespaced_tool tool_name = Py.Return (server_id, actual) ->
  Cache.get now (call_tool_key server_id actual arguments) (Router.cache r)
  = Py.Return (None, c) ->
  let routed :=
    (Router.route_request call_tool_key now later
       (types.CallToolRequest tool_name arguments) context r).1 in
  let processes := ServerManager.processes (Router.server_manager r) in
  (PyDict.get server_id processes = None ->
     routed = Py.Return (Router.Error
                {| types.code := types.INVALID_REQUEST;
                   types.message := "Server " +:+ server_id +:+ " not running" |}))
  /\ (forall p s,
        PyDict.get server_id processes = Some p ->
        Process.session p = Some s ->
        Process.on_call_tool s actual arguments = Process.Cancelled ->
        routed = Py.Return (Router.Error
                   {| types.code := types.INTERNAL_ERROR;
                      types.message := "Tool call " +:+ "timeout" +:+ ": " +:+ tool_name |}))
  /\ (forall p s e,
        PyDict.get server_id processes = Some p ->
        Process.session p = Some s ->
        Process.on_call_tool s actual arguments = Process.Fails e ->
        Py.is_exception e = true ->
        exists msg,
          routed = Py.Return (Router.Error
                     {| types.code := types.INTERNAL_ERROR;
                        types.message := "Backend error: " +:+ msg |}))
  /\ (forall p s,
        PyDict.get server_id processes = Some p ->
        Process.session p = Some s ->
        Process.on_call_tool s actual arguments = Process.Expires ->
        routed = Py.Return (Router.Error
                   {| types.code := types.INTERNAL_ERROR;
                      types.message :=
                        "Backend error: "
                        +:+ ("Timeout calling tool " +:+ actual +:+ " on server "
                             +:+ Process.server_id p) |})).
Proof.
  intros Hparse Hmiss routed processes. subst routed processes.
  unfold Router.route_request, Router.dispatch, Router._route_tool_call.
  rewrite Hparse, Hmiss. unfold ServerManager.call_tool. simpl.
  split; [|split; [|split]].
  - by intros ->.
  - intros p s -> Hs Hout. unfold Process.call_tool. rewrite Hs. simpl.
    by rewrite Hout.
  - intros p s e -> Hs Hout He. unfold Process.call_tool. rewrite Hs. simpl.
    rewrite Hout. simpl. destruct e; try done; simpl; by eexists.
  - intros p s -> Hs Hout. unfold Process.call_tool. rewrite Hs. simpl.
    by rewrite Hout.
Qed.

End RoutingFacts.

(** The second and fifth scenarios of the specification: the call
    [fs.read_file] reaches the backend [fs] once; the same call twenty
    microseconds later is served from the cache. *)
Example namespaced_call_then_cache_hit :
  let request := types.CallToolRequest "fs.read_file" "{}" in
  let context := Examples.context_of "guest" in
  let first := Router.route_request Examples.plain_key 0 10 request context
                 Examples.live_router in
  let second := Router.route_request Examples.plain_key 20 30 request context first.2 in
  first.1 = Py.Return (Router.ToolResult
              {| types.content := [types.TextContent "ok"]; types.isError := false |})
  /\ second.1 = first.1
  /\ Examples.fs_requests Examples.live_router = Some 0%nat
  /\ Examples.fs_requests first.2 = Some 1%nat
  /\ Examples.fs_requests second.2 = Some 1%nat.
Proof. vm_compute. repeat split. Qed.

(** A call for a server without a running backend is an invalid request. *)
Example call_for_stopped_server :
  (Router.route_request Examples.plain_key 0 10
     (types.CallToolRequest "db.query" "{}") (Examples.context_of "guest")
     Examples.live_router).1
  = Py.Return (Router.Error {| types.code := types.INVALID_REQUEST;
                               types.message := "Server db not running" |}).
Proof. reflexivity. Qed.

(** C5 fails on the code for a name without a separator.  The request
    [call_tool(name="read_file")] is answered with the internal-error code
    and the message of the router's outermost handler, not with the
    invalid-request code, in every state of the router. *)
Theorem route_unnamespaced_tool_call_code
    (call_tool_key : string -> string -> types.json -> string) (now later : Z)
    (context : ClientIdentifier.ConnectionContext) (r : Router.MCPRouter) :
  exists err,
    Router.route_request call_tool_key now later
      (types.CallToolRequest "read_file" "{}") context r
    = (Py.Return (Router.Error err), r)
    /\ types.code err = types.INTERNAL_ERROR
    /\ types.code err <> types.INVALID_REQUEST
    /\ types.message err
       = "Internal routing error: Tool name must be namespaced: read_file".
Proof.
  eexists. split; [by apply route_request_unnamespaced|]. done.
Qed.

(** ** The front-end handler *)

Lemma created_context_client_id (ctx : Manager.RequestContext) :
  exists a s,
    ClientIdentifier.client_id (Manager._create_connection_context ctx)
    = Some (String a s).
Proof.
  unfold Manager._create_connection_context. simpl.
  destruct (Manager.client_params ctx) as [[[info|]|info]|]; simpl; eauto.
  destruct (ClientIdentifier.name info); simpl; eauto.
Qed.

(** The handler stores a client id on the context before the middleware
    runs, so the middleware checks the call for that id. *)
Lemma process_request_call_tool
    (mw : Middleware.AccessControlMiddleware) (ctx : Manager.RequestContext)
    (name : string) (arguments : types.json) (c : string) :
  ClientIdentifier.client_id (Manager._create_connection_context ctx) = Some c ->
  Middleware.process_request mw (types.CallToolRequest name arguments)
    (Manager._create_connection_context ctx)
  = (Middleware._check_tool_call mw name c, Manager._create_connection_context ctx).
Proof.
  intros Hc. destruct (created_context_client_id ctx) as (a & s & Hid).
  rewrite Hc in Hid. injection Hid as ->.
  unfold Middleware.process_request. rewrite Hc. cbv beta iota zeta. by rewrite Hc.
Qed.

Section HandlerFacts.
Variable call_tool_key : string -> string -> types.json -> string.
Variables now later : Z.

Lemma call_tool_denied
    (ctx : Manager.RequestContext) (name : string) (arguments : types.json)
    (mgr : Manager.MCPManager) (c : string) :
  ClientIdentifier.client_id (Manager._create_connection_context ctx) = Some c ->
  (let '(server_id, actual) := Middleware._parse_namespaced_tool name in
   PermissionEngine.check_tool_access
     (Middleware.permission_engine (Manager.access_middleware mgr)) c server_id actual
   = false) ->
  Manager.call_tool call_tool_key now later ctx name arguments mgr
  = (Py.Return [types.TextContent ("Access denied: " +:+ ("Access denied to tool: " +:+ name))],
     mgr).
Proof.
  intros Hc Hdenied. unfold Manager.call_tool.
  rewrite (process_request_call_tool _ _ _ _ _ Hc).
  unfold Middleware._check_tool_call.
  destruct (Middleware._parse_namespaced_tool name) as [server_id actual].
  by rewrite Hdenied.
Qed.

Lemma call_tool_unnamespaced_allowed
    (ctx : Manager.RequestContext) (name : string) (arguments : types.json)
    (mgr : Manager.MCPManager) (c : string) :
  Py.contains "." name = false ->
  ClientIdentifier.client_id (Manager._create_connection_context ctx) = Some c ->
  PermissionEngine.check_tool_access
    (Middleware.permission_engine (Manager.access_middleware mgr)) c "default" name
  = true ->
  Manager.call_tool call_tool_key now later ctx name arguments mgr
  = (Py.Return [types.TextContent
       ("Error: " +:+ ("Internal routing error: "
                       +:+ ("Tool name must be namespaced: " +:+ name)))],
     mgr).
Proof.
  intros Hdot Hc Hallowed. unfold Manager.call_tool.
  rewrite (process_request_call_tool _ _ _ _ _ Hc).
  unfold Middleware._check_tool_call, Middleware._parse_namespaced_tool.
  rewrite Hdot, Hallowed. simpl.
  rewrite route_request_unnamespaced by done. simpl.
  by destruct mgr.
Qed.

End HandlerFacts.

(** C7 as stated fails on the code: for the guest whose rule denies every
    tool of [fs], the text returned for [fs.read_file] is the prefix
    [Access denied: ] followed by the middleware's own message, not the
    text [Access denied: fs.read_file]. *)
Lemma access_denied_text_differs :
  Spec.resolved_rule Examples.clients "guest" Examples.guest_rule
  /\ In Examples.deny_fs (deny Examples.guest_rule)
  /\ (Manager.call_tool Examples.plain_key 0 0 Examples.guest_request
        "fs.read_file" "{}" Examples.manager).1
     = Py.Return [types.TextContent "Access denied: Access denied to tool: fs.read_file"]
  /\ (Manager.call_tool Examples.plain_key 0 0 Examples.guest_request
        "fs.read_file" "{}" Examples.manager).1
     <> Py.Return [types.TextContent "Access denied: fs.read_file"].
Proof.
  split; [by left|]. split; [by left|]. split; [reflexivity|].
  vm_compute. discriminate.
Qed.

(** C7, amended.  For a client whose resolved rule has the deny rule for
    the server [fs] with the tool list [[*]], the [call_tool] handler
    invoked with the name [fs.read_file] returns one text content block
    whose text is exactly
    [Access denied: Access denied to tool: fs.read_file], and changes
    nothing in the manager. *)
Theorem denied_call_text
    (call_tool_key : string -> string -> types.json -> string) (now later : Z)
    (ctx : Manager.RequestContext) (arguments : types.json)
    (mgr : Manager.MCPManager) (c : string) (rule : ClientRule) (d : AccessRule) :
  ClientIdentifier.client_id (Manager._create_connection_context ctx) = Some c ->
  Spec.resolved_rule
    (Middleware.permission_engine (Manager.access_middleware mgr)) c rule ->
  In d (deny rule) ->
  server d = "fs" ->
  tools d = Some ["*"] ->
  Manager.call_tool call_tool_key now later ctx "fs.read_file" arguments mgr
  = (Py.Return [types.TextContent "Access denied: Access denied to tool: fs.read_file"],
     mgr).
Proof.
  intros Hc Hres Hin Hserver Htools.
  apply (call_tool_denied call_tool_key now later ctx "fs.read_file" arguments mgr c Hc).
  change (Middleware._parse_namespaced_tool "fs.read_file") with ("fs", "read_file").
  cbv iota beta.
  apply (matching_deny_rule_denies _ c "fs" "read_file" rule d Hres Hin).
  split; [done|]. rewrite Htools. simpl. right. left. by left.
Qed.

Lemma denied_call_text_witness :
  Manager.call_tool Examples.plain_key 0 0 Examples.guest_request
    "fs.read_file" "{}" Examples.manager
  = (Py.Return [types.TextContent "Access denied: Access denied to tool: fs.read_file"],
     Examples.manager).
Proof.
  apply (denied_call_text Examples.plain_key 0 0 Examples.guest_request "{}"
           Examples.manager "guest" Examples.guest_rule Examples.deny_fs).
  - reflexivity.
  - left. reflexivity.
  - left. reflexivity.
  - reflexivity.
  - reflexivity.
Defined.

(** C10. A tool name without a [.] is not rejected by the middleware: it
    is parsed as the tool of the server [default] under its unchanged name
    and authorized by [check_tool_access] against [default]; the router's
    parser raises a parse error for the same name.  So such a call can pass
    authorization, and when it does the router answers with an error
    without changing its state: no backend is reached. *)
Theorem unnamespaced_call_authorized_but_unroutable (tool_name : string) :
  Py.contains "." tool_name = false ->
  Middleware._parse_namespaced_tool tool_name = ("default", tool_name)
  /\ (forall mw c,
        Middleware._check_tool_call mw tool_name c
        = if PermissionEngine.check_tool_access
               (Middleware.permission_engine mw) c "default" tool_name
          then (true, None)
          else (false,
                Some {| types.code := types.INVALID_REQUEST;
                        types.message := "Access denied to tool: " +:+ tool_name |}))
  /\ Router._parse_namespaced_tool tool_name
     = Py.Raise (Py.ValueError ("Tool name must be namespaced: " +:+ tool_name))
  /\ (exists clients, forall c,
        PermissionEngine.check_tool_access clients c "default" tool_name = true)
  /\ (forall call_tool_key now later arguments context r,
        exists err,
          Router.route_request call_tool_key now later
            (types.CallToolRequest tool_name arguments) context r
          = (Py.Return (Router.Error err), r))
  /\ (forall call_tool_key now later ctx arguments mgr c,
        ClientIdentifier.client_id (Manager._create_connection_context ctx) = Some c ->
        PermissionEngine.check_tool_access
          (Middleware.permission_engine (Manager.access_middleware mgr))
          c "default" tool_name = true ->
        exists text,
          Manager.call_tool call_tool_key now later ctx tool_name arguments mgr
          = (Py.Return [types.TextContent ("Error: " +:+ text)], mgr)).
Proof.
  intros Hdot.
  assert (Middleware._parse_namespaced_tool tool_name = ("default", tool_name)) as Hmw.
  { unfold Middleware._parse_namespaced_tool. by rewrite Hdot. }
  split; [done|]. split; [|split; [|split; [|split]]].
  - intros mw c. unfold Middleware._check_tool_call. rewrite Hmw.
    by destruct (PermissionEngine.check_tool_access _ c "default" tool_name).
  - unfold Router._parse_namespaced_tool. by rewrite Hdot.
  - exists [("default", Examples.open_rule)]. intros c.
    unfold PermissionEngine.check_tool_access. simpl.
    by destruct (String.eqb c "default").
  - intros key now later arguments context r. eexists.
    by apply route_request_unnamespaced.
  - intros key now later ctx arguments mgr c Hc Hallowed. eexists.
    by apply (call_tool_unnamespaced_allowed key now later ctx tool_name arguments mgr c).
Qed.

(** An anonymous client calls [read_file] without a namespace: the open
    default rule authorizes the call, and the answer is the router's
    error. *)
Lemma unnamespaced_call_witness :
  PermissionEngine.check_tool_access Examples.clients "default" "default" "read_file" = true
  /\ exists text,
       Manager.call_tool Examples.plain_key 0 0 Examples.anonymous_request
         "read_file" "{}" Examples.manager
       = (Py.Return [types.TextContent ("Error: " +:+ text)], Examples.manager).
Proof.
  split; [reflexivity|].
  destruct (unnamespaced_call_authorized_but_unroutable "read_file")
    as (_ & _ & _ & _ & _ & Hcall); [reflexivity|].
  apply (Hcall Examples.plain_key 0%Z 0%Z Examples.anonymous_request "{}"
           Examples.manager "default"); reflexivity.
Defined.


(** * Further properties *)

(** The keys of a dictionary written out in full are distinct. *)
Ltac concrete_wf :=
  unfold PyDict.wf; apply (bool_decide_unpack _); vm_compute; exact I.

(** ** The access decision *)

Lemma any_rule_matches_tool
    (rules : list AccessRule) (server_id tool_name : string) :
  PermissionEngine.any_rule_matches rules server_id tool_name "tools" = true
  <-> Notions.some_rule_matches_tool rules server_id tool_name.
Proof.
  rewrite any_rule_matches_exists. unfold Notions.some_rule_matches_tool.
  split; intros (r & Hin & Hm); exists r; split; try done;
    by apply matches_access_rule_tools.
Qed.

(** X1. The decision of [check_tool_access] for a client with a resolved
    rule: access is granted exactly when no deny rule matches and either
    an allow rule matches or the rule is not [deny_all_except_allowed];
    a client with neither a rule of its own nor a [default] rule is
    denied everything. *)
Theorem tool_access_decision
    (clients : PermissionEngine.client_rules) (c s t : string) :
  (forall rule,
      Spec.resolved_rule clients c rule ->
      (PermissionEngine.check_tool_access clients c s t = true
       <-> ~ Notions.some_rule_matches_tool (deny rule) s t
           /\ (Notions.some_rule_matches_tool (allow rule) s t
               \/ deny_all_except_allowed rule = false)))
  /\ (PyDict.get c clients = None -> PyDict.get "default" clients = None ->
      PermissionEngine.check_tool_access clients c s t = false).
Proof.
  split.
  - intros rule Hres. rewrite (check_tool_access_resolved _ _ _ _ _ Hres).
    rewrite <- !any_rule_matches_tool.
    destruct (PermissionEngine.any_rule_matches (deny rule) s t "tools");
      [split; [done | intros [H _]; by destruct H]|].
    destruct (PermissionEngine.any_rule_matches (allow rule) s t "tools");
      [split; [intros _; split; [done | by left] | done]|].
    destruct (deny_all_except_allowed rule); simpl.
    + split; [done | intros [_ [H|H]]; done].
    + split; [intros _; split; [done | by right] | done].
  - intros Hc Hd. unfold PermissionEngine.check_tool_access. by rewrite Hc, Hd.
Qed.

(** The guest may use the tools of a server that none of its rules
    names. *)
Lemma tool_access_decision_witness :
  PermissionEngine.check_tool_access Examples.clients "guest" "db" "query" = true.
Proof.
  destruct (tool_access_decision Examples.clients "guest" "db" "query") as [Hrule _].
  apply (Hrule Examples.guest_rule).
  - left. reflexivity.
  - split.
    + intros (r & [<-|[]] & Hs & _). discriminate Hs.
    + right. reflexivity.
Defined.

(** ** Resources in the permission engine *)

Lemma matches_access_rule_resources (rule : AccessRule) (server_id name : string) :
  PermissionEngine._matches_access_rule rule server_id name "resources" = true
  <-> Notions.rule_matches_resource rule server_id name.
Proof.
  unfold PermissionEngine._matches_access_rule, Notions.rule_matches_resource,
    Spec.tool_list_matches.
  destruct (String.eqb_spec (server rule) server_id) as [Hs|Hs]; simpl.
  - destruct (resources rule) as [[|i items]|].
    + tauto.
    + rewrite !orb_true_iff, !str_in_In, wildcard_match_exists. tauto.
    + tauto.
  - split; [discriminate | tauto].
Qed.

Lemma any_rule_matches_resource
    (rules : list AccessRule) (server_id name : string) :
  PermissionEngine.any_rule_matches rules server_id name "resources" = true
  <-> Notions.some_rule_matches_resource rules server_id name.
Proof.
  rewrite any_rule_matches_exists. unfold Notions.some_rule_matches_resource.
  split; intros (r & Hin & Hm); exists r; split; try done;
    by apply matches_access_rule_resources.
Qed.

Lemma split_at_scheme (scheme rest : string) :
  Py.contains ":" scheme = false ->
  PyStr.split_at "://" (scheme +:+ "://" +:+ rest) = Some (scheme, rest).
Proof.
  induction scheme as [|a scheme IH]; [done|].
  rewrite append_cons. simpl Py.contains.
  destruct (Ascii.eqb a ":") eqn:Ha; [done|]. intros Hs.
  change (PyStr.split_at "://" (String a (scheme +:+ "://" +:+ rest)))
    with (if Ascii.eqb a ":" && Py.startswith (scheme +:+ "://" +:+ rest) "//"
          then Some (EmptyString, Py.slice_from 3 (String a (scheme +:+ "://" +:+ rest)))
          else match PyStr.split_at "://" (scheme +:+ "://" +:+ rest) with
               | Some (l, r) => Some (String a l, r)
               | None => None
               end).
  rewrite Ha. simpl. by rewrite IH.
Qed.

Lemma extract_resource_name_path (scheme host rest : string) :
  Py.contains ":" scheme = false ->
  Py.contains "/" host = false ->
  ResourceAccess._extract_resource_name (scheme +:+ "://" +:+ host +:+ "/" +:+ rest) = rest.
Proof.
  intros Hscheme Hhost. unfold ResourceAccess._extract_resource_name, PyStr.contains_sub.
  rewrite (split_at_scheme scheme (host +:+ "/" +:+ rest) Hscheme).
  change ("/" +:+ rest) with (String "/" rest).
  by rewrite contains_append_sep, split1_append_sep.
Qed.

Lemma resource_decision_iff
    (clients : PermissionEngine.client_rules) (c s uri : string) (rule : ClientRule) :
  Spec.resolved_rule clients c rule ->
  let name := ResourceAccess._extract_resource_name uri in
  ResourceAccess.check_resource_access clients c s uri = true
  <-> ~ Notions.some_rule_matches_resource (deny rule) s name
      /\ (Notions.some_rule_matches_resource (allow rule) s name
          \/ deny_all_except_allowed rule = false).
Proof.
  intros Hres name. unfold ResourceAccess.check_resource_access.
  assert (match PyDict.get c clients with
          | Some r => Some r
          | None => PyDict.get "default" clients
          end = Some rule) as ->.
  { by destruct Hres as [-> | [-> ->]]. }
  fold name. rewrite <- !any_rule_matches_resource.
  destruct (PermissionEngine.any_rule_matches (deny rule) s name "resources");
    [split; [done | intros [H _]; by destruct H]|].
  destruct (PermissionEngine.any_rule_matches (allow rule) s name "resources");
    [split; [intros _; split; [done | by left] | done]|].
  destruct (deny_all_except_allowed rule); simpl.
  - split; [done | intros [_ [H|H]]; done].
  - split; [intros _; split; [done | by right] | done].
Qed.

(** X2. The decision of [check_resource_access] follows the same order as
    for tools, on the [resources] lists and on the resource name that
    [_extract_resource_name] takes from the URI: granted exactly when no
    deny rule matches the name and either an allow rule matches it or the
    rule is not [deny_all_except_allowed].  In particular a matching deny
    rule wins over every allow rule. *)
Theorem resource_access_decision
    (clients : PermissionEngine.client_rules) (c s uri : string) (rule : ClientRule) :
  Spec.resolved_rule clients c rule ->
  let name := ResourceAccess._extract_resource_name uri in
  ResourceAccess.check_resource_access clients c s uri = true
  <-> ~ Notions.some_rule_matches_resource (deny rule) s name
      /\ (Notions.some_rule_matches_resource (allow rule) s name
          \/ deny_all_except_allowed rule = false).
Proof. apply resource_decision_iff. Qed.

Lemma resource_access_decision_witness :
  ResourceAccess.check_resource_access Examples.clients "guest" "db" "file:///etc/hosts"
  = true.
Proof.
  apply (resource_access_decision Examples.clients "guest" "db" "file:///etc/hosts"
           Examples.guest_rule).
  - left. reflexivity.
  - split.
    + intros (r & [<-|[]] & Hs & _). discriminate Hs.
    + right. reflexivity.
Defined.

(** X4. An access rule that lists tools only has no [resources] list, and
    a missing list matches everything: a deny rule written for the tools
    of a server also denies every resource of that server, and a deny rule
    written for its resources also denies every tool. *)
Theorem one_sided_deny_rule_blocks_both
    (clients : PermissionEngine.client_rules) (c s : string)
    (rule : ClientRule) (d : AccessRule) :
  Spec.resolved_rule clients c rule ->
  In d (deny rule) ->
  server d = s ->
  (resources d = None ->
   forall uri, ResourceAccess.check_resource_access clients c s uri = false)
  /\ (tools d = None ->
      forall t, PermissionEngine.check_tool_access clients c s t = false).
Proof.
  intros Hres Hin Hs. split.
  - intros Hnone uri. apply not_true_is_false.
    rewrite (resource_decision_iff clients c s uri rule Hres).
    intros [Hdeny _]. apply Hdeny. exists d. split; [done|].
    split; [done|]. by rewrite Hnone.
  - intros Hnone t.
    apply (matching_deny_rule_denies clients c s t rule d Hres Hin).
    split; [done|]. by rewrite Hnone.
Qed.

(** The guest's deny rule names the tools of [fs] only; the guest cannot
    read any resource of [fs] either. *)
Lemma one_sided_deny_rule_blocks_both_witness :
  tools Examples.deny_fs = Some ["*"]
  /\ ResourceAccess.check_resource_access Examples.clients "guest" "fs"
       "file:///etc/hosts" = false.
Proof.
  split; [reflexivity|].
  destruct (one_sided_deny_rule_blocks_both Examples.clients "guest" "fs"
              Examples.guest_rule Examples.deny_fs) as [Hresources _].
  - left. reflexivity.
  - left. reflexivity.
  - reflexivity.
  - apply Hresources. reflexivity.
Defined.

(** X3. What a resource rule is matched against.  A URI without [://] is
    its own resource name; of a URI [scheme://host/rest] the name is
    [rest], and of [scheme://host] it is [host].  So the decision of
    [check_resource_access] is the same for two URIs that differ only in
    scheme and host. *)
Theorem resource_name_ignores_scheme_and_host
    (clients : PermissionEngine.client_rules) (c s : string)
    (scheme host scheme' host' rest uri : string) :
  Py.contains ":" scheme = false ->
  Py.contains "/" host = false ->
  Py.contains ":" scheme' = false ->
  Py.contains "/" host' = false ->
  (PyStr.contains_sub "://" uri = false ->
   ResourceAccess._extract_resource_name uri = uri)
  /\ ResourceAccess._extract_resource_name (scheme +:+ "://" +:+ host +:+ "/" +:+ rest)
     = rest
  /\ ResourceAccess._extract_resource_name (scheme +:+ "://" +:+ host) = host
  /\ ResourceAccess.check_resource_access clients c s
       (scheme +:+ "://" +:+ host +:+ "/" +:+ rest)
     = ResourceAccess.check_resource_access clients c s
         (scheme' +:+ "://" +:+ host' +:+ "/" +:+ rest).
Proof.
  intros Hs Hh Hs' Hh'. split; [|split; [|split]].
  - intros Hno. unfold ResourceAccess._extract_resource_name. by rewrite Hno.
  - by apply extract_resource_name_path.
  - unfold ResourceAccess._extract_resource_name, PyStr.contains_sub.
    rewrite (split_at_scheme scheme host Hs). by rewrite Hh.
  - unfold ResourceAccess.check_resource_access.
    by rewrite !extract_resource_name_path.
Qed.

Lemma resource_name_ignores_scheme_and_host_witness :
  ResourceAccess._extract_resource_name "file://localhost/etc/hosts" = "etc/hosts"
  /\ ResourceAccess.check_resource_access Examples.clients "guest" "fs"
       "file://localhost/etc/hosts"
     = ResourceAccess.check_resource_access Examples.clients "guest" "fs"
         "https://example.org/etc/hosts".
Proof.
  destruct (resource_name_ignores_scheme_and_host Examples.clients "guest" "fs"
              "file" "localhost" "https" "example.org" "etc/hosts" "etc/hosts")
    as (_ & Hname & _ & Hsame); try reflexivity.
  split; [exact Hname | exact Hsame].
Defined.

(** ** Filtering of listings by the permission engine *)

Lemma setitem_fresh {V : Type} (k : string) (v : V) (d : PyDict.t V) :
  ~ In k (PyDict.keys d) -> PyDict.setitem k v d = d ++ [(k, v)].
Proof.
  induction d as [|[k' v'] d IH]; simpl; [done|].
  intros Hk. destruct (String.eqb_spec k k') as [->|Hne]; [tauto|].
  rewrite IH; [done | tauto].
Qed.

Lemma allowed_tools_loop_filter
    (clients : PermissionEngine.client_rules) (c sid : string)
    (tools acc : list types.Tool) :
  ResourceAccess.allowed_tools_loop clients c sid tools acc
  = acc ++ List.filter
             (fun tool => PermissionEngine.check_tool_access clients c sid (types.name tool))
             tools.
Proof.
  revert acc. induction tools as [|tool tools IH]; intros acc; simpl.
  - by rewrite app_nil_r.
  - rewrite IH.
    destruct (PermissionEngine.check_tool_access clients c sid (types.name tool));
      [by rewrite <- app_assoc | done].
Qed.

Lemma filter_tools_loop_spec
    (clients : PermissionEngine.client_rules) (c : string)
    (server_tools acc : PyDict.t (list types.Tool)) :
  PyDict.wf server_tools ->
  (forall k, In k (PyDict.keys server_tools) -> ~ In k (PyDict.keys acc)) ->
  ResourceAccess.filter_tools_loop clients c server_tools acc
  = acc ++ List.filter Notions.nonempty (map (Notions.allowed_of clients c) server_tools).
Proof.
  revert acc. induction server_tools as [|[sid tools] st IH]; intros acc Hwf Hfresh; simpl.
  - by rewrite app_nil_r.
  - apply NoDup_cons in Hwf as [Hsid Hwf].
    rewrite allowed_tools_loop_filter. simpl.
    unfold Notions.nonempty at 1, Notions.allowed_of at 1 2. simpl.
    destruct (List.filter _ tools) as [|x allowed] eqn:Hallowed.
    + apply IH; [done|]. intros k Hk. apply Hfresh. by right.
    + rewrite setitem_fresh by (apply Hfresh; by left).
      rewrite IH; [by rewrite <- app_assoc | done |].
      intros k Hk. unfold PyDict.keys. rewrite map_app, in_app_iff. simpl.
      intros [Hin|[<-|[]]].
      * apply (Hfresh k); [by right | done].
      * apply Hsid. by apply list_elem_of_In.
Qed.

(** X5. [filter_tools] keeps, server by server and in the given order,
    exactly the tools for which [check_tool_access] holds, and leaves out
    every server for which none is left: no server of the result has an
    empty list and every tool of the result is authorized. *)
Theorem filter_tools_spec
    (clients : PermissionEngine.client_rules) (c : string)
    (server_tools : PyDict.t (list types.Tool)) :
  PyDict.wf server_tools ->
  ResourceAccess.filter_tools clients c server_tools
  = List.filter Notions.nonempty (map (Notions.allowed_of clients c) server_tools)
  /\ forall sid tools,
       In (sid, tools) (ResourceAccess.filter_tools clients c server_tools) ->
       tools <> []
       /\ forall tool, In tool tools ->
            PermissionEngine.check_tool_access clients c sid (types.name tool) = true.
Proof.
  intros Hwf.
  assert (ResourceAccess.filter_tools clients c server_tools
          = List.filter Notions.nonempty (map (Notions.allowed_of clients c) server_tools))
    as Heq.
  { unfold ResourceAccess.filter_tools.
    rewrite filter_tools_loop_spec; [done | done | by intros k _ []]. }
  split; [done|]. rewrite Heq. intros sid tools Hin.
  apply filter_In in Hin as [Hin Hne].
  apply in_map_iff in Hin as ([sid' tools'] & [= <- <-] & _).
  split.
  - unfold Notions.nonempty in Hne. simpl in Hne. intros Hnil. by rewrite Hnil in Hne.
  - intros tool Htool. simpl in Htool. by apply filter_In in Htool as [_ Hok].
Qed.

Lemma filter_tools_spec_witness :
  ResourceAccess.filter_tools Examples.clients "guest"
    [("fs", [Examples.tool "read_file"]); ("db", [Examples.tool "query"])]
  = [("db", [Examples.tool "query"])].
Proof.
  destruct (filter_tools_spec Examples.clients "guest"
              [("fs", [Examples.tool "read_file"]); ("db", [Examples.tool "query"])])
    as [Heq _].
  - concrete_wf.
  - rewrite Heq. reflexivity.
Defined.

(** ** More on client identification *)

Lemma empty_conditions_match
    (context : ClientIdentifier.ConnectionContext) (conditions : list (PyDict.t string)) :
  Forall (fun condition => condition = []) conditions ->
  ClientIdentifier._matches_rule context conditions = true.
Proof.
  induction 1 as [|condition conditions -> _ IH]; simpl; done.
Qed.

(** X7. A rule whose [identify_by] list is empty, or holds only empty
    conditions, matches every connection: whatever the context,
    [identify_client] returns the id of that rule or of a rule declared
    before it, never the id of a later rule and never the fallback. *)
Theorem catch_all_rule_shadows
    (before after : PyDict.t ClientRule) (cid : string) (rule : ClientRule)
    (context : ClientIdentifier.ConnectionContext) :
  Forall (fun condition => condition = []) (identify_by rule) ->
  let id := (ClientIdentifier.identify_client (before ++ (cid, rule) :: after) context).1 in
  id = cid \/ In id (PyDict.keys before).
Proof.
  intros Hall id. subst id.
  induction before as [|[c r] before IH]; simpl.
  - rewrite (empty_conditions_match context _ Hall). by left.
  - destruct (ClientIdentifier._matches_rule context (identify_by r)); simpl.
    + right. by left.
    + destruct IH as [IH|IH]; [by left | right; by right].
Qed.

Lemma catch_all_rule_shadows_witness :
  (ClientIdentifier.identify_client Examples2.shadowed_clients
     (Examples.context_of "guest")).1 = "anyone".
Proof.
  destruct (catch_all_rule_shadows [] [("guest", Examples.guest_rule)] "anyone"
              Examples2.anyone_rule (Examples.context_of "guest")) as [Hid|[]].
  - constructor.
  - exact Hid.
Defined.

(** X8. A value that the context lacks is matched as the empty string:
    the condition [*] on its key holds, and a rule with a condition that
    expects a non-empty value without a trailing [*] under that key never
    matches the context. *)
Theorem missing_value_conditions
    (context : ClientIdentifier.ConnectionContext) (key : string) :
  Spec.context_lacks context key ->
  ClientIdentifier.matches_condition context [(key, "*")] = true
  /\ forall expected rule condition,
       expected <> EmptyString ->
       Py.endswith expected "*" = false ->
       In condition (identify_by rule) ->
       In (key, expected) condition ->
       ClientIdentifier._matches_rule context (identify_by rule) = false.
Proof.
  intros Hlacks. pose proof (extract_missing_value context key Hlacks) as Hempty.
  split.
  - simpl. by rewrite Hempty.
  - intros expected rule condition Hne Hstar Hcond Hin.
    apply not_true_is_false. rewrite matches_rule_spec. intros Hrule.
    specialize (Hrule condition Hcond key expected Hin).
    unfold Spec.value_matches in Hrule. rewrite Hstar, Hempty in Hrule. congruence.
Qed.

Lemma missing_value_conditions_witness :
  ClientIdentifier.matches_condition Examples2.bare_context [("client_info.name", "*")]
  = true
  /\ ClientIdentifier._matches_rule Examples2.bare_context
       (identify_by Examples.guest_rule) = false.
Proof.
  destruct (missing_value_conditions Examples2.bare_context "client_info.name")
    as [Hstar Hexact].
  - constructor. reflexivity.
  - split; [exact Hstar|].
    apply (Hexact "guest" Examples.guest_rule [("client_info.name", "guest")]).
    + discriminate.
    + reflexivity.
    + left. reflexivity.
    + left. reflexivity.
Defined.

(** ** Authorization and routing look at the same target *)

(** X9. Whenever the router's parser accepts a tool name or a resource
    URI, the middleware's parser yields the same server id and the same
    backend-native name: the access check is made for the backend and the
    item that the request is then routed to. *)
Theorem authorized_target_is_routed_target (identifier : string) (target : string * string) :
  (Router._parse_namespaced_tool identifier = Py.Return target ->
   Middleware._parse_namespaced_tool identifier = target)
  /\ (Router._parse_namespaced_resource identifier = Py.Return target ->
      MiddlewareResources._parse_namespaced_resource identifier = target).
Proof.
  split.
  - unfold Router._parse_namespaced_tool, Middleware._parse_namespaced_tool.
    destruct (Py.contains "." identifier); [by intros [= <-] | done].
  - unfold Router._parse_namespaced_resource,
      MiddlewareResources._parse_namespaced_resource.
    destruct (Py.startswith identifier "mcp://"); [|done].
    destruct (Py.contains "/" (Py.slice_from 6 identifier)); by intros [= <-].
Qed.

Lemma authorized_target_is_routed_target_witness :
  Middleware._parse_namespaced_tool "fs.read_file" = ("fs", "read_file")
  /\ MiddlewareResources._parse_namespaced_resource "mcp://fs/file:///a"
     = ("fs", "file:///a").
Proof.
  split.
  - apply (authorized_target_is_routed_target "fs.read_file" ("fs", "read_file")).
    reflexivity.
  - apply (authorized_target_is_routed_target "mcp://fs/file:///a" ("fs", "file:///a")).
    reflexivity.
Defined.

(** ** The listing of tools *)










(** ** More on the response cache *)

Section CacheMore.
Context {A : Type}.
Implicit Types (c : Cache.ResponseCache A) (d : PyDict.t (Cache.CacheEntry A)).

(** Every operation keeps the keys distinct, and nothing raises but a
    [set] whose expiry time is not a [datetime]. *)
Lemma step_wf (o : Cache.op A) c :
  PyDict.wf (Cache.cache c) ->
  exists res c',
    Cache.step o c = (res, c')
    /\ PyDict.wf (Cache.cache c')
    /\ Cache.max_size c' = Cache.max_size c
    /\ Cache.default_ttl c' = Cache.default_ttl c
    /\ (Spec.op_representable (Cache.default_ttl c) o -> res = Py.Return ())
    /\ (forall e, res = Py.Raise e ->
          exists now k v ttl msg,
            o = Cache.OpSet now k v ttl /\ e = Py.OverflowError msg
            /\ ~ Spec.representable now (default (Cache.default_ttl c) ttl)).
Proof.
  intros Hwf. destruct o as [now k|now k v ttl|k|]; simpl.
  - rewrite get_cases.
    destruct (PyDict.get k (Cache.cache c)) as [entry|]; [|by eexists _, _].
    destruct (Cache.is_expired now entry); [|by eexists _, _].
    eexists _, _. split; [done|]. split; [by apply dict_wf_remove | done].
  - destruct (set_spec now k v ttl c Hwf) as (evicted & kept & _ & _ & _ & Hk & ->).
    pose proof (entry_init_cases v (default (Cache.default_ttl c) ttl) now) as Hinit.
    destruct (Cache.CacheEntry_init v (default (Cache.default_ttl c) ttl) now)
      as [entry|e].
    + eexists _, _. split; [done|]. split; [by apply dict_wf_setitem | done].
    + destruct Hinit as [[msg ->] Hnot].
      eexists _, _. split; [done|]. split; [done|]. split; [done|]. split; [done|].
      split; [done|]. intros e [= <-]. by exists now, k, v, ttl, msg.
  - eexists _, _. split; [done|]. split; [by apply dict_wf_remove | done].
  - eexists _, _. split; [done|]. split; [constructor | done].
Qed.

Lemma after_wf (ops : list (Cache.op A)) c :
  PyDict.wf (Cache.cache c) ->
  let c' := Cache.after ops c in
  PyDict.wf (Cache.cache c')
  /\ Cache.max_size c' = Cache.max_size c
  /\ Cache.default_ttl c' = Cache.default_ttl c
  /\ (Forall (Spec.op_representable (Cache.default_ttl c)) ops ->
      Cache.run ops c = Py.Return c').
Proof.
  unfold Cache.after. revert c.
  induction ops as [|o ops IH]; intros c Hwf; simpl; [done|].
  destruct (step_wf o c Hwf) as (res & c1 & Hstep & Hwf1 & Hm1 & Ht1 & Hres & _).
  rewrite Hstep. simpl.
  destruct (IH c1 Hwf1) as (Hwf' & Hm' & Ht' & Hrun).
  repeat split; [done | congruence | congruence |].
  intros Hops. apply Forall_cons in Hops as [Ho Hops].
  rewrite (Hres Ho). apply Hrun. by rewrite Ht1.
Qed.

(** X12. Of the operations [get], [set], [delete] and [clear] only [set]
    can raise, and it raises nothing but the [OverflowError] of an expiry
    time that is not a [datetime].  Whatever [max_size] is (zero and
    negative sizes included), after every sequence of operations from the
    empty cache, raising ones included, the keys of the cache are
    distinct, so that no [del] inside [get], the sweep or the eviction
    meets a missing key; the next operation returns when it is not a
    [set] or when its expiry time is a [datetime]; and the whole sequence
    runs to the end when this is so for each of its [set]s. *)
Theorem cache_raises_only_overflow
    (max_size default_ttl : Z) (ops : list (Cache.op A)) (o : Cache.op A) :
  let c := Cache.after ops (Cache.init max_size default_ttl) in
  PyDict.wf (Cache.cache c)
  /\ Cache.max_size c = max_size
  /\ (Forall (Spec.op_representable default_ttl) ops ->
      Cache.run ops (Cache.init max_size default_ttl) = Py.Return c)
  /\ (Spec.op_representable default_ttl o ->
      exists c', Cache.step o c = (Py.Return (), c'))
  /\ (forall e c',
        Cache.step o c = (Py.Raise e, c') ->
        exists now k v ttl msg,
          o = Cache.OpSet now k v ttl /\ e = Py.OverflowError msg
          /\ ~ Spec.representable now (default default_ttl ttl)).
Proof.
  intros c.
  destruct (after_wf ops (Cache.init max_size default_ttl)) as (Hwf & Hm & Ht & Hrun);
    [constructor|].
  fold c in Hwf, Hm, Ht, Hrun. simpl in Hm, Ht, Hrun.
  destruct (step_wf o c Hwf) as (res & c1 & Hstep & _ & _ & _ & Hres & Hraise).
  rewrite Ht in Hres, Hraise.
  split; [done|]. split; [done|]. split; [done|]. split.
  - intros Ho. exists c1. by rewrite Hstep, (Hres Ho).
  - intros e c'. rewrite Hstep. intros [= -> _]. by apply Hraise.
Qed.

(** X13. Insert and look up.  On a cache with distinct keys, when the
    expiry time ([ttl] seconds, [default_ttl] when none is given, after
    the time of the [set]) is a [datetime], [set] returns, and a [get] of
    the same key on the resulting cache returns the payload just stored,
    leaving the cache as it is, at every time up to the expiry time;
    after that time it is a miss that removes the entry. *)
Theorem set_then_get (now : Z) (k : string) (v : A) (ttl : option Z) c :
  PyDict.wf (Cache.cache c) ->
  let seconds := default (Cache.default_ttl c) ttl in
  let expiry := (now + seconds * 1000000)%Z in
  Spec.representable now seconds ->
  exists c',
    Cache.set now k v ttl c = (Py.Return (), c')
    /\ (forall now', (now' <= expiry)%Z ->
          Cache.get now' k c' = Py.Return (Some v, c'))
    /\ (forall now', (expiry < now')%Z ->
          exists c'', Cache.get now' k c' = Py.Return (None, c'')
                      /\ PyDict.get k (Cache.cache c'') = None).
Proof.
  intros Hwf seconds expiry Hrep.
  destruct (set_returns now k v ttl c Hwf Hrep) as (d2 & -> & _).
  eexists. split; [done|]. split.
  - intros now' Hlive. rewrite get_cases. cbn [Cache.cache Cache.with_cache].
    rewrite dict_get_setitem. unfold Cache.is_expired. cbn [Cache.expires_at Cache.new_entry].
    fold seconds expiry. by destruct (Z.ltb_spec expiry now'); [lia|].
  - intros now' Hexp. rewrite get_cases. cbn [Cache.cache Cache.with_cache].
    rewrite dict_get_setitem. unfold Cache.is_expired. cbn [Cache.expires_at Cache.new_entry].
    fold seconds expiry. destruct (Z.ltb_spec expiry now'); [|lia].
    eexists. split; [done|]. cbn [Cache.cache Cache.with_cache].
    apply dict_get_remove.
Qed.

End CacheMore.

Lemma cache_raises_only_overflow_witness :
  exists c' : Cache.ResponseCache unit,
    Cache.step (Cache.OpSet 3 "d" () (Some 60%Z))
      (Cache.after (Examples.fill 3) (Cache.init 0 300)) = (Py.Return (), c').
Proof.
  destruct (cache_raises_only_overflow (A:=unit) 0 300 (Examples.fill 3)
              (Cache.OpSet 3 "d" () (Some 60%Z))) as (_ & _ & _ & Hreturns & _).
  apply Hreturns. unfold Spec.op_representable, Spec.representable, Datetime.datetime_max.
  simpl. lia.
Defined.

Lemma set_then_get_witness :
  exists c' : Cache.ResponseCache unit,
    Cache.set 0 "a" () (Some 60%Z) (Cache.init 10 300) = (Py.Return (), c')
    /\ Cache.get 60000000 "a" c' = Py.Return (Some (), c').
Proof.
  destruct (set_then_get (A:=unit) 0 "a" () (Some 60%Z) (Cache.init 10 300))
    as (c' & Hset & Hlive & _).
  - constructor.
  - unfold Spec.representable, Datetime.datetime_max. simpl. lia.
  - exists c'. split; [exact Hset|]. apply Hlive. simpl. lia.
Defined.

Section CacheDelete.
Context {A : Type}.
Implicit Types (c : Cache.ResponseCache A) (d : PyDict.t (Cache.CacheEntry A)).

Lemma dict_get_filter_keep {V : Type} (f : string * V -> bool) (k : string)
    (d : PyDict.t V) :
  (forall v, f (k, v) = true) ->
  PyDict.get k (List.filter f d) = PyDict.get k d.
Proof.
  intros Hkeep. induction d as [|[k' v'] d IH]; simpl; [done|].
  destruct (String.eqb_spec k k') as [->|Hne].
  - rewrite Hkeep. simpl. by rewrite String.eqb_refl.
  - destruct (f (k', v')); simpl; [|done].
    by destruct (String.eqb_spec k k').
Qed.

Lemma dict_get_remove_other {V : Type} (k k' : string) (d : PyDict.t V) :
  k' <> k -> PyDict.get k' (PyDict.remove k d) = PyDict.get k' d.
Proof.
  intros Hne. unfold PyDict.remove. apply dict_get_filter_keep. intros v. simpl.
  by destruct (String.eqb_spec k k').
Qed.

Lemma dict_remove_absent {V : Type} (k : string) (d : PyDict.t V) :
  PyDict.get k d = None -> PyDict.remove k d = d.
Proof.
  unfold PyDict.remove. induction d as [|[k' v'] d IH]; simpl; [done|].
  destruct (String.eqb_spec k k') as [->|Hne]; [done|]. simpl.
  intros Hget. by rewrite IH.
Qed.

(** X14. [delete] removes the key and nothing else: afterwards a [get] of
    the key is a miss at every time, every other key is looked up as
    before, and deleting a key that is not in the cache leaves the cache
    as it is (no [KeyError]). *)
Theorem delete_spec (k : string) c :
  (forall now, Cache.get now k (Cache.delete k c) = Py.Return (None, Cache.delete k c))
  /\ (forall k', k' <> k ->
        PyDict.get k' (Cache.cache (Cache.delete k c)) = PyDict.get k' (Cache.cache c))
  /\ (PyDict.get k (Cache.cache c) = None -> Cache.delete k c = c).
Proof.
  split; [|split].
  - intros now. rewrite get_cases. unfold Cache.delete, PyDict.pop.
    cbn [Cache.cache Cache.with_cache]. by rewrite dict_get_remove.
  - intros k' Hne. unfold Cache.delete, PyDict.pop. cbn [Cache.cache Cache.with_cache].
    by apply dict_get_remove_other.
  - intros Habsent. unfold Cache.delete, PyDict.pop.
    rewrite dict_remove_absent by done. by destruct c.
Qed.

Lemma count_expired_filter (now : Z) d :
  CacheStats.count_expired now d
  = length (List.filter (fun item => Cache.is_expired now item.2) d).
Proof.
  induction d as [|[k entry] d IH]; simpl; [done|].
  destruct (Cache.is_expired now entry); simpl; by rewrite IH.
Qed.

(** X15. [get_stats] divides by [max_size]: it raises [ZeroDivisionError]
    exactly when [max_size] is 0.  Otherwise [total_entries] is the number
    of entries, [expired_entries] the number of entries whose expiry time
    has passed, at most the total, and [active_entries] their
    difference. *)
Theorem get_stats_spec (now : Z) c :
  (CacheStats.get_stats now c = CacheStats.ZeroDivisionError <-> Cache.max_size c = 0%Z)
  /\ forall st,
       CacheStats.get_stats now c = CacheStats.Stats st ->
       CacheStats.total_entries st = PyDict.len (Cache.cache c)
       /\ CacheStats.expired_entries st
          = length (List.filter (fun item => Cache.is_expired now item.2) (Cache.cache c))
       /\ (CacheStats.expired_entries st <= CacheStats.total_entries st)%nat
       /\ (CacheStats.active_entries st
           = Z.of_nat (CacheStats.total_entries st - CacheStats.expired_entries st))%Z
       /\ CacheStats.max_size st = Cache.max_size c.
Proof.
  unfold CacheStats.get_stats.
  destruct (Z.eqb_spec (Cache.max_size c) 0) as [Hz|Hnz].
  - split; [done | discriminate].
  - split; [split; [discriminate | done]|].
    intros st [= <-]. simpl. rewrite count_expired_filter.
    pose proof (List.filter_length_le (fun item => Cache.is_expired now item.2)
                  (Cache.cache c)) as Hle.
    unfold PyDict.len. repeat split; [done | lia].
Qed.

(** X16. The sweep of expired entries, on a cache with distinct keys,
    never raises and removes exactly the expired entries: the entries that
    have not expired stay, in their order, and none of the entries left is
    expired. *)
Theorem sweep_removes_exactly_expired (now : Z) d :
  PyDict.wf d ->
  exists d',
    Cache._cleanup_expired_unlocked now d = Py.Return d'
    /\ d' = List.filter (fun item => negb (Cache.is_expired now item.2)) d
    /\ CacheStats.count_expired now d' = 0%nat
    /\ forall k entry,
         PyDict.get k d = Some entry ->
         Cache.is_expired now entry = false ->
         PyDict.get k d' = Some entry.
Proof.
  intros Hwf. rewrite (cleanup_expired_filter now d Hwf).
  eexists. split; [done|]. split; [done|]. split.
  - rewrite count_expired_filter.
    induction d as [|[k entry] d IH]; [done|].
    apply NoDup_cons in Hwf as [_ Hwf]. simpl.
    destruct (Cache.is_expired now entry) eqn:Hexp; simpl; [by apply IH|].
    rewrite Hexp. by apply IH.
  - intros k entry. clear Hwf. induction d as [|[k' entry'] d IH]; simpl; [done|].
    destruct (String.eqb_spec k k') as [->|Hne].
    + intros [= ->] Hlive. rewrite Hlive. simpl. by rewrite String.eqb_refl.
    + intros Hget Hlive. destruct (Cache.is_expired now entry'); simpl.
      * by apply IH.
      * destruct (String.eqb_spec k k'); [done | by apply IH].
Qed.

End CacheDelete.

Lemma sweep_removes_exactly_expired_witness :
  Cache._cleanup_expired_unlocked (A:=unit) 300000001
    [("a", Cache.new_entry () 300 0); ("b", Cache.new_entry () 300 5)]
  = Py.Return [("b", Cache.new_entry () 300 5)].
Proof.
  destruct (sweep_removes_exactly_expired (A:=unit) 300000001
              [("a", Cache.new_entry () 300 0); ("b", Cache.new_entry () 300 5)])
    as (d' & Hsweep & -> & _).
  - concrete_wf.
  - exact Hsweep.
Defined.

(** ** Caching of tool calls in the router *)

Section RouterCache.
Variable call_tool_key : string -> string -> types.json -> string.

Lemma with_cache_same (r : Router.MCPRouter) : Router.with_cache r (Router.cache r) = r.
Proof. by destruct r. Qed.

Lemma route_cache_hit
    (now later : Z) (name server_id actual : string) (arguments : types.json)
    (context : ClientIdentifier.ConnectionContext) (r : Router.MCPRouter)
    (entry : Cache.CacheEntry types.CallToolResult) :
  Router._parse_namespaced_tool name = Py.Return (server_id, actual) ->
  PyDict.get (call_tool_key server_id actual arguments) (Cache.cache (Router.cache r))
  = Some entry ->
  (now <= Cache.expires_at entry)%Z ->
  Router.route_request call_tool_key now later
    (types.CallToolRequest name arguments) context r
  = (Py.Return (Router.ToolResult (Cache.data entry)), r).
Proof.
  intros Hparse Hget Hlive.
  unfold Router.route_request, Router.dispatch, Router._route_tool_call.
  rewrite Hparse, get_cases, Hget. unfold Cache.is_expired.
  destruct (Z.ltb_spec (Cache.expires_at entry) now); [lia|].
  by rewrite with_cache_same.
Qed.

(** X17. A cache hit does not reach the backend: when the cache holds an
    entry for the call that has not expired, the router returns the cached
    result and leaves its whole state as it is, the processes and their
    request counters included. *)
Theorem cache_hit_skips_backend
    (now later : Z) (name server_id actual : string) (arguments : types.json)
    (context : ClientIdentifier.ConnectionContext) (r : Router.MCPRouter)
    (entry : Cache.CacheEntry types.CallToolResult) :
  Router._parse_namespaced_tool name = Py.Return (server_id, actual) ->
  PyDict.get (call_tool_key server_id actual arguments) (Cache.cache (Router.cache r))
  = Some entry ->
  (now <= Cache.expires_at entry)%Z ->
  Router.route_request call_tool_key now later
    (types.CallToolRequest name arguments) context r
  = (Py.Return (Router.ToolResult (Cache.data entry)), r).
Proof. apply route_cache_hit. Qed.

Lemma dict_In_get {V : Type} (k : string) (v : V) (d : PyDict.t V) :
  PyDict.wf d -> In (k, v) d -> PyDict.get k d = Some v.
Proof.
  unfold PyDict.wf, PyDict.keys. induction d as [|[k' v'] d IH]; simpl; [done|].
  rewrite NoDup_cons. intros [Hk Hd] [[= -> ->]|Hin].
  - by rewrite String.eqb_refl.
  - destruct (String.eqb_spec k k') as [->|Hne]; [|by apply IH].
    exfalso. apply Hk, list_elem_of_In, in_map_iff. by exists (k', v).
Qed.

(** A [set] that raises has stored nothing: what the cache holds
    afterwards, it held before. *)
Lemma set_raises_adds_nothing {A : Type} (now : Z) (k : string) (v : A) (ttl : option Z)
    (c c' : Cache.ResponseCache A) (e : Py.exn) :
  PyDict.wf (Cache.cache c) ->
  Cache.set now k v ttl c = (Py.Raise e, c') ->
  forall k' entry,
    PyDict.get k' (Cache.cache c') = Some entry ->
    PyDict.get k' (Cache.cache c) = Some entry.
Proof.
  intros Hwf Hset k' entry Hget.
  destruct (set_spec now k v ttl c Hwf) as (evicted & kept & Hperm & _ & _ & Hk & Heq).
  rewrite Heq in Hset.
  destruct (Cache.CacheEntry_init v (default (Cache.default_ttl c) ttl) now); [done|].
  injection Hset as _ <-. cbn [Cache.cache Cache.with_cache] in Hget.
  apply dict_In_get; [done|]. apply dict_get_In in Hget.
  assert (In (k', entry) (Spec.swept now (Cache.cache c))) as Hin.
  { eapply Permutation_in; [symmetry; exact Hperm|]. apply in_or_app. by right. }
  unfold Spec.swept in Hin. destruct (_ =? _)%nat; [|done].
  by apply filter_In in Hin as [Hin _].
Qed.

Lemma dict_get_remove_sub {V : Type} (k k' : string) (v : V) (d : PyDict.t V) :
  PyDict.get k' (PyDict.remove k d) = Some v -> PyDict.get k' d = Some v.
Proof.
  destruct (String.eqb_spec k' k) as [->|Hne].
  - by rewrite dict_get_remove.
  - by rewrite dict_get_remove_other.
Qed.

Lemma route_miss_effect
    (now later : Z) (name server_id actual : string) (arguments : types.json)
    (context : ClientIdentifier.ConnectionContext) (r : Router.MCPRouter) :
  PyDict.wf (Cache.cache (Router.cache r)) ->
  Router._parse_namespaced_tool name = Py.Return (server_id, actual) ->
  PyDict.get (call_tool_key server_id actual arguments) (Cache.cache (Router.cache r))
  = None ->
  let result := Router.route_request call_tool_key now later
                  (types.CallToolRequest name arguments) context r in
  (forall err,
      result.1 = Py.Return (Router.Error err) ->
      forall k entry,
        PyDict.get k (Cache.cache (Router.cache result.2)) = Some entry ->
        PyDict.get k (Cache.cache (Router.cache r)) = Some entry)
  /\ (forall x,
        result.1 = Py.Return (Router.ToolResult x) ->
        exists entry,
          PyDict.get (call_tool_key server_id actual arguments)
            (Cache.cache (Router.cache result.2)) = Some entry
          /\ Cache.data entry = x).
Proof.
  intros Hwf Hparse Hget result. subst result.
  unfold Router.route_request, Router.dispatch, Router._route_tool_call.
  rewrite Hparse, get_cases, Hget.
  set (key := call_tool_key server_id actual arguments) in *.
  rewrite with_cache_same.
  destruct (ServerManager.call_tool server_id actual arguments (Router.server_manager r))
    as [awaited m].
  destruct (Py.wait_for awaited) as [res|e].
  - cbn [Router.cache Router.with_server_manager Router.with_cache].
    pose proof (set_raises_adds_nothing later key res (Some 300%Z) (Router.cache r))
      as Hraise.
    destruct (set_spec later key res (Some 300%Z) (Router.cache r) Hwf)
      as (evicted & kept & _ & _ & _ & _ & Hset).
    pose proof (entry_init_cases res
                  (default (Cache.default_ttl (Router.cache r)) (Some 300%Z)) later)
      as Hinit.
    destruct (Cache.CacheEntry_init res
                (default (Cache.default_ttl (Router.cache r)) (Some 300%Z)) later)
      as [stored|e0].
    + rewrite Hset. cbn [fst snd Router.cache Router.with_cache Cache.cache Cache.with_cache].
      split; [done|]. intros x [= <-]. exists stored.
      rewrite dict_get_setitem. destruct Hinit as [-> _]. done.
    + specialize (Hraise _ _ Hwf Hset). rewrite Hset.
      cbn [Cache.cache Cache.with_cache] in Hraise.
      destruct Hinit as [[msg ->] _].
      cbn [fst snd Py.is_exception Router.cache Router.with_cache Cache.cache Cache.with_cache].
      split; [|done]. intros err _. exact Hraise.
  - split.
    + intros err _ k entry.
      destruct e; simpl; done.
    + intros x. destruct e; simpl; done.
Qed.

Lemma route_expired_as_removed
    (now later : Z) (name server_id actual : string) (arguments : types.json)
    (context : ClientIdentifier.ConnectionContext) (r : Router.MCPRouter)
    (entry : Cache.CacheEntry types.CallToolResult) :
  Router._parse_namespaced_tool name = Py.Return (server_id, actual) ->
  PyDict.get (call_tool_key server_id actual arguments) (Cache.cache (Router.cache r))
  = Some entry ->
  Cache.is_expired now entry = true ->
  Router.route_request call_tool_key now later
    (types.CallToolRequest name arguments) context r
  = Router.route_request call_tool_key now later
      (types.CallToolRequest name arguments) context
      (Router.with_cache r
         (Cache.with_cache (Router.cache r)
            (PyDict.remove (call_tool_key server_id actual arguments)
               (Cache.cache (Router.cache r))))).
Proof.
  intros Hparse Hget Hexp.
  unfold Router.route_request, Router.dispatch, Router._route_tool_call.
  rewrite Hparse, !get_cases, Hget, Hexp.
  cbn [Router.cache Router.with_cache Cache.cache Cache.with_cache].
  by rewrite dict_get_remove.
Qed.

(** X18. What a tool call does to the router's cache.  An answer that is
    an [ErrorData] adds nothing to the cache: every entry the cache holds
    afterwards it held before (entries may be gone: the expired entry of
    this call, and what the sweep and the eviction of a [set] removed
    whose entry could not be built).  An answer that is a
    [CallToolResult] is in the cache afterwards under the key of the
    call, whether it was served from the cache or came from the backend,
    and whether or not its [isError] flag is set: results that report an
    error of the tool are cached like any other. *)
Theorem tool_call_cache_effect
    (now later : Z) (name : string) (arguments : types.json)
    (context : ClientIdentifier.ConnectionContext) (r : Router.MCPRouter) :
  PyDict.wf (Cache.cache (Router.cache r)) ->
  let result := Router.route_request call_tool_key now later
                  (types.CallToolRequest name arguments) context r in
  (forall err,
      result.1 = Py.Return (Router.Error err) ->
      forall k entry,
        PyDict.get k (Cache.cache (Router.cache result.2)) = Some entry ->
        PyDict.get k (Cache.cache (Router.cache r)) = Some entry)
  /\ (forall x,
        result.1 = Py.Return (Router.ToolResult x) ->
        exists server_id actual entry,
          Router._parse_namespaced_tool name = Py.Return (server_id, actual)
          /\ PyDict.get (call_tool_key server_id actual arguments)
               (Cache.cache (Router.cache result.2)) = Some entry
          /\ Cache.data entry = x).
Proof.
  intros Hwf result.
  destruct (Router._parse_namespaced_tool name) as [[server_id actual]|e] eqn:Hparse.
  2:{ subst result.
      unfold Router.route_request, Router.dispatch, Router._route_tool_call.
      rewrite Hparse. split.
      - intros err _ k entry. by destruct (Py.is_exception e).
      - intros x. by destruct (Py.is_exception e). }
  set (key := call_tool_key server_id actual arguments).
  destruct (PyDict.get key (Cache.cache (Router.cache r))) as [entry|] eqn:Hget.
  - destruct (Z.ltb_spec (Cache.expires_at entry) now) as [Hexp|Hlive].
    + subst result.
      rewrite (route_expired_as_removed now later name server_id actual arguments
                 context r entry Hparse Hget)
        by (unfold Cache.is_expired; by apply Z.ltb_lt).
      fold key.
      set (r' := Router.with_cache r
                   (Cache.with_cache (Router.cache r)
                      (PyDict.remove key (Cache.cache (Router.cache r))))).
      destruct (route_miss_effect now later name server_id actual arguments context r')
        as [Herr Hres].
      * by apply dict_wf_remove.
      * exact Hparse.
      * apply dict_get_remove.
      * split.
        -- intros err Herrd k entry' Hk.
           apply (dict_get_remove_sub key). by apply (Herr err Herrd).
        -- intros x Hx. destruct (Hres x Hx) as (stored & Hstored & Hdata).
           by exists server_id, actual, stored.
    + subst result.
      rewrite (route_cache_hit now later name server_id actual arguments
                 context r entry Hparse Hget Hlive).
      split; [done|]. intros x [= <-]. by exists server_id, actual, entry.
  - destruct (route_miss_effect now later name server_id actual arguments context r
                Hwf Hparse Hget) as [Herr Hres].
    split; [exact Herr|].
    intros x Hx. destruct (Hres x Hx) as (stored & Hstored & Hdata).
    by exists server_id, actual, stored.
Qed.

(** X19. The second of two identical calls is served from the cache.
    When a tool call misses the cache and the backend answers, at a time
    from which 300 seconds later is still a [datetime], the router
    returns the answer, the backend's request counter goes up by one, and
    the answer is stored for 300 seconds: every identical call made no
    later than that returns the same answer and leaves the router, request
    counters included, as it is.  (Without the condition on the clock the
    entry cannot be built and the call is answered with an error, see
    [call_at_the_end_of_time].) *)
Theorem repeated_call_served_from_cache
    (now later : Z) (name server_id actual : string) (arguments : types.json)
    (context : ClientIdentifier.ConnectionContext) (r : Router.MCPRouter)
    (c0 : Cache.ResponseCache types.CallToolResult)
    (p : Process.MCPProcess) (s : Process.ClientSession) (x : types.CallToolResult) :
  PyDict.wf (Cache.cache (Router.cache r)) ->
  Router._parse_namespaced_tool name = Py.Return (server_id, actual) ->
  Cache.get now (call_tool_key server_id actual arguments) (Router.cache r)
  = Py.Return (None, c0) ->
  PyDict.get server_id (ServerManager.processes (Router.server_manager r)) = Some p ->
  Process.session p = Some s ->
  Process.on_call_tool s actual arguments = Process.Replies x ->
  Spec.representable later 300 ->
  exists r1,
    Router.route_request call_tool_key now later
      (types.CallToolRequest name arguments) context r
    = (Py.Return (Router.ToolResult x), r1)
    /\ (Process.request_count
          <$> PyDict.get server_id (ServerManager.processes (Router.server_manager r1)))
       = Some (S (Process.request_count p))
    /\ forall now2 later2 context2,
         (now2 <= later + 300000000)%Z ->
         Router.route_request call_tool_key now2 later2
           (types.CallToolRequest name arguments) context2 r1
         = (Py.Return (Router.ToolResult x), r1).
Proof.
  intros Hwf Hparse Hmiss Hp Hs Hout Hrep.
  assert (PyDict.wf (Cache.cache c0)) as Hwf0.
  { rewrite get_cases in Hmiss.
    destruct (PyDict.get _ (Cache.cache (Router.cache r))) as [entry|]; [|by injection Hmiss as <-].
    destruct (Cache.is_expired now entry); [|done].
    injection Hmiss as <-. by apply dict_wf_remove. }
  destruct (set_returns later (call_tool_key server_id actual arguments) x (Some 300%Z)
              c0 Hwf0 Hrep) as (d2 & Hset & _).
  eexists. split; [|split].
  - unfold Router.route_request, Router.dispatch, Router._route_tool_call.
    rewrite Hparse, Hmiss. unfold ServerManager.call_tool.
    cbn [Router.server_manager Router.with_cache]. rewrite Hp.
    unfold Process.call_tool. rewrite Hs. cbn [Process.count_request Process.session].
    rewrite Hout. cbn [Process.await_session Py.wait_for Router.cache Router.with_server_manager Router.with_cache].
    rewrite Hset. reflexivity.
  - cbn [Router.server_manager Router.with_server_manager Router.with_cache ServerManager.processes ServerManager.with_processes].
    rewrite dict_get_setitem. reflexivity.
  - intros now2 later2 context2 Hsoon.
    apply (route_cache_hit now2 later2 name server_id actual arguments
             context2 _ (Cache.new_entry x 300 later)); [exact Hparse | |].
    + cbn [Router.cache Router.with_cache Cache.cache Cache.with_cache].
      apply dict_get_setitem.
    + cbn [Cache.expires_at Cache.new_entry default]. lia.
Qed.

End RouterCache.

Lemma cache_hit_skips_backend_witness :
  Router.route_request Examples.plain_key 20 30
    (types.CallToolRequest "fs.read_file" "{}") (Examples.context_of "guest")
    Examples2.cached_router
  = (Py.Return (Router.ToolResult Examples2.ok_result), Examples2.cached_router).
Proof.
  apply (cache_hit_skips_backend Examples.plain_key 20 30 "fs.read_file" "fs" "read_file"
           "{}" (Examples.context_of "guest") Examples2.cached_router
           (Cache.new_entry Examples2.ok_result 300 10)).
  - reflexivity.
  - reflexivity.
  - simpl. lia.
Defined.

Lemma tool_call_cache_effect_witness :
  exists entry,
    PyDict.get (Examples.plain_key "fs" "read_file" "{}")
      (Cache.cache (Router.cache
         (Router.route_request Examples.plain_key 0 10
            (types.CallToolRequest "fs.read_file" "{}") (Examples.context_of "guest")
            Examples2.complaining_router).2))
    = Some entry
    /\ types.isError (Cache.data entry) = true.
Proof.
  destruct (tool_call_cache_effect Examples.plain_key 0 10 "fs.read_file" "{}"
              (Examples.context_of "guest") Examples2.complaining_router)
    as [_ Hresult].
  - constructor.
  - destruct (Hresult Examples2.error_result) as (sid & actual & entry & Hparse & Hget & Hdata).
    + reflexivity.
    + vm_compute in Hparse. injection Hparse as <- <-.
      exists entry. split; [exact Hget|]. rewrite Hdata. reflexivity.
Defined.

Lemma repeated_call_served_from_cache_witness :
  exists r1,
    Router.route_request Examples.plain_key 0 10
      (types.CallToolRequest "fs.read_file" "{}") (Examples.context_of "guest")
      Examples.live_router
    = (Py.Return (Router.ToolResult Examples2.ok_result), r1)
    /\ Router.route_request Examples.plain_key 300000010 300000020
         (types.CallToolRequest "fs.read_file" "{}") (Examples.context_of "guest") r1
       = (Py.Return (Router.ToolResult Examples2.ok_result), r1).
Proof.
  destruct (repeated_call_served_from_cache Examples.plain_key 0 10 "fs.read_file"
              "fs" "read_file" "{}" (Examples.context_of "guest") Examples.live_router
              (Router.cache Examples.live_router)
              (Examples.running "fs"
                 (Process.Replies {| types.tools := [Examples.tool "read_file"] |})).2
              {| Process.on_list_tools :=
                   Process.Replies {| types.tools := [Examples.tool "read_file"] |};
                 Process.on_call_tool := Process.on_call_tool Examples.echo_session |}
              Examples2.ok_result)
    as (r1 & Hfirst & _ & Hagain).
  - constructor.
  - reflexivity.
  - reflexivity.
  - reflexivity.
  - reflexivity.
  - reflexivity.
  - unfold Spec.representable, Datetime.datetime_max. lia.
  - exists r1. split; [exact Hfirst|]. apply Hagain. lia.
Defined.

(** At the last [datetime] the entry of an answer cannot be built: the
    backend has answered, and the router reports a backend error. *)
Example call_at_the_end_of_time :
  (Router.route_request Examples.plain_key 0 Datetime.datetime_max
     (types.CallToolRequest "fs.read_file" "{}") (Examples.context_of "guest")
     Examples.live_router).1
  = Py.Return (Router.Error
      {| types.code := types.INTERNAL_ERROR;
         types.message := "Backend error: date value out of range" |}).
Proof. vm_compute. reflexivity. Qed.

(** ** Stopping and restarting backends *)

Lemma dict_get_setitem_other {V : Type} (k k' : string) (v : V) (d : PyDict.t V) :
  k' <> k -> PyDict.get k' (PyDict.setitem k v d) = PyDict.get k' d.
Proof.
  intros Hne. induction d as [|[k0 v0] d IH]; simpl.
  - by destruct (String.eqb_spec k' k).
  - destruct (String.eqb_spec k k0) as [->|Hk]; simpl.
    + by destruct (String.eqb_spec k' k0).
    + destruct (String.eqb_spec k' k0); [done|apply IH].
Qed.

Lemma dict_In_setitem {V : Type} (k k' : string) (v v' : V) (d : PyDict.t V) :
  In (k', v') (PyDict.setitem k v d) -> (k' = k /\ v' = v) \/ In (k', v') d.
Proof.
  induction d as [|[k0 v0] d IH]; simpl.
  - intros [[= <- <-]|[]]. by left.
  - destruct (String.eqb_spec k k0) as [->|Hk]; simpl.
    + intros [[= <- <-]|Hin]; [by left | right; by right].
    + intros [Heq|Hin]; [right; by left|].
      destruct (IH Hin) as [?|?]; [by left | right; by right].
Qed.

Lemma dict_In_remove {V : Type} (k k' : string) (v' : V) (d : PyDict.t V) :
  In (k', v') (PyDict.remove k d) -> k' <> k /\ In (k', v') d.
Proof.
  unfold PyDict.remove. rewrite filter_In. simpl. intros [Hin Hk]. split; [|done].
  intros ->. by rewrite String.eqb_refl in Hk.
Qed.

Lemma dict_delitem_present {V : Type} (k : string) (v : V) (d : PyDict.t V) :
  PyDict.get k d = Some v -> PyDict.delitem k d = Py.Return (PyDict.remove k d).
Proof. intros Hget. unfold PyDict.delitem, PyDict.mem. by rewrite Hget. Qed.

(** [MCPProcess.stop] when no clean-up step is cancelled. *)
Lemma stop_uncancelled session_exit stdio_exit p :
  Supervisor.escapes session_exit = None ->
  Supervisor.escapes stdio_exit = None ->
  exists p', Supervisor.stop session_exit stdio_exit p = (Py.Return (), p').
Proof.
  intros Hs Ht. unfold Supervisor.stop.
  destruct (negb _); [by eexists|].
  destruct (Process.session p); [|by eexists].
  rewrite Hs, Ht. by eexists.
Qed.

Lemma stop_server_uncancelled session_exit stdio_exit server_id m :
  Supervisor.escapes session_exit = None ->
  Supervisor.escapes stdio_exit = None ->
  Supervisor.stop_server session_exit stdio_exit server_id m
  = (Py.Return (),
     ServerManager.with_processes m
       (PyDict.remove server_id (ServerManager.processes m))).
Proof.
  intros Hs Ht. unfold Supervisor.stop_server.
  destruct (PyDict.get server_id (ServerManager.processes m)) as [p|] eqn:Hget.
  - destruct (stop_uncancelled session_exit stdio_exit p Hs Ht) as [p' ->].
    by rewrite (dict_delitem_present _ _ _ Hget).
  - rewrite (dict_remove_absent _ _ Hget). by destruct m.
Qed.

(** X20. Stopping a server, when no clean-up step is cancelled, returns
    normally and takes exactly that server out of the session map: the
    server is absent afterwards, every other server keeps its process,
    and the configuration is untouched.  This holds whatever the status
    of the process was and whatever the clean-up steps raised. *)
Theorem stop_server_removes_only_that_server
    (session_exit stdio_exit : Py.result unit) (server_id : string)
    (m : ServerManager.MCPServerManager) :
  Supervisor.escapes session_exit = None ->
  Supervisor.escapes stdio_exit = None ->
  exists m',
    Supervisor.stop_server session_exit stdio_exit server_id m = (Py.Return (), m')
    /\ ServerManager.servers m' = ServerManager.servers m
    /\ PyDict.get server_id (ServerManager.processes m') = None
    /\ forall k, k <> server_id ->
         PyDict.get k (ServerManager.processes m')
         = PyDict.get k (ServerManager.processes m).
Proof.
  intros Hs Ht. eexists. split; [by apply stop_server_uncancelled|].
  split; [done|]. split.
  - apply dict_get_remove.
  - intros k Hk. by apply dict_get_remove_other.
Qed.

Lemma stop_server_removes_only_that_server_witness :
  exists m',
    Supervisor.stop_server (Py.Raise (Py.RuntimeError "closed")) (Py.Return ())
      "fs" Examples2.fs_backend = (Py.Return (), m')
    /\ PyDict.get "fs" (ServerManager.processes m') = None.
Proof.
  destruct (stop_server_removes_only_that_server
              (Py.Raise (Py.RuntimeError "closed")) (Py.Return ())
              "fs" Examples2.fs_backend) as (m' & Heq & _ & Hgone & _).
  - reflexivity.
  - reflexivity.
  - exists m'. split; [exact Heq | exact Hgone].
Defined.

(** The process that [start_server] registers. *)
Lemma process_start_fresh spawn server_id cfg path :
  match Process.start spawn (Process.init server_id cfg path) with
  | (Py.Return _, p) =>
      exists s, spawn = Py.Return s /\ transport cfg = stdio
        /\ p = Process.with_status
                 (Process.with_session
                    (Process.with_status (Process.init server_id cfg path)
                       Process.STARTING) (Some s)) Process.RUNNING
  | (Py.Raise _, _) => True
  end.
Proof.
  unfold Process.start. simpl.
  destruct (transport cfg) eqn:Ht; simpl.
  - destruct spawn as [s|e]; simpl.
    + by exists s.
    + destruct (Py.is_exception e) eqn:He; simpl; rewrite ?He; done.
  - done.
  - done.
Qed.

(** What [start_server] can do to the session map: nothing, or register
    a fresh running process under a key that was absent. *)
Lemma start_server_registers spawn server_id m :
  (ServerManager.start_server spawn server_id m).2 = m
  \/ exists cfg path s,
       ServerManager.servers m !! server_id = Some cfg
       /\ enabled cfg = true /\ transport cfg = stdio /\ spawn = Py.Return s
       /\ PyDict.get server_id (ServerManager.processes m) = None
       /\ ServerManager.start_server spawn server_id m
          = (Py.Return (),
             ServerManager.with_processes m
               (PyDict.setitem server_id
                  (Process.with_status
                     (Process.with_session
                        (Process.with_status (Process.init server_id cfg path)
                           Process.STARTING) (Some s)) Process.RUNNING)
                  (ServerManager.processes m))).
Proof.
  unfold ServerManager.start_server, PyDict.mem.
  destruct (PyDict.get server_id (ServerManager.processes m)) eqn:Hget; [by left|].
  destruct (ServerManager.servers m !! server_id) as [cfg|] eqn:Hcfg; [|by left].
  destruct (enabled cfg) eqn:Hen; simpl; [|by left].
  destruct (ServerManager._ensure_server_installed m server_id cfg) as [path|e];
    [|by left].
  pose proof (process_start_fresh spawn server_id cfg path) as Hstart.
  destruct (Process.start spawn (Process.init server_id cfg path)) as [[[]|e] p];
    [|by left].
  destruct Hstart as (s & -> & Ht & ->).
  right. by exists cfg, path, s.
Qed.

Lemma start_server_raises_unchanged spawn server_id m e m' :
  ServerManager.start_server spawn server_id m = (Py.Raise e, m') -> m' = m.
Proof.
  intros Heq. destruct (start_server_registers spawn server_id m) as [Hsame|Hreg].
  - rewrite Heq in Hsame. done.
  - destruct Hreg as (cfg & path & s & _ & _ & _ & _ & _ & Hret).
    rewrite Hret in Heq. discriminate.
Qed.

(** X21. Restarting a server, when no clean-up step is cancelled, never
    touches another server, and a restart that raises leaves the server
    out of the session map: a server that was running and whose restart
    fails is not running afterwards.  A restart that returns has either
    registered a fresh process (open session, status RUNNING, both
    counters zero) or, for a disabled server, none. *)
Theorem restart_server_outcome
    (session_exit stdio_exit : Py.result unit) (spawn : Py.result Process.ClientSession)
    (server_id : string) (m : ServerManager.MCPServerManager) :
  Supervisor.escapes session_exit = None ->
  Supervisor.escapes stdio_exit = None ->
  exists r m',
    Supervisor.restart_server session_exit stdio_exit spawn server_id m = (r, m')
    /\ (forall k, k <> server_id ->
          PyDict.get k (ServerManager.processes m')
          = PyDict.get k (ServerManager.processes m))
    /\ match r with
       | Py.Raise _ => PyDict.get server_id (ServerManager.processes m') = None
       | Py.Return _ =>
           match PyDict.get server_id (ServerManager.processes m') with
           | Some p =>
               exists cfg s,
                 ServerManager.servers m !! server_id = Some cfg
                 /\ enabled cfg = true /\ spawn = Py.Return s
                 /\ Process.session p = Some s
                 /\ Process.status p = Process.RUNNING
                 /\ Process.config p = cfg
                 /\ Process.request_count p = 0%nat
                 /\ Process.error_count p = 0%nat
           | None =>
               exists cfg, ServerManager.servers m !! server_id = Some cfg
                           /\ enabled cfg = false
           end
       end.
Proof.
  intros Hs Ht. unfold Supervisor.restart_server.
  set (m0 := ServerManager.with_processes m
               (PyDict.remove server_id (ServerManager.processes m))).
  assert ((if PyDict.mem server_id (ServerManager.processes m)
           then Supervisor.stop_server session_exit stdio_exit server_id m
           else (Py.Return (), m)) = (Py.Return (), m0)) as ->.
  { unfold PyDict.mem.
    destruct (PyDict.get server_id (ServerManager.processes m)) eqn:Hget.
    - by apply stop_server_uncancelled.
    - unfold m0. rewrite (dict_remove_absent _ _ Hget). by destruct m. }
  assert (PyDict.get server_id (ServerManager.processes m0) = None) as Hgone
    by apply dict_get_remove.
  assert (forall k, k <> server_id ->
            PyDict.get k (ServerManager.processes m0)
            = PyDict.get k (ServerManager.processes m)) as Hother
    by (intros k Hk; by apply dict_get_remove_other).
  destruct (start_server_registers spawn server_id m0) as [Hsame|Hreg].
  - destruct (ServerManager.start_server spawn server_id m0) as [r m'] eqn:Hstart.
    simpl in Hsame. subst m'. exists r, m0. split; [done|]. split; [done|].
    destruct r as [[]|e]; [|done]. rewrite Hgone.
    revert Hstart. unfold ServerManager.start_server, PyDict.mem. rewrite Hgone.
    change (ServerManager.servers m0) with (ServerManager.servers m).
    destruct (ServerManager.servers m !! server_id) as [cfg|]; [|done].
    destruct (enabled cfg) eqn:Hen; simpl; [|by exists cfg].
    destruct (ServerManager._ensure_server_installed m0 server_id cfg) as [path|e];
      [|done].
    pose proof (process_start_fresh spawn server_id cfg path) as Hfresh.
    destruct (Process.start spawn (Process.init server_id cfg path)) as [[[]|e] p];
      [|done].
    intros [= Hm0]. exfalso.
    apply (f_equal (PyDict.get server_id)) in Hm0.
    rewrite dict_get_setitem, dict_get_remove in Hm0. discriminate.
  - destruct Hreg as (cfg & path & s & Hcfg & Hen & _ & -> & _ & ->).
    eexists _, _. split; [done|]. split.
    + intros k Hk. cbn [ServerManager.processes ServerManager.with_processes].
      rewrite dict_get_setitem_other by done. by apply Hother.
    + cbn [ServerManager.processes ServerManager.with_processes].
      rewrite dict_get_setitem. by exists cfg, s.
Qed.

Lemma restart_server_outcome_witness :
  PyDict.get "fs"
    (ServerManager.processes
       (Supervisor.restart_server (Py.Return ()) (Py.Return ())
          (Py.Return Examples.echo_session) "fs" Examples2.fs_backend).2)
  = None.
Proof.
  destruct (restart_server_outcome (Py.Return ()) (Py.Return ())
              (Py.Return Examples.echo_session) "fs" Examples2.fs_backend)
    as (r & m' & Heq & _ & Hcase).
  - reflexivity.
  - reflexivity.
  - rewrite Heq. simpl.
    assert (r = Py.Raise (Py.RuntimeError "install failed")) as Hr.
    { apply (f_equal fst) in Heq. vm_compute in Heq. symmetry. exact Heq. }
    rewrite Hr in Hcase. exact Hcase.
Defined.

Lemma dict_setitem_same {V : Type} (k : string) (v : V) (d : PyDict.t V) :
  PyDict.get k d = Some v -> PyDict.setitem k v d = d.
Proof.
  induction d as [|[k0 v0] d IH]; simpl; [done|].
  destruct (String.eqb_spec k k0) as [->|Hk].
  - by intros [= ->].
  - intros Hget. by rewrite IH.
Qed.

(** [Process.call_tool] changes the two counters only. *)
Lemma process_call_tool_fields name arguments p :
  let p' := (Process.call_tool name arguments p).2 in
  Process.server_id p' = Process.server_id p
  /\ Process.config p' = Process.config p
  /\ Process.session p' = Process.session p
  /\ Process.status p' = Process.status p
  /\ (Process.error_count p <= Process.request_count p ->
      Process.error_count p' <= Process.request_count p')%nat.
Proof.
  unfold Process.call_tool. destruct (Process.session p) as [s|] eqn:Hs; simpl.
  - destruct (Process.on_call_tool s name arguments) as [x|e| |]; simpl;
      try destruct e; simpl; repeat split; try done; lia.
  - by rewrite Hs.
Qed.

Lemma session_map_ok_remove server_id m :
  Supervisor.session_map_ok m ->
  Supervisor.session_map_ok
    (ServerManager.with_processes m
       (PyDict.remove server_id (ServerManager.processes m))).
Proof.
  intros [Hwf Hall]. split.
  - by apply dict_wf_remove.
  - intros k p Hin. apply dict_In_remove in Hin as [_ Hin]. by apply Hall.
Qed.

Lemma session_map_ok_start spawn server_id m :
  Supervisor.session_map_ok m ->
  Supervisor.session_map_ok (ServerManager.start_server spawn server_id m).2.
Proof.
  intros Hok. destruct (start_server_registers spawn server_id m) as [->|Hreg]; [done|].
  destruct Hreg as (cfg & path & s & Hcfg & _ & _ & _ & _ & ->).
  destruct Hok as [Hwf Hall]. split.
  - by apply dict_wf_setitem.
  - intros k p Hin. apply dict_In_setitem in Hin as [[-> ->]|Hin]; [|by apply Hall].
    simpl. repeat split; done.
Qed.

Lemma session_map_ok_step o m :
  Supervisor.uncancelled o ->
  Supervisor.session_map_ok m -> Supervisor.session_map_ok (Supervisor.step o m).
Proof.
  intros Hun Hok. destruct o as [sid spawn|sid se te|sid se te spawn|sid tool args];
    simpl in *.
  - by apply session_map_ok_start.
  - destruct Hun as [Hs Ht]. rewrite stop_server_uncancelled by done.
    by apply session_map_ok_remove.
  - destruct Hun as [Hs Ht]. unfold Supervisor.restart_server, PyDict.mem.
    destruct (PyDict.get sid (ServerManager.processes m)).
    + rewrite stop_server_uncancelled by done.
      by apply session_map_ok_start, session_map_ok_remove.
    + by apply session_map_ok_start.
  - unfold ServerManager.call_tool.
    destruct (PyDict.get sid (ServerManager.processes m)) as [p|] eqn:Hget; [|done].
    pose proof (process_call_tool_fields tool args p) as Hf.
    destruct (Process.call_tool tool args p) as [r p']. simpl in *.
    destruct Hf as (Hid & Hc & Hse & Hst & Hcnt).
    destruct Hok as [Hwf Hall]. split.
    + by apply dict_wf_setitem.
    + intros k q Hin. apply dict_In_setitem in Hin as [[-> ->]|Hin]; [|by apply Hall].
      apply dict_get_In in Hget.
      destruct (Hall sid p Hget) as (H1 & H2 & H3 & H4 & H5).
      rewrite Hid, Hc, Hse, Hst. repeat split; auto.
Qed.

(** X22. The supervisor's session map stays consistent.  Starting from a
    consistent map (the empty one is), every sequence of start, stop,
    restart and tool-call operations in which no clean-up step is
    cancelled leaves a map in which no server id occurs twice and every
    registered process carries the id it is filed under, has status
    RUNNING and an open session, has counted no more errors than
    requests, and runs with the configuration of its server. *)
Theorem session_map_invariant (ops : list Supervisor.op)
    (m : ServerManager.MCPServerManager) :
  Forall Supervisor.uncancelled ops ->
  Supervisor.session_map_ok m ->
  Supervisor.session_map_ok (Supervisor.run ops m).
Proof.
  unfold Supervisor.run. revert m.
  induction ops as [|o ops IH]; intros m Hops Hok; simpl; [done|].
  apply Forall_cons in Hops as [Ho Hops].
  apply IH; [done|]. by apply session_map_ok_step.
Qed.

Lemma session_map_invariant_witness :
  Supervisor.session_map_ok (Supervisor.run Examples2.day Examples2.idle_supervisor).
Proof.
  apply session_map_invariant.
  - unfold Examples2.day. repeat constructor.
  - split; [constructor | intros server_id process []].
Defined.

(** X23. A stop that is cancelled while the session is being closed
    leaves a dead entry behind: [stop_server] raises the cancellation,
    and the process stays in the session map with no session and status
    STOPPING.  From then on a tool call for the server fails with the
    process's [RuntimeError], and [start_server] returns without
    starting anything because the id is still in the map. *)
Theorem cancelled_stop_leaves_dead_entry
    (session_exit stdio_exit : Py.result unit) (e : Py.exn) (server_id : string)
    (m : ServerManager.MCPServerManager) (p : Process.MCPProcess)
    (s : Process.ClientSession) :
  PyDict.get server_id (ServerManager.processes m) = Some p ->
  Process.status p = Process.RUNNING ->
  Process.session p = Some s ->
  Supervisor.escapes session_exit = Some e ->
  exists m' p',
    Supervisor.stop_server session_exit stdio_exit server_id m = (Py.Raise e, m')
    /\ PyDict.get server_id (ServerManager.processes m') = Some p'
    /\ Process.session p' = None
    /\ Process.status p' = Process.STOPPING
    /\ (forall spawn,
          ServerManager.start_server spawn server_id m' = (Py.Return (), m'))
    /\ (forall tool_name arguments,
          ServerManager.call_tool server_id tool_name arguments m'
          = (Py.Raise (Py.RuntimeError
               ("MCP server " +:+ Process.server_id p +:+ " not running")),
             m')).
Proof.
  intros Hget Hst Hse Hesc. unfold Supervisor.stop_server, Supervisor.stop.
  rewrite Hget, Hst, Hse, Hesc. simpl.
  eexists _, _. split; [done|].
  cbn [ServerManager.processes ServerManager.with_processes].
  rewrite dict_get_setitem. repeat split.
  - intros spawn. unfold ServerManager.start_server, PyDict.mem.
    cbn [ServerManager.processes ServerManager.with_processes].
    by rewrite dict_get_setitem.
  - intros tool_name arguments. unfold ServerManager.call_tool.
    cbn [ServerManager.processes ServerManager.with_processes].
    rewrite dict_get_setitem. unfold Process.call_tool. simpl.
    f_equal. unfold ServerManager.with_processes. simpl. f_equal.
    apply dict_setitem_same, dict_get_setitem.
Qed.

Lemma cancelled_stop_leaves_dead_entry_witness :
  exists m',
    Supervisor.stop_server (Py.Raise Py.CancelledError) (Py.Return ())
      "fs" Examples2.fs_backend = (Py.Raise Py.CancelledError, m')
    /\ ServerManager.call_tool "fs" "read_file" "{}" m'
       = (Py.Raise (Py.RuntimeError "MCP server fs not running"), m').
Proof.
  destruct (cancelled_stop_leaves_dead_entry
              (Py.Raise Py.CancelledError) (Py.Return ()) Py.CancelledError
              "fs" Examples2.fs_backend
              (Examples.running "fs"
                 (Process.Replies
                    {| types.tools :=
                         [Examples.tool "read_file"; Examples.tool "write_file"] |})).2
              {| Process.on_list_tools :=
                   Process.Replies
                     {| types.tools :=
                          [Examples.tool "read_file"; Examples.tool "write_file"] |};
                 Process.on_call_tool := Process.on_call_tool Examples.echo_session |})
    as (m' & p' & Heq & _ & _ & _ & _ & Hcall).
  - reflexivity.
  - reflexivity.
  - reflexivity.
  - reflexivity.
  - exists m'. split; [exact Heq | apply Hcall].
Defined.


Lemma start_server_non_stdio spawn server_id m cfg :
  ServerManager.servers m !! server_id = Some cfg ->
  transport cfg <> stdio ->
  (ServerManager.start_server spawn server_id m).2 = m.
Proof.
  intros Hcfg Ht. destruct (start_server_registers spawn server_id m) as [Hsame|Hreg];
    [done|].
  destruct Hreg as (cfg' & path & s & Hcfg' & _ & Ht' & _).
  congruence.
Qed.

Lemma step_servers o m :
  ServerManager.servers (Supervisor.step o m) = ServerManager.servers m.
Proof.
  assert (forall spawn sid m0,
            ServerManager.servers (ServerManager.start_server spawn sid m0).2
            = ServerManager.servers m0) as Hstart.
  { intros spawn sid m0. destruct (start_server_registers spawn sid m0) as [->|Hreg];
      [done|].
    by destruct Hreg as (cfg & path & s & _ & _ & _ & _ & _ & ->). }
  assert (forall se te sid m0,
            ServerManager.servers (Supervisor.stop_server se te sid m0).2
            = ServerManager.servers m0) as Hstop.
  { intros se te sid m0. unfold Supervisor.stop_server.
    destruct (PyDict.get sid (ServerManager.processes m0)) as [p|]; [|done].
    destruct (Supervisor.stop se te p) as [[[]|e] p']; [|done].
    by destruct (PyDict.delitem sid (ServerManager.processes m0)). }
  destruct o as [sid spawn|sid se te|sid se te spawn|sid tool args]; simpl.
  - apply Hstart.
  - apply Hstop.
  - unfold Supervisor.restart_server.
    destruct (PyDict.mem sid (ServerManager.processes m)).
    + pose proof (Hstop se te sid m) as Hs.
      destruct (Supervisor.stop_server se te sid m) as [[[]|e] m1]; simpl in *;
        [|done].
      by rewrite Hstart.
    + apply Hstart.
  - unfold ServerManager.call_tool.
    destruct (PyDict.get sid (ServerManager.processes m)) as [p|]; [|done].
    by destruct (Process.call_tool tool args p).
Qed.

Lemma stop_server_absent_other se te sid k m :
  PyDict.get k (ServerManager.processes m) = None ->
  PyDict.get k (ServerManager.processes (Supervisor.stop_server se te sid m).2) = None.
Proof.
  intros Hk. unfold Supervisor.stop_server.
  destruct (PyDict.get sid (ServerManager.processes m)) as [p|] eqn:Hget; [|done].
  assert (k <> sid) as Hne by (intros ->; congruence).
  destruct (Supervisor.stop se te p) as [[[]|e] p']; simpl.
  - rewrite (dict_delitem_present _ _ _ Hget). simpl.
    by rewrite dict_get_remove_other.
  - by rewrite dict_get_setitem_other.
Qed.

(** X25. A server whose configured transport is not stdio is never
    started.  Starting it, when it is enabled and its installation has
    succeeded, raises [NotImplementedError], and whatever sequence of
    start, stop, restart and tool-call operations the supervisor runs, the
    server is not in the session map afterwards if it was not before. *)
Theorem non_stdio_server_never_registered
    (server_id : string) (cfg : ServerConfig) (m : ServerManager.MCPServerManager) :
  ServerManager.servers m !! server_id = Some cfg ->
  transport cfg <> stdio ->
  PyDict.get server_id (ServerManager.processes m) = None ->
  (forall spawn path,
     enabled cfg = true ->
     ServerManager._ensure_server_installed m server_id cfg = Py.Return path ->
     exists msg,
       ServerManager.start_server spawn server_id m
       = (Py.Raise (Py.NotImplementedError msg), m))
  /\ forall ops,
       PyDict.get server_id (ServerManager.processes (Supervisor.run ops m)) = None.
Proof.
  intros Hcfg Ht Hget. split.
  - intros spawn path Hen Hinst. unfold ServerManager.start_server, PyDict.mem.
    rewrite Hget, Hcfg, Hen, Hinst. simpl. unfold Process.start. simpl.
    destruct (transport cfg); [done| |]; simpl; by eexists.
  - intros ops. unfold Supervisor.run. revert m Hcfg Hget.
    induction ops as [|o ops IH]; intros m Hcfg Hget; simpl; [done|].
    apply IH; [by rewrite step_servers|].
    destruct o as [sid spawn|sid se te|sid se te spawn|sid tool args]; simpl.
    + destruct (String.eqb_spec sid server_id) as [->|Hne].
      * by rewrite (start_server_non_stdio _ _ _ _ Hcfg Ht).
      * destruct (start_server_registers spawn sid m) as [->|Hreg]; [done|].
        destruct Hreg as (c & path & s & _ & _ & _ & _ & _ & ->). simpl.
        rewrite dict_get_setitem_other by done. done.
    + by apply stop_server_absent_other.
    + unfold Supervisor.restart_server.
      pose proof (stop_server_absent_other se te sid server_id m Hget) as Hstop.
      pose proof (step_servers (Supervisor.Stop sid se te) m) as Hsrv. simpl in Hsrv.
      assert (exists r m1,
                (if PyDict.mem sid (ServerManager.processes m)
                 then Supervisor.stop_server se te sid m else (Py.Return (), m))
                = (r, m1)
                /\ ServerManager.servers m1 = ServerManager.servers m
                /\ PyDict.get server_id (ServerManager.processes m1) = None)
        as (r & m1 & -> & Hs1 & Hg1).
      { destruct (PyDict.mem sid (ServerManager.processes m)).
        - destruct (Supervisor.stop_server se te sid m) as [r m1]. by exists r, m1.
        - by eexists _, _. }
      destruct r as [[]|e]; [|done].
      destruct (String.eqb_spec sid server_id) as [->|Hne].
      * rewrite (start_server_non_stdio _ _ _ cfg); [done| |done]. by rewrite Hs1.
      * destruct (start_server_registers spawn sid m1) as [->|Hreg]; [done|].
        destruct Hreg as (c & path & s & _ & _ & _ & _ & _ & ->). simpl.
        rewrite dict_get_setitem_other by done. done.
    + unfold ServerManager.call_tool.
      destruct (PyDict.get sid (ServerManager.processes m)) as [p|] eqn:Hp; [|done].
      assert (server_id <> sid) as Hne by (intros ->; congruence).
      destruct (Process.call_tool tool args p) as [r p']. simpl.
      by rewrite dict_get_setitem_other.
Qed.

Lemma non_stdio_server_never_registered_witness :
  PyDict.get "events"
    (ServerManager.processes (Supervisor.run Examples2.day Examples2.idle_supervisor))
  = None.
Proof.
  apply (non_stdio_server_never_registered "events" Examples2.sse_config
           Examples2.idle_supervisor).
  - vm_compute. reflexivity.
  - discriminate.
  - reflexivity.
Defined.

(** X26. Whether the installer reports the server as installed makes no
    difference to [_ensure_server_installed]: with [auto_install] set
    (the default) the server is installed again at every start, and a
    failing installation fails the start even when the server is already
    on disk; without it the installation path is returned without any
    check. *)
Theorem ensure_installed_ignores_is_installed
    (m : ServerManager.MCPServerManager) (server_id : string) (cfg : ServerConfig) :
  ServerManager._ensure_server_installed m server_id cfg
  = if auto_install cfg
    then ServerManager.install (ServerManager.installer m) server_id cfg
    else Py.Return
           (ServerManager.get_install_path (ServerManager.installer m) server_id cfg).
Proof.
  unfold ServerManager._ensure_server_installed.
  destruct (ServerManager.is_installed _ _ _), (auto_install cfg); done.
Qed.

(** ** The router as a whole *)

Section RouterTotal.
Variable call_tool_key : string -> string -> types.json -> string.






(** X28. No prompt is ever served.  A [GetPromptRequest] for a namespaced
    name is answered with METHOD_NOT_FOUND; for a name without a dot the
    parse error escapes the route and the answer is INTERNAL_ERROR.  The
    router's state is untouched in both cases. *)
Theorem get_prompt_never_served
    (now later : Z) (name : string)
    (context : ClientIdentifier.ConnectionContext) (r : Router.MCPRouter) :
  Router.route_request call_tool_key now later (types.GetPromptRequest name) context r
  = (Py.Return (Router.Error
       (if Py.contains "." name
        then {| types.code := types.METHOD_NOT_FOUND;
                types.message := "Get prompt not yet implemented" |}
        else {| types.code := types.INTERNAL_ERROR;
                types.message :=
                  "Internal routing error: "
                  +:+ ("Tool name must be namespaced: " +:+ name) |})), r).
Proof.
  unfold Router.route_request, Router.dispatch, Router._route_get_prompt,
    Router._parse_namespaced_tool.
  by destruct (Py.contains "." name).
Qed.

End RouterTotal.

(** ** Configuration *)

Lemma upper_char_idempotent (c : ascii) :
  PyStr.upper_char (PyStr.upper_char c) = PyStr.upper_char c.
Proof. destruct c as [[] [] [] [] [] [] [] []]; vm_compute; reflexivity. Qed.

Lemma upper_idempotent (s : string) : PyStr.upper (PyStr.upper s) = PyStr.upper s.
Proof.
  induction s as [|a s IH]; simpl; [done|]. by rewrite upper_char_idempotent, IH.
Qed.

(** One round of the loop of [adapt_config]. *)
Lemma adapt_step_env_text (env : PyDict.t string) (key : string)
    (value : ConfigAdaptation.value) :
  match value with
  | ConfigAdaptation.VNone => env
  | ConfigAdaptation.VBool b =>
      PyDict.setitem (PyStr.upper key) (if b then "true" else "false") env
  | ConfigAdaptation.VList items =>
      PyDict.setitem (PyStr.upper key) (PyStr.join "," items) env
  | ConfigAdaptation.VOther text => PyDict.setitem (PyStr.upper key) text env
  end
  = match Notions.env_text value with
    | Some t => PyDict.setitem (PyStr.upper key) t env
    | None => env
    end.
Proof. by destruct value as [|[]| |]. Qed.

Lemma adapt_config_fold (config : PyDict.t ConfigAdaptation.value) :
  ConfigAdaptation.env_vars (ConfigAdaptation.adapt_config config)
  = foldl (fun env item =>
             match Notions.env_text item.2 with
             | Some t => PyDict.setitem (PyStr.upper item.1) t env
             | None => env
             end) [] config.
Proof.
  assert (forall (l : PyDict.t ConfigAdaptation.value) (env : PyDict.t string),
            foldl (fun (env_vars : PyDict.t string)
                       (item : string * ConfigAdaptation.value) =>
                     let '(key, value) := item in
                     match value with
                     | ConfigAdaptation.VNone => env_vars
                     | ConfigAdaptation.VBool b =>
                         PyDict.setitem (PyStr.upper key)
                           (if b then "true" else "false") env_vars
                     | ConfigAdaptation.VList items =>
                         PyDict.setitem (PyStr.upper key) (PyStr.join "," items) env_vars
                     | ConfigAdaptation.VOther text =>
                         PyDict.setitem (PyStr.upper key) text env_vars
                     end) env l
            = foldl (fun env item =>
                       match Notions.env_text item.2 with
                       | Some t => PyDict.setitem (PyStr.upper item.1) t env
                       | None => env
                       end) env l) as Hfold.
  { induction l as [|[key value] l IH]; intros env; [done|].
    cbn [foldl]. rewrite adapt_step_env_text. apply IH. }
  destruct config as [|x config]; [done|].
  unfold ConfigAdaptation.adapt_config. cbn [ConfigAdaptation.env_vars]. apply Hfold.
Qed.

(** X29. What [adapt_config] puts into the environment.  No command-line
    argument is ever produced.  Every variable comes from an entry of the
    configuration whose value is not [None]: its name is the entry's key
    in upper case and its text is [true] or [false] for a [bool], the
    items joined by commas for a list, and the value's text otherwise.
    Conversely such an entry gives its variable, unless another entry with
    a value has a key that differs only in the case of its letters. *)
Theorem adapt_config_env (config : PyDict.t ConfigAdaptation.value) :
  Forall (fun key => PyStr.is_ascii key = true) (PyDict.keys config) ->
  let env := ConfigAdaptation.env_vars (ConfigAdaptation.adapt_config config) in
  ConfigAdaptation.cli_args (ConfigAdaptation.adapt_config config) = []
  /\ PyDict.wf env
  /\ (forall name text,
        PyDict.get name env = Some text ->
        PyStr.upper name = name
        /\ exists key value,
             In (key, value) config /\ PyStr.upper key = name
             /\ Notions.env_text value = Some text)
  /\ (forall key value text,
        In (key, value) config ->
        Notions.env_text value = Some text ->
        (forall key' value',
           In (key', value') config -> PyStr.upper key' = PyStr.upper key ->
           Notions.env_text value' <> None -> (key', value') = (key, value)) ->
        PyDict.get (PyStr.upper key) env = Some text).
Proof.
  intros _ env. unfold env. rewrite adapt_config_fold. clear env.
  split; [by destruct config|].
  induction config as [|[k v] config IH] using rev_ind.
  { split; [constructor|]. split; [done|]. by intros key value text []. }
  rewrite foldl_app. cbn [foldl fst snd].
  match type of IH with
  | PyDict.wf (foldl ?f ?a config) /\ _ => set (env := foldl f a config) in *
  end.
  destruct IH as (Hwf & Hsound & Hcomplete).
  destruct (Notions.env_text v) as [t|] eqn:Hv.
  - split; [by apply dict_wf_setitem|]. split.
    + intros name text. destruct (String.eqb_spec name (PyStr.upper k)) as [->|Hne].
      * rewrite dict_get_setitem. intros [= <-]. split; [apply upper_idempotent|].
        exists k, v. split; [|done]. apply in_or_app. right. by left.
      * rewrite dict_get_setitem_other by done. intros Hget.
        destruct (Hsound name text Hget) as (Hup & key & value & Hin & Hk & Ht).
        split; [done|]. exists key, value. split; [|done]. apply in_or_app. by left.
    + intros key value text Hin Ht Huniq.
      destruct (String.eqb_spec (PyStr.upper key) (PyStr.upper k)) as [Heq|Hne].
      * rewrite Heq, dict_get_setitem.
        assert ((k, v) = (key, value)) as [= -> ->].
        { apply Huniq; [apply in_or_app; right; by left|done|by rewrite Hv]. }
        congruence.
      * rewrite dict_get_setitem_other by done.
        apply in_app_or in Hin as [Hin|[[= -> ->]|[]]]; [|done].
        apply (Hcomplete key value text Hin Ht).
        intros key' value' Hin'. apply Huniq. apply in_or_app. by left.
  - split; [done|]. split.
    + intros name text Hget.
      destruct (Hsound name text Hget) as (Hup & key & value & Hin & Hk & Ht).
      split; [done|]. exists key, value. split; [|done]. apply in_or_app. by left.
    + intros key value text Hin Ht Huniq.
      apply in_app_or in Hin as [Hin|[[= -> ->]|[]]]; [|congruence].
      apply (Hcomplete key value text Hin Ht).
      intros key' value' Hin'. apply Huniq. apply in_or_app. by left.
Qed.

Lemma adapt_config_env_witness :
  PyDict.get "ROOTS"
    (ConfigAdaptation.env_vars (ConfigAdaptation.adapt_config Examples2.server_settings))
  = Some "/a,/b".
Proof.
  assert (Forall (fun key => PyStr.is_ascii key = true)
            (PyDict.keys Examples2.server_settings)) as Hascii
    by (repeat constructor).
  pose proof (adapt_config_env Examples2.server_settings Hascii) as Henv.
  cbv zeta in Henv. destruct Henv as (_ & _ & _ & Hcomplete).
  apply (Hcomplete "roots" (ConfigAdaptation.VList ["/a"; "/b"]) "/a,/b").
  - simpl. tauto.
  - reflexivity.
  - intros key' value' Hin Hup Hv. simpl in Hin.
    destruct Hin as [Hin|[Hin|[Hin|[Hin|[]]]]]; injection Hin as <- <-;
      first [reflexivity | discriminate | by destruct Hv].
Defined.

Lemma split1_spec (c : ascii) (s : string) :
  Py.contains c s = true ->
  s = (Py.split1 c s).1 +:+ String c (Py.split1 c s).2
  /\ Py.contains c (Py.split1 c s).1 = false.
Proof.
  induction s as [|a s IH]; simpl; [done|].
  destruct (Ascii.eqb_spec a c) as [->|Hne]; [done|].
  intros Hs. destruct (IH Hs) as [Heq Hl].
  destruct (Py.split1 c s) as [l r]. simpl in *.
  split; [by rewrite Heq at 1|].
  destruct (Ascii.eqb_spec a c); [done|]. exact Hl.
Qed.

Lemma source_parts (cfg : ServerConfig) (t p : string) :
  Py.contains ":" t = false ->
  source cfg = t +:+ ":" +:+ p ->
  Py.contains ":" (source cfg) = true /\ Py.split1 ":" (source cfg) = (t, p).
Proof.
  intros Ht ->. change (":" +:+ p) with (String ":" p).
  split; [apply contains_append_sep | by apply split1_append_sep].
Qed.

(** X30. Which sources pass validation, and which name a package at
    start.  [_validate_server_source] accepts exactly the sources of the
    form [npm:<path>] and [github:<path>], and [local:<path>] when the
    path exists.  [_start_stdio] takes the package name from exactly the
    sources [npm:<package>], [uvx:<package>] and [pip:<package>].  So a
    validated source names a package only if it is an [npm:] source, and
    the [uvx:] and [pip:] sources that the start understands never pass
    validation. *)
Theorem server_source_forms (path_exists : string -> bool) (cfg : ServerConfig) :
  (ServerSource._validate_server_source path_exists cfg = true
   <-> exists path,
         source cfg = "npm:" +:+ path \/ source cfg = "github:" +:+ path
         \/ (source cfg = "local:" +:+ path /\ path_exists path = true))
  /\ (forall package,
        ServerSource.requested_package cfg = Some package
        <-> source cfg = "npm:" +:+ package \/ source cfg = "uvx:" +:+ package
            \/ source cfg = "pip:" +:+ package)
  /\ (forall package,
        ServerSource._validate_server_source path_exists cfg = true ->
        ServerSource.requested_package cfg = Some package ->
        source cfg = "npm:" +:+ package).
Proof.
  assert (forall package,
            ServerSource.requested_package cfg = Some package
            <-> source cfg = "npm:" +:+ package \/ source cfg = "uvx:" +:+ package
                \/ source cfg = "pip:" +:+ package) as Hreq.
  { intros package. unfold ServerSource.requested_package. split.
    - destruct (Py.contains ":" (source cfg)) eqn:Hc; [|done].
      destruct (split1_spec _ _ Hc) as [Heq _].
      destruct (Py.split1 ":" (source cfg)) as [t p]. simpl in Heq.
      destruct (Py.str_in t _) eqn:Hin; [|done]. intros [= ->].
      apply str_in_In in Hin. rewrite Heq.
      destruct Hin as [<-|[<-|[<-|[]]]]; auto.
    - intros [H|[H|H]];
        [destruct (source_parts cfg "npm" package eq_refl H) as [-> ->]
        |destruct (source_parts cfg "uvx" package eq_refl H) as [-> ->]
        |destruct (source_parts cfg "pip" package eq_refl H) as [-> ->]]; done. }
  assert (ServerSource._validate_server_source path_exists cfg = true
          <-> exists path,
                source cfg = "npm:" +:+ path \/ source cfg = "github:" +:+ path
                \/ (source cfg = "local:" +:+ path /\ path_exists path = true))
    as Hval.
  { unfold ServerSource._validate_server_source. split.
    - destruct (Py.contains ":" (source cfg)) eqn:Hc; [|done]. cbn [negb].
      destruct (split1_spec _ _ Hc) as [Heq _].
      destruct (Py.split1 ":" (source cfg)) as [t p]. simpl in Heq.
      destruct (Py.str_in t _) eqn:Hin; [|done]. cbn [negb].
      apply str_in_In in Hin. rewrite Heq. intros Hok. exists p.
      destruct Hin as [<-|[<-|[<-|[]]]]; auto.
      right. right. split; [done|]. simpl in Hok. by destruct (path_exists p).
    - intros (path & [H|[H|[H Hex]]]);
        [destruct (source_parts cfg "npm" path eq_refl H) as [-> ->]
        |destruct (source_parts cfg "github" path eq_refl H) as [-> ->]
        |destruct (source_parts cfg "local" path eq_refl H) as [-> ->]];
        simpl; [done|done|].
      by rewrite Hex. }
  split; [exact Hval|]. split; [exact Hreq|].
  intros package Hv Hr. apply Hreq in Hr. apply Hval in Hv as (path & Hv).
  destruct Hr as [Hr|[Hr|Hr]]; [done| |];
    rewrite Hr in Hv; destruct Hv as [Hv|[Hv|[Hv _]]]; discriminate.
Qed.
